(** * Watchtower: guardrails, extractor, enrichment, catalog window and CEF escaping

    A shallow embedding of the parts of the Go sources that the checked
    properties talk about:

    - [internal/core/domain]      (IOC, ExtractIOCComponents)
    - [internal/adapter/llm]      (guardrails.go, the Triage protocol of triager.go)
    - [internal/adapter/handler]  (the enrichment loop of SentinelOneWebhook)
    - the Postgres repository     (FindSince)
    - the CEF exporter            (escapeField)

    Go strings are byte sequences, which is what [string] (a list of [ascii])
    is.  Go [int] is modelled by [Z]: every addition or subtraction in the
    embedded code happens after the operands were clamped to small ranges, so
    no 64-bit wrap-around can occur.  [time.Time] is modelled by the instant
    it denotes, a [Z]; the zero [time.Time{}] is [0]. *)

From Stdlib Require Import String Ascii List ZArith Lia Bool.
From Stdlib Require Import Sorting.Sorted Sorting.Permutation.
From Stdlib Require Import Decimal DecimalString.
Import ListNotations.

Local Open Scope string_scope.
Local Open Scope Z_scope.

(* ================================================================= *)
(** ** The fragment of Go's [strings] package used by the sources *)

Module GoStrings.

(** [strings.HasPrefix(s, prefix)] *)
Fixpoint HasPrefix (s prefix : string) {struct prefix} : bool :=
  match prefix, s with
  | EmptyString, _ => true
  | String _ _, EmptyString => false
  | String p prefix', String c s' => Ascii.eqb c p && HasPrefix s' prefix'
  end.

(** [strings.Contains(s, substr)] *)
Fixpoint Contains (s substr : string) : bool :=
  HasPrefix s substr ||
  match s with
  | EmptyString => false
  | String _ s' => Contains s' substr
  end.

(** [strings.ReplaceAll(s, old, new)] for a one-byte [old], the only way
    the sources call it. *)
Fixpoint ReplaceAll (s : string) (old : ascii) (new : string) : string :=
  match s with
  | EmptyString => EmptyString
  | String c s' =>
      if Ascii.eqb c old then new ++ ReplaceAll s' old new
      else String c (ReplaceAll s' old new)
  end.

(** [strings.Join(elems, sep)] *)
Fixpoint Join (elems : list string) (sep : string) : string :=
  match elems with
  | [] => ""
  | [e] => e
  | e :: rest => e ++ sep ++ Join rest sep
  end.

(** [strings.FieldsFunc(s, f)]: the maximal runs of bytes on which [f] is
    false, in order; empty runs are not reported.  The separators of the
    sources are ASCII, and no byte of a multi-byte UTF-8 sequence is ASCII,
    so scanning bytes and scanning runes give the same fields. *)
Fixpoint fieldsFrom (f : ascii -> bool) (cur : string) (s : string) : list string :=
  match s with
  | EmptyString => if String.eqb cur "" then [] else [cur]
  | String c s' =>
      if f c then
        if String.eqb cur "" then fieldsFrom f "" s'
        else cur :: fieldsFrom f "" s'
      else fieldsFrom f (cur ++ String c "") s'
  end.

Definition FieldsFunc (s : string) (f : ascii -> bool) : list string :=
  fieldsFrom f "" s.

(** What [strings.ToLower] does to an ASCII string: 'A'..'Z' are shifted to
    'a'..'z'.  (On other input Go also lower-cases non-ASCII letters; the
    guardrail definitions below therefore take [ToLower] as a parameter
    and this function is only their instance on ASCII data.) *)
Definition lowerByte (c : ascii) : ascii :=
  let n := nat_of_ascii c in
  if (Nat.leb 65 n && Nat.leb n 90)%bool then ascii_of_nat (n + 32) else c.

Fixpoint asciiToLower (s : string) : string :=
  match s with
  | EmptyString => EmptyString
  | String c s' => String (lowerByte c) (asciiToLower s')
  end.

(** What [strings.ToUpper] does to an ASCII string: 'a'..'z' are shifted to
    'A'..'Z'. *)
Definition upperByte (c : ascii) : ascii :=
  let n := nat_of_ascii c in
  if (Nat.leb 97 n && Nat.leb n 122)%bool then ascii_of_nat (n - 32) else c.

Fixpoint asciiToUpper (s : string) : string :=
  match s with
  | EmptyString => EmptyString
  | String c s' => String (upperByte c) (asciiToUpper s')
  end.

(** What [strings.TrimSpace] does to an ASCII string: leading and trailing
    bytes among tab, LF, VT, FF, CR and space are removed. *)
Definition isAsciiSpace (c : ascii) : bool :=
  let n := nat_of_ascii c in
  ((Nat.leb 9 n && Nat.leb n 13) || Nat.eqb n 32)%bool.

Fixpoint trimLeft (s : string) : string :=
  match s with
  | EmptyString => EmptyString
  | String c s' => if isAsciiSpace c then trimLeft s' else s
  end.

Fixpoint trimRight (s : string) : string :=
  match s with
  | EmptyString => EmptyString
  | String c s' =>
      let t := trimRight s' in
      if (isAsciiSpace c && String.eqb t "")%bool then "" else String c t
  end.

Definition asciiTrimSpace (s : string) : string := trimRight (trimLeft s).

(** Go's slice expressions [s[:n]] and [s[n:]] on a string, for an index
    within bounds (the only way the sources use them). *)
Fixpoint sliceTo (s : string) (n : nat) {struct n} : string :=
  match n, s with
  | O, _ => EmptyString
  | S _, EmptyString => EmptyString
  | S n', String c s' => String c (sliceTo s' n')
  end.

Fixpoint sliceFrom (s : string) (n : nat) {struct n} : string :=
  match n, s with
  | O, _ => s
  | S _, EmptyString => EmptyString
  | S n', String _ s' => sliceFrom s' n'
  end.

(** [strings.Index(s, substr)]: the index of the first occurrence, or -1. *)
Fixpoint Index (s substr : string) : Z :=
  if HasPrefix s substr then 0
  else
    match s with
    | EmptyString => -1
    | String _ s' =>
        let i := Index s' substr in
        if i <? 0 then -1 else i + 1
    end.

(** [strings.LastIndex(s, sep)] for a one-byte [sep]: the index of the last
    occurrence, or -1. *)
Fixpoint LastIndex (s : string) (sep : ascii) : Z :=
  match s with
  | EmptyString => -1
  | String c s' =>
      let i := LastIndex s' sep in
      if 0 <=? i then i + 1
      else if Ascii.eqb c sep then 0
      else -1
  end.

(** Whether byte [c] occurs in [s]. *)
Fixpoint hasByte (c : ascii) (s : string) : bool :=
  match s with
  | EmptyString => false
  | String d s' => Ascii.eqb d c || hasByte c s'
  end.

(** The number of occurrences of byte [c] in [s]. *)
Fixpoint countByte (c : ascii) (s : string) : nat :=
  match s with
  | EmptyString => O
  | String d s' => ((if Ascii.eqb d c then 1 else 0) + countByte c s')%nat
  end.

End GoStrings.

(* ================================================================= *)
(** ** CEF exporter: field escaping *)

Module Exporter.
Import GoStrings.

Definition backslash : ascii := "\"%char.
Definition LF : ascii := "010"%char.
Definition CR : ascii := "013"%char.

(** [escapeField]: five successive [strings.ReplaceAll], backslash first. *)
Definition escapeField (s : string) : string :=
  let s := ReplaceAll s backslash "\\" in
  let s := ReplaceAll s "|"%char "\|" in
  let s := ReplaceAll s "="%char "\=" in
  let s := ReplaceAll s LF "\n" in
  let s := ReplaceAll s CR "\r" in
  s.

(** The five bytes that must not appear bare in a CEF field. *)
Definition isSpecial (c : ascii) : bool :=
  (Ascii.eqb c backslash || Ascii.eqb c "|" || Ascii.eqb c "=" ||
   Ascii.eqb c LF || Ascii.eqb c CR)%bool.

(** The escaped form of one byte. *)
Definition escapeByte (c : ascii) : string :=
  if Ascii.eqb c backslash then "\\"
  else if Ascii.eqb c "|" then "\|"
  else if Ascii.eqb c "=" then "\="
  else if Ascii.eqb c LF then "\n"
  else if Ascii.eqb c CR then "\r"
  else String c "".

Fixpoint escapeBytes (s : string) : string :=
  match s with
  | EmptyString => EmptyString
  | String c s' => escapeByte c ++ escapeBytes s'
  end.

(** The byte that may follow a backslash in escaped text. *)
Definition isEscapeCode (c : ascii) : bool :=
  (Ascii.eqb c backslash || Ascii.eqb c "|" || Ascii.eqb c "=" ||
   Ascii.eqb c "n" || Ascii.eqb c "r")%bool.

(** No bare special byte: every backslash opens a two-byte escape and the
    four other special bytes only occur right after such a backslash. *)
Fixpoint wellEscaped (s : string) : bool :=
  match s with
  | EmptyString => true
  | String c s' =>
      if Ascii.eqb c backslash then
        match s' with
        | EmptyString => false
        | String d s'' => isEscapeCode d && wellEscaped s''
        end
      else negb (isSpecial c) && wellEscaped s'
  end.

(** Modelled from the spec: the decoder of the line-oriented export.  The
    repository has no unescape function; the spec only asks that "encode
    then decode equals identity" for the escape rule of backslash, '|',
    '=', newline and carriage return, so the decoder reads a backslash
    together with the byte after it and maps the pair back. *)
Definition unescapeCode (d : ascii) : ascii :=
  if Ascii.eqb d "n" then LF
  else if Ascii.eqb d "r" then CR
  else d.

Fixpoint unescapeField (s : string) : string :=
  match s with
  | EmptyString => EmptyString
  | String c s' =>
      if Ascii.eqb c backslash then
        match s' with
        | EmptyString => String c EmptyString
        | String d s'' => String (unescapeCode d) (unescapeField s'')
        end
      else String c (unescapeField s')
  end.

End Exporter.

(* ================================================================= *)
(** ** internal/core/domain: the IOC record and the component extractor *)

Module Domain.
Import GoStrings.

(** [time.Time], as the instant it denotes. *)
Definition Time := Z.

(** [type IOCType string] and its constants. *)
Definition IOCType := string.
Definition IPAddress : IOCType := "ip".
Definition Domain : IOCType := "domain".
Definition FileHash : IOCType := "file_hash".
Definition URL : IOCType := "url".
Definition Package : IOCType := "package".

Record IOC := mkIOC {
  Value : string;
  Type_ : IOCType;
  Source : string;
  ThreatType : string;
  Tags : list string;
  Version : string;
  FirstSeen : Time;
  DateIngested : Time
}.

(** The separator test handed to [strings.FieldsFunc]. *)
Definition isSeparator (r : ascii) : bool :=
  (Ascii.eqb r ":" || Ascii.eqb r "/" || Ascii.eqb r "?")%bool.

Section Extractor.

(** The two calls into Go's standard library are parameters:
    [ParseIP s] is [net.ParseIP(s) != nil], and [urlHostname s] is
    [Some (u.Hostname())] when [url.Parse(s)] succeeds with [u], and [None]
    when it returns an error. *)
Variable ParseIP : string -> bool.
Variable urlHostname : string -> option string.

(** The IOC appended for an extracted component. *)
Definition derived (sourceIOC : IOC) (value : string) (type : IOCType) (tag : string) : IOC :=
  {| Value := value;
     Type_ := type;
     Source := sourceIOC.(Source);
     ThreatType := sourceIOC.(ThreatType);
     Tags := tag :: sourceIOC.(Tags);
     Version := "";
     FirstSeen := sourceIOC.(FirstSeen);
     DateIngested := sourceIOC.(DateIngested) |}.

(** The [for _, part := range parts] loop: it stops ([break]) at the first
    part that is an IP literal different from the whole value. *)
Fixpoint firstEmbeddedIP (value : string) (parts : list string) : option string :=
  match parts with
  | [] => None
  | part :: rest =>
      if (ParseIP part && negb (String.eqb part value))%bool then Some part
      else firstEmbeddedIP value rest
  end.

Definition ExtractIOCComponents (value : string) (sourceIOC : IOC) : list IOC :=
  let components := [sourceIOC] in
  (* Try to parse as URL *)
  let components :=
    if (HasPrefix value "http://" || HasPrefix value "https://")%bool then
      match urlHostname value with
      | Some host =>
          if (negb (String.eqb host "") && negb (String.eqb host value))%bool then
            if ParseIP host then
              (components ++ [derived sourceIOC host IPAddress "extracted-from-url"])%list
            else
              (components ++ [derived sourceIOC host Domain "extracted-from-url"])%list
          else components
      | None => components
      end
    else components in
  (* Check if the value itself looks like an IP embedded in something *)
  let components :=
    if negb (HasPrefix value "http") then
      let parts := FieldsFunc value isSeparator in
      match firstEmbeddedIP value parts with
      | Some part => (components ++ [derived sourceIOC part IPAddress "extracted-from-value"])%list
      | None => components
      end
    else components in
  components.

End Extractor.

(** The dotted-decimal fragment of [net.ParseIP(s) != nil]: four decimal
    fields of one to three digits, each at most 255 and without a leading
    zero, separated by dots.  (Go also accepts IPv6 text; this instance is
    used on IPv4 examples only, the extractor itself is stated for any
    [ParseIP].) *)
Definition isDigit (c : ascii) : bool :=
  let n := nat_of_ascii c in (Nat.leb 48 n && Nat.leb n 57)%bool.

Fixpoint decimalValue (acc : nat) (s : string) : nat :=
  match s with
  | EmptyString => acc
  | String c s' => decimalValue (10 * acc + (nat_of_ascii c - 48)) s'
  end.

Fixpoint allDigits (s : string) : bool :=
  match s with
  | EmptyString => true
  | String c s' => isDigit c && allDigits s'
  end.

Definition isOctet (s : string) : bool :=
  (Nat.leb 1 (String.length s) && Nat.leb (String.length s) 3 && allDigits s
   && Nat.leb (decimalValue 0 s) 255
   && (Nat.eqb (String.length s) 1 || negb (HasPrefix s "0")))%bool.

(** Splitting at every dot, keeping empty fields. *)
Fixpoint splitDots (cur : string) (s : string) : list string :=
  match s with
  | EmptyString => [cur]
  | String c s' =>
      if Ascii.eqb c "." then cur :: splitDots "" s'
      else splitDots (cur ++ String c "") s'
  end.

Definition parseIPv4 (s : string) : bool :=
  let fields := splitDots "" s in
  (Nat.eqb (List.length fields) 4 && forallb isOctet fields)%bool.

(** [CalculateConfidenceScore] (scoring.go): the overall score of a list of
    sightings; the [int32] result is one of four constants. *)
Definition CalculateConfidenceScore (iocs : list IOC) : Z :=
  if Nat.eqb (List.length iocs) 0 then 0
  else if Nat.leb 3 (List.length iocs) then 90
  else if Nat.leb 2 (List.length iocs) then 85
  else 80.

End Domain.

(* ================================================================= *)
(** ** internal/adapter/llm: guardrails and the triage protocol *)

Module Llm.
Import GoStrings.

(** [TriageResult] (triager.go). *)
Record TriageResult := mkTriageResult {
  Severity : string;        (* critical, high, medium, low, info *)
  Priority : Z;             (* 1-5 (1 = highest) *)
  Summary : string;
  Analysis : string;
  Recommended : list string;
  FalsePositive : bool;
  Confidence : Z            (* 0-100 *)
}.

(** The values the [Severity] field is documented to take. *)
Definition validSeverity (s : string) : Prop :=
  s = "critical" \/ s = "high" \/ s = "medium" \/ s = "low" \/ s = "info".

(** [IOCContext] and [ThreatContext] (triager.go). *)
Record IOCContext := mkIOCContext {
  Type_ : string;
  Value : string;
  InDatabase : bool;
  Sources : list string;
  Tags : list string;
  ThreatTypes : list string;
  FirstSeen : Domain.Time
}.

Record ThreatContext := mkThreatContext {
  AlertID : string;
  ThreatName : string;
  Classification : string;
  Endpoint : string;
  OSType : string;
  IOCs : list IOCContext
}.

(** Field assignments on the result the post-filter mutates in place. *)
Definition setSeverity (r : TriageResult) (v : string) : TriageResult :=
  mkTriageResult v r.(Priority) r.(Summary) r.(Analysis) r.(Recommended) r.(FalsePositive) r.(Confidence).
Definition setPriority (r : TriageResult) (v : Z) : TriageResult :=
  mkTriageResult r.(Severity) v r.(Summary) r.(Analysis) r.(Recommended) r.(FalsePositive) r.(Confidence).
Definition setAnalysis (r : TriageResult) (v : string) : TriageResult :=
  mkTriageResult r.(Severity) r.(Priority) r.(Summary) v r.(Recommended) r.(FalsePositive) r.(Confidence).
Definition setRecommended (r : TriageResult) (v : list string) : TriageResult :=
  mkTriageResult r.(Severity) r.(Priority) r.(Summary) r.(Analysis) v r.(FalsePositive) r.(Confidence).
Definition setFalsePositive (r : TriageResult) (v : bool) : TriageResult :=
  mkTriageResult r.(Severity) r.(Priority) r.(Summary) r.(Analysis) r.(Recommended) v r.(Confidence).
Definition setConfidence (r : TriageResult) (v : Z) : TriageResult :=
  mkTriageResult r.(Severity) r.(Priority) r.(Summary) r.(Analysis) r.(Recommended) r.(FalsePositive) v.

Definition KnownGoodIndicators : list string :=
  [ "microsoft.com"; "windowsupdate.com"; "update.microsoft.com";
    "msftconnecttest.com"; "office.com"; "live.com";
    "amazonaws.com"; "cloudfront.net"; "googleapis.com"; "gstatic.com"; "azure.com";
    "cloudflare.com"; "akamai.net"; "fastly.net";
    "apple.com"; "google.com"; "mozilla.org"; "ubuntu.com"; "debian.org" ].

Definition HighRiskThreatTypes : list string :=
  [ "c2_server"; "c2"; "command_and_control"; "malware_download"; "ransomware";
    "botnet"; "phishing"; "cryptominer"; "backdoor"; "trojan"; "rat"; "webshell" ].

Record GuardrailConfig := mkGuardrailConfig {
  MinConfidenceForFalsePositive : Z;
  RequireThreatIntelForCritical : bool;
  MaxSeverityWithoutThreatIntel : string
}.

Definition DefaultGuardrailConfig : GuardrailConfig :=
  {| MinConfidenceForFalsePositive := 85;
     RequireThreatIntelForCritical := true;
     MaxSeverityWithoutThreatIntel := "medium" |}.

(** The helpers [abs], [max], [min] of guardrails.go. *)
Definition abs (x : Z) : Z := if x <? 0 then - x else x.
Definition max (a b : Z) : Z := if a >? b then a else b.
Definition min (a b : Z) : Z := if a <? b then a else b.

Definition normalizePriority (priority : Z) (severity : string) : Z :=
  let priority := if priority <? 1 then 1 else priority in
  let priority := if priority >? 5 then 5 else priority in
  priority.

Definition normalizeConfidence (confidence : Z) : Z :=
  if confidence <? 0 then 0
  else if confidence >? 100 then 100
  else confidence.

(** The map literal of [ensurePriorityMatchesSeverity]; a missing key reads
    as Go's zero value. *)
Definition severityToPriority (severity : string) : Z :=
  if String.eqb severity "critical" then 1
  else if String.eqb severity "high" then 2
  else if String.eqb severity "medium" then 3
  else if String.eqb severity "low" then 4
  else if String.eqb severity "info" then 5
  else 0.

Definition ensurePriorityMatchesSeverity (priority : Z) (severity : string) : Z :=
  let expectedPriority := severityToPriority severity in
  if expectedPriority =? 0 then priority
  else if abs (priority - expectedPriority) >? 1 then expectedPriority
  else priority.

Definition getDefaultRecommendations (severity : string) : list string :=
  if String.eqb severity "critical" then
    [ "Immediately isolate the affected endpoint";
      "Initiate incident response procedures";
      "Conduct forensic analysis";
      "Check for indicators of lateral movement" ]
  else if String.eqb severity "high" then
    [ "Isolate the endpoint from the network";
      "Review endpoint activity logs";
      "Scan for additional compromised systems";
      "Collect forensic evidence" ]
  else if String.eqb severity "medium" then
    [ "Investigate endpoint activity";
      "Monitor for suspicious behavior";
      "Review logs for related indicators" ]
  else if String.eqb severity "low" then
    [ "Monitor the endpoint";
      "Document findings for future reference" ]
  else
    [ "Review and document for analysis" ].

(** [len(uniqueSources)] of Guardrail 4: the keys of the map filled from the
    sources of all IOCs, i.e. the distinct source strings. *)
Definition uniqueSources (iocs : list IOCContext) : list string :=
  nodup string_dec (flat_map Sources iocs).

Section Guardrails.

(** [strings.ToLower] and [strings.TrimSpace] are Unicode-aware in Go; the
    guardrails are defined for whatever these two functions are. *)
Variable ToLower : string -> string.
Variable TrimSpace : string -> string.

Definition isKnownGoodIndicator (value : string) : bool :=
  let valueLower := ToLower value in
  existsb (fun good => Contains valueLower good) KnownGoodIndicators.

Definition isHighRiskThreatType (threatType : string) : bool :=
  let threatTypeLower := ToLower threatType in
  existsb (fun risk => Contains threatTypeLower risk) HighRiskThreatTypes.

Definition normalizeSeverity (severity : string) : string :=
  let severity := ToLower (TrimSpace severity) in
  let validSeverities := ["critical"; "high"; "medium"; "low"; "info"] in
  if existsb (fun valid => String.eqb severity valid) validSeverities then severity
  else "medium".

(** [iocsInDB]: the number of IOCs with [InDatabase]. *)
Definition countInDB (iocs : list IOCContext) : Z :=
  Z.of_nat (List.length (filter InDatabase iocs)).

(** The high-risk threat types of the IOCs that are in the database, in
    order (the [highRiskTypes] slice of the pre-filter). *)
Definition highRiskTypesInDB (iocs : list IOCContext) : list string :=
  flat_map (fun ioc =>
              if ioc.(InDatabase) then filter isHighRiskThreatType ioc.(ThreatTypes)
              else []) iocs.

(** [hasHighRiskTypes] / [hasHighRiskIOC]: some IOC in the database has a
    high-risk threat type. *)
Definition hasHighRiskInDB (iocs : list IOCContext) : bool :=
  existsb (fun ioc => (ioc.(InDatabase) && existsb isHighRiskThreatType ioc.(ThreatTypes))%bool) iocs.

(** [ApplyPreLLMGuardrails]: returns (result, shouldSkipLLM). *)
Definition ApplyPreLLMGuardrails (threat : ThreatContext) (config : GuardrailConfig)
  : option TriageResult * bool :=
  (* Check if all IOCs are known good *)
  let allKnownGood := forallb (fun ioc => isKnownGoodIndicator ioc.(Value)) threat.(IOCs) in
  let hasIOCs := (0 <? Z.of_nat (List.length threat.(IOCs))) in
  if (hasIOCs && allKnownGood)%bool then
    (Some {| Severity := "info";
             Priority := 5;
             Summary := "All indicators are legitimate infrastructure";
             Analysis := "Analysis shows all indicators belong to known legitimate services (Microsoft, Google, cloud providers, etc.). This is a false positive.";
             Recommended := ["Mark as false positive"; "Adjust detection rules to exclude legitimate services"];
             FalsePositive := true;
             Confidence := 95 |}, true)
  else
    (* Check if any IOC has high-risk threat types *)
    let hasHighRiskIOC := hasHighRiskInDB threat.(IOCs) in
    let highRiskTypes := highRiskTypesInDB threat.(IOCs) in
    if hasHighRiskIOC then
      (Some {| Severity := "high";
               Priority := 2;
               Summary := "Confirmed malicious activity detected in threat intelligence";
               Analysis := "Multiple threat intelligence sources confirm this as malicious activity: " ++ Join highRiskTypes ", ";
               Recommended := ["Isolate affected endpoint immediately"; "Conduct forensic analysis"; "Check for lateral movement"; "Scan other endpoints for similar IOCs"];
               FalsePositive := false;
               Confidence := 90 |}, true)
    else
      (* No pre-filter match - proceed with LLM *)
      (None, false).

(** [ApplyPostLLMGuardrails] runs, in this order, a normalisation and seven
    guardrails on the result it was given; each block of the Go function is
    one definition here, reading the fields left by the previous block. *)

(* Validate and normalize fields *)
Definition normalizeFields (result : TriageResult) : TriageResult :=
  let result := setSeverity result (normalizeSeverity result.(Severity)) in
  let result := setPriority result (normalizePriority result.(Priority) result.(Severity)) in
  let result := setConfidence result (normalizeConfidence result.(Confidence)) in
  result.

(* Guardrail 1: Cannot mark as false positive if IOCs are in threat database *)
Definition guardrail1 (iocsInDB : Z) (result : TriageResult) : TriageResult :=
  if (result.(FalsePositive) && (iocsInDB >? 0))%bool then
    let result := setFalsePositive result false in
    let result := setConfidence result (max (result.(Confidence) - 20) 50) in
    (* Adjust to at least medium severity *)
    if (String.eqb result.(Severity) "info" || String.eqb result.(Severity) "low")%bool then
      let result := setSeverity result "medium" in
      setPriority result 3
    else result
  else result.

(* Guardrail 2: High-risk threat types cannot be low severity *)
Definition guardrail2 (hasHighRiskTypes : bool) (result : TriageResult) : TriageResult :=
  if (hasHighRiskTypes &&
      (String.eqb result.(Severity) "info" || String.eqb result.(Severity) "low"))%bool then
    let result := setSeverity result "high" in
    let result := setPriority result 2 in
    let result := setFalsePositive result false in
    setConfidence result (max (result.(Confidence) + 10) 85)
  else result.

(* Guardrail 3: Cannot be critical/high severity without threat intel *)
Definition guardrail3 (config : GuardrailConfig) (iocsInDB : Z) (result : TriageResult)
  : TriageResult :=
  if (config.(RequireThreatIntelForCritical) && (iocsInDB =? 0))%bool then
    if String.eqb result.(Severity) "critical" then
      let result := setSeverity result "high" in
      let result := setPriority result 2 in
      setConfidence result (min result.(Confidence) 75)
    else if (String.eqb result.(Severity) "high" && (result.(Confidence) <? 80))%bool then
      let result := setSeverity result "medium" in
      let result := setPriority result 3 in
      setConfidence result (min result.(Confidence) 70)
    else result
  else result.

(* Guardrail 4: Boost confidence if multiple threat intel sources agree *)
Definition guardrail4 (iocsInDB : Z) (threat : ThreatContext) (result : TriageResult)
  : TriageResult :=
  if iocsInDB >? 0 then
    if Z.of_nat (List.length (uniqueSources threat.(IOCs))) >=? 3 then
      setConfidence result (min (result.(Confidence) + 15) 98)
    else result
  else result.

(* Guardrail 5: False positive requires high confidence *)
Definition guardrail5 (config : GuardrailConfig) (result : TriageResult) : TriageResult :=
  if (result.(FalsePositive) &&
      (result.(Confidence) <? config.(MinConfidenceForFalsePositive)))%bool then
    let result := setFalsePositive result false in
    let result := setSeverity result "low" in
    let result := setPriority result 4 in
    setAnalysis result (result.(Analysis) ++ " (Note: Marked for analyst review due to uncertainty)")
  else result.

(* Guardrail 6: Validate severity/priority alignment *)
Definition guardrail6 (result : TriageResult) : TriageResult :=
  setPriority result (ensurePriorityMatchesSeverity result.(Priority) result.(Severity)).

(* Guardrail 7: Ensure recommended actions exist for non-false-positives *)
Definition guardrail7 (result : TriageResult) : TriageResult :=
  if (negb result.(FalsePositive) && (Z.of_nat (List.length result.(Recommended)) =? 0))%bool then
    setRecommended result (getDefaultRecommendations result.(Severity))
  else result.

Definition ApplyPostLLMGuardrails (result : TriageResult) (threat : ThreatContext)
    (config : GuardrailConfig) : TriageResult :=
  let result := normalizeFields result in
  (* Count IOCs in threat database *)
  let iocsInDB := countInDB threat.(IOCs) in
  let hasHighRiskTypes := hasHighRiskInDB threat.(IOCs) in
  let result := guardrail1 iocsInDB result in
  let result := guardrail2 hasHighRiskTypes result in
  let result := guardrail3 config iocsInDB result in
  let result := guardrail4 iocsInDB threat result in
  let result := guardrail5 config result in
  let result := guardrail6 result in
  let result := guardrail7 result in
  result.

(** What [callLLM] followed by [parseResponse] can come back with. *)
Inductive LLMReply :=
| CallFailed
| ParseFailed
| Parsed (result : TriageResult).

Inductive TriageError :=
| ErrNotEnabled
| ErrCallLLM
| ErrParseResponse.

(** [LLMTriager]: the [enabled] flag, and the remote model seen as a function
    from the alert (from which the prompt is built) to its reply. *)
Record LLMTriager := mkLLMTriager {
  enabled : bool;
  ask : ThreatContext -> LLMReply
}.

(** [LLMTriager.Triage]; the metric recordings have no effect on the
    returned value and are left out. *)
Definition Triage (t : LLMTriager) (threat : ThreatContext) : TriageError + TriageResult :=
  if negb t.(enabled) then inl ErrNotEnabled
  else
    (* Apply pre-LLM guardrails (rule-based filters) *)
    let config := DefaultGuardrailConfig in
    match ApplyPreLLMGuardrails threat config with
    | (Some preResult, true) => inr preResult
    | _ =>
        (* Call LLM API and parse the response *)
        match t.(ask) threat with
        | CallFailed => inl ErrCallLLM
        | ParseFailed => inl ErrParseResponse
        | Parsed result =>
            (* Apply post-LLM guardrails (validation and adjustment) *)
            inr (ApplyPostLLMGuardrails result threat config)
        end
    end.

End Guardrails.

(** The byte fences are made of. *)
Definition backtick : ascii := "`"%char.

(** The [jsonStr] of [parseResponse] before it is trimmed: the text between
    a fence labelled json (else an unlabelled fence) and the next fence, or
    the whole response when there is no fence. *)
Definition jsonBody (response : string) : string :=
  let jsonStr := response in
  let idx := Index response "```json" in
  if negb (idx =? -1) then
    let jsonStr := sliceFrom response (Z.to_nat (idx + 7)) in
    let endIdx := Index jsonStr "```" in
    if negb (endIdx =? -1) then sliceTo jsonStr (Z.to_nat endIdx) else jsonStr
  else
    let idx := Index response "```" in
    if negb (idx =? -1) then
      let jsonStr := sliceFrom response (Z.to_nat (idx + 3)) in
      let endIdx := Index jsonStr "```" in
      if negb (endIdx =? -1) then sliceTo jsonStr (Z.to_nat endIdx) else jsonStr
    else jsonStr.

Section ParseResponse.

(** [strings.TrimSpace], and [json.Unmarshal] into a [TriageResult]
    ([None] when it returns an error). *)
Variable TrimSpace : string -> string.
Variable Unmarshal : string -> option TriageResult.

(** [LLMTriager.parseResponse] *)
Definition parseResponse (response : string) : TriageError + TriageResult :=
  let jsonStr := TrimSpace (jsonBody response) in
  match Unmarshal jsonStr with
  | None => inl ErrParseResponse
  | Some result => inr result
  end.

End ParseResponse.

(** Predicates the statements about the post-filter are phrased with:
    severity in the enumeration, priority in 1..5 and confidence in 0..[hi]; *)
Definition inRange (hi : Z) (r : TriageResult) : Prop :=
  validSeverity r.(Severity) /\ 1 <= r.(Priority) <= 5 /\ 0 <= r.(Confidence) <= hi.

(** a false-positive verdict only when no IOC is in the database. *)
Definition fpSound (iocsInDB : Z) (r : TriageResult) : Prop :=
  r.(FalsePositive) = true -> iocsInDB = 0.

(** ASCII instances of the two library parameters, for concrete alerts. *)
Definition asciiTriage : LLMTriager -> ThreatContext -> TriageError + TriageResult :=
  Triage asciiToLower asciiTrimSpace.

Definition asciiPostFilter : TriageResult -> ThreatContext -> GuardrailConfig -> TriageResult :=
  ApplyPostLLMGuardrails asciiToLower asciiTrimSpace.

End Llm.

(* ================================================================= *)
(** ** The catalog queries *)

Module Repository.
Import Domain.

(** [([]domain.IOC, error)] as the repository returns it: every error path
    of the Postgres repository returns a nil slice with the error. *)
Inductive QueryResult :=
| QueryError
| Rows (iocs : list IOC).

(** The part of [ports.IOCRepository] the webhook uses. *)
Record IOCRepository := mkIOCRepository {
  FindAllByValue : string -> QueryResult;
  FindContaining : string -> QueryResult
}.

(** [PostgresRepository]: the rows of table [iocs] behind the pool, and
    whether the pool can be reached. *)
Record PostgresRepository := mkPostgresRepository {
  iocs : list IOC;
  reachable : bool
}.

(** [ORDER BY date_ingested DESC], as a stable insertion sort: rows with
    equal [date_ingested] keep their table order (PostgreSQL leaves the
    order among such rows open). *)
Fixpoint insertDesc (x : IOC) (l : list IOC) : list IOC :=
  match l with
  | [] => [x]
  | y :: l' =>
      if y.(DateIngested) <=? x.(DateIngested) then x :: l
      else y :: insertDesc x l'
  end.

Definition orderByDateIngestedDesc (l : list IOC) : list IOC :=
  fold_right insertDesc [] l.

(** [PostgresRepository.FindAllByValue]:
    [WHERE value = $1 ORDER BY date_ingested DESC]. *)
Definition PgFindAllByValue (r : PostgresRepository) (value : string) : QueryResult :=
  if negb r.(reachable) then QueryError
  else Rows (orderByDateIngestedDesc
               (filter (fun ioc => String.eqb ioc.(Value) value) r.(iocs))).

(** [PostgresRepository.FindSince]:
    [WHERE date_ingested >= $1 ORDER BY date_ingested DESC LIMIT $2].
    [limit] goes to the query as it is; PostgreSQL returns no row for
    [LIMIT 0] and rejects a negative [LIMIT]. *)
Definition FindSince (r : PostgresRepository) (since : Time) (limit : Z) : QueryResult :=
  if negb r.(reachable) then QueryError
  else if limit <? 0 then QueryError
  else Rows (firstn (Z.to_nat limit)
               (orderByDateIngestedDesc
                  (filter (fun ioc => since <=? ioc.(DateIngested)) r.(iocs)))).

(** The pair of IOC pointer and error that [FindByValue] returns: the row, the
    [pgx.ErrNoRows] of an empty result, or another error. *)
Inductive FindOneResult :=
| Found (ioc : IOC)
| ErrNoRows
| FindError.

(** [PostgresRepository.FindByValue]: [WHERE value = $1 LIMIT 1].  Without
    an [ORDER BY] PostgreSQL may return any matching row; the model takes the
    first in table order. *)
Definition PgFindByValue (r : PostgresRepository) (value : string) : FindOneResult :=
  if negb r.(reachable) then FindError
  else
    match filter (fun ioc => String.eqb ioc.(Value) value) r.(iocs) with
    | [] => ErrNoRows
    | ioc :: _ => Found ioc
    end.

(** [PostgresRepository.FindByValueAndVersion]:
    [WHERE value = $1 AND (version = $2 OR version = '')
     ORDER BY date_ingested DESC]. *)
Definition PgFindByValueAndVersion (r : PostgresRepository) (value version : string)
  : QueryResult :=
  if negb r.(reachable) then QueryError
  else Rows (orderByDateIngestedDesc
               (filter (fun ioc =>
                          (String.eqb ioc.(Value) value &&
                           (String.eqb ioc.(Version) version || String.eqb ioc.(Version) ""))%bool)
                       r.(iocs))).

(** The key of the constraint [UNIQUE (value, source, version)]
    (migrations). *)
Definition sameKey (a b : IOC) : bool :=
  (String.eqb a.(Value) b.(Value) && String.eqb a.(Source) b.(Source)
   && String.eqb a.(Version) b.(Version))%bool.

(** One [INSERT ... ON CONFLICT (value, source, version) DO NOTHING]. *)
Definition insertIgnore (table : list IOC) (ioc : IOC) : list IOC :=
  if existsb (sameKey ioc) table then table else (table ++ [ioc])%list.

(** What a [SaveBatch] call can end in: it returned nil and left the given
    table; the pool could not be reached (an error, table untouched); the
    first insert was refused (an error, table untouched); or the batch was
    empty, an outcome settled inside pgx about which nothing is stated. *)
Inductive SaveResult :=
| Saved (r : PostgresRepository)
| SaveUnreachable
| SaveRefused
| SaveUnmodelled.

Section Writes.

(** [accepts ioc]: the row passes the column types of table [iocs]
    (type of at most 50 characters, source, threat_type and version of at
    most 100, valid text). *)
Variable accepts : IOC -> bool.

(** [PostgresRepository.SaveBatch].  The queued inserts are sent as one
    batch and run in order, as one implicit transaction: a refused row undoes
    the whole batch.  The code reads one result, [br.Exec()], which is the
    result of the first insert, and returns its error; the results of the
    other inserts are read by the deferred [br.Close()], whose error is
    dropped.  So a batch whose first row is accepted returns nil, stored or
    not. *)
Definition SaveBatch (r : PostgresRepository) (batch : list IOC) : SaveResult :=
  if negb r.(reachable) then SaveUnreachable
  else
    match batch with
    | [] => SaveUnmodelled
    | first :: _ =>
        if negb (accepts first) then SaveRefused
        else if forallb accepts batch then
          Saved {| iocs := fold_left insertIgnore batch r.(iocs); reachable := true |}
        else Saved r
    end.

End Writes.

(** No two rows share a key. *)
Fixpoint uniqueKeys (table : list IOC) : Prop :=
  match table with
  | [] => True
  | ioc :: rest => existsb (sameKey ioc) rest = false /\ uniqueKeys rest
  end.

(** "Newest first": [date_ingested] never increases along the rows. *)
Definition newestFirst (rows : list IOC) : Prop :=
  StronglySorted (fun a b => b.(DateIngested) <= a.(DateIngested)) rows.

End Repository.

(* ================================================================= *)
(** ** internal/adapter/handler: the SentinelOne webhook *)

Module Handler.
Import Domain Repository.

Record SentinelOneIOC := mkSentinelOneIOC {
  Type_ : string;   (* SHA256, IPV4, IPV6, DNS, URL *)
  Value : string
}.

Record SentinelOneEndpoint := mkSentinelOneEndpoint {
  ComputerName : string;
  OSType : string;
  AgentVersion : string
}.

Record SentinelOneAlert := mkSentinelOneAlert {
  AlertID : string;
  ThreatName : string;
  Classification : string;
  Indicators : list SentinelOneIOC;
  Endpoint : SentinelOneEndpoint;
  Timestamp : string
}.

Record EnrichedIndicator := mkEnrichedIndicator {
  eType : string;
  eValue : string;
  InDatabase : bool;
  Sources : list string;
  Tags : list string;
  ThreatTypes : list string;
  FirstSeen : Time
}.

(** [uniqueStrings]: first occurrences, in order. *)
Fixpoint uniqueStringsFrom (seen : list string) (slice : list string) : list string :=
  match slice with
  | [] => []
  | s :: rest =>
      if existsb (String.eqb s) seen then uniqueStringsFrom seen rest
      else s :: uniqueStringsFrom (s :: seen) rest
  end.

Definition uniqueStrings (slice : list string) : list string :=
  uniqueStringsFrom [] slice.

Definition countEnriched (indicators : list EnrichedIndicator) : Z :=
  Z.of_nat (List.length (filter InDatabase indicators)).

(** One turn of the loop [for _, indicator := range payload.Indicators]:
    [None] is the [continue] taken when the exact lookup fails, before
    anything is appended. *)
Definition enrichIndicator (repo : IOCRepository) (indicator : SentinelOneIOC)
  : option EnrichedIndicator :=
  (* Try exact match first *)
  match repo.(FindAllByValue) indicator.(Value) with
  | QueryError => None
  | Rows iocs =>
      (* If exact match fails, try "contains" search *)
      let iocs :=
        if Nat.eqb (List.length iocs) 0 then
          match repo.(FindContaining) indicator.(Value) with
          | QueryError => []        (* logged; iocs is the nil slice *)
          | Rows found => found
          end
        else iocs in
      match iocs with
      | [] =>
          (* Not in Watchtower database *)
          Some {| eType := indicator.(Type_);
                  eValue := indicator.(Value);
                  InDatabase := false;
                  Sources := [];
                  Tags := [];
                  ThreatTypes := [];
                  FirstSeen := 0 |}
      | first :: _ =>
          (* Enrich with Watchtower data *)
          Some {| eType := indicator.(Type_);
                  eValue := indicator.(Value);
                  InDatabase := true;
                  Sources := uniqueStrings (map Domain.Source iocs);
                  Tags := uniqueStrings (flat_map Domain.Tags iocs);
                  ThreatTypes := uniqueStrings (map Domain.ThreatType iocs);
                  FirstSeen := first.(Domain.FirstSeen) |}
      end
  end.

(** The whole loop: [enrichedIndicators] after the last indicator. *)
Fixpoint enrichIndicators (repo : IOCRepository) (indicators : list SentinelOneIOC)
  : list EnrichedIndicator :=
  match indicators with
  | [] => []
  | indicator :: rest =>
      match enrichIndicator repo indicator with
      | None => enrichIndicators repo rest
      | Some e => e :: enrichIndicators repo rest
      end
  end.

(** The JSON body the handler answers with. *)
Record WebhookResponse := mkWebhookResponse {
  status : string;
  alert_id : string;
  indicators_enriched : Z;
  indicators_in_db : Z;
  slack_notification : bool;
  llm_triaged : bool;
  false_positive : option bool
}.

Section Webhook.

Variable ToLower : string -> string.
Variable TrimSpace : string -> string.

Definition threatContextOf (payload : SentinelOneAlert) (enriched : list EnrichedIndicator)
  : Llm.ThreatContext :=
  {| Llm.AlertID := payload.(AlertID);
     Llm.ThreatName := payload.(ThreatName);
     Llm.Classification := payload.(Classification);
     Llm.Endpoint := payload.(Endpoint).(ComputerName);
     Llm.OSType := payload.(Endpoint).(OSType);
     Llm.IOCs := map (fun ind =>
                        {| Llm.Type_ := ind.(eType);
                           Llm.Value := ind.(eValue);
                           Llm.InDatabase := ind.(InDatabase);
                           Llm.Sources := ind.(Sources);
                           Llm.Tags := ind.(Tags);
                           Llm.ThreatTypes := ind.(ThreatTypes);
                           Llm.FirstSeen := ind.(FirstSeen) |}) enriched |}.

(** [SentinelOneWebhook] for a payload that decoded: the response, given the
    repository, the triager (if any) and whether a Slack notifier is set.
    The notifier call itself cannot change the response. *)
Definition SentinelOneWebhook (repo : IOCRepository) (llmTriager : option Llm.LLMTriager)
    (slackNotifier : bool) (payload : SentinelOneAlert) : WebhookResponse :=
  let enrichedIndicators := enrichIndicators repo payload.(Indicators) in
  (* Use LLM for intelligent triaging (if enabled) *)
  let triageResult :=
    match llmTriager with
    | Some t =>
        if t.(Llm.enabled) then
          match Llm.Triage ToLower TrimSpace t (threatContextOf payload enrichedIndicators) with
          | inl _ => None
          | inr result => Some result
          end
        else None
    | None => None
    end in
  let skip :=
    match triageResult with
    | Some r => (r.(Llm.FalsePositive) && (r.(Llm.Confidence) >=? 80))%bool
    | None => false
    end in
  if skip then
    (* Skip notification for likely false positives *)
    {| status := "received";
       alert_id := payload.(AlertID);
       indicators_enriched := Z.of_nat (List.length enrichedIndicators);
       indicators_in_db := countEnriched enrichedIndicators;
       slack_notification := false;
       llm_triaged := true;
       false_positive := Some true |}
  else
    {| status := "received";
       alert_id := payload.(AlertID);
       indicators_enriched := Z.of_nat (List.length enrichedIndicators);
       indicators_in_db := countEnriched enrichedIndicators;
       slack_notification := slackNotifier;
       llm_triaged := match triageResult with Some _ => true | None => false end;
       false_positive := None |}.

End Webhook.

(** [parsePackageVersion] (grpc.go; also called by the REST search):
    "package@version" split at the last '@'. *)
Definition parsePackageVersion (value : string) : string * string :=
  (* Split on last @ to handle scoped packages like @org/package@1.0.0 *)
  let lastAt := GoStrings.LastIndex value "@" in
  if lastAt =? -1 then (value, "")
  else if (GoStrings.HasPrefix value "@" && (lastAt =? 0))%bool then (value, "")
  else
    let pkgName := GoStrings.sliceTo value (Z.to_nat lastAt) in
    let version := GoStrings.sliceFrom value (Z.to_nat (lastAt + 1)) in
    (pkgName, version).

(** The part of [ports.IOCRepository] the query endpoints use. *)
Record QueryRepository := mkQueryRepository {
  FindByValue : string -> FindOneResult;
  queryAllByValue : string -> QueryResult;
  FindByValueAndVersion : string -> string -> QueryResult
}.

(** The Postgres repository behind that interface. *)
Definition postgresQueries (pg : PostgresRepository) : QueryRepository :=
  {| FindByValue := PgFindByValue pg;
     queryAllByValue := PgFindAllByValue pg;
     FindByValueAndVersion := PgFindByValueAndVersion pg |}.

(** What a REST query handler writes: [writeError] with a status, or a 200
    with the fields below (timestamps are carried by the IOC). *)
Inductive CheckIOCResponse :=
| CheckError (status : Z) (message : string)
| CheckOK (exists_ : bool) (value : string) (ioc : option IOC).

(** [RestHandler.CheckIOC], [value] being the query parameter. *)
Definition CheckIOC (repo : QueryRepository) (value : string) : CheckIOCResponse :=
  if String.eqb value "" then CheckError 400 "missing 'value' parameter"
  else
    match repo.(FindByValue) value with
    | Found ioc => CheckOK true ioc.(Domain.Value) (Some ioc)
    | ErrNoRows | FindError =>
        (* Not found - IOC is not in database *)
        CheckOK false value None
    end.

(** [GrpcServer.CheckIOC]: an error, or the response message. *)
Inductive GrpcCheckResponse :=
| GrpcCheckError
| GrpcCheck (exists_ : bool) (threatType : string) (confidenceScore : Z) (actionBlock : bool).

Definition GrpcCheckIOC (repo : QueryRepository) (value : string) : GrpcCheckResponse :=
  if String.eqb value "" then GrpcCheckError
  else
    match repo.(FindByValue) value with
    | ErrNoRows => GrpcCheck false "" 0 false
    | FindError => GrpcCheckError
    | Found ioc => GrpcCheck true ioc.(Domain.ThreatType) 80 true
    end.

Inductive SearchIOCResponse :=
| SearchError (status : Z) (message : string)
| SearchOK (value : string) (count : Z) (sightings : list IOC).

(** [RestHandler.SearchIOC], [value] being the query parameter. *)
Definition SearchIOC (repo : QueryRepository) (value : string) : SearchIOCResponse :=
  if String.eqb value "" then SearchError 400 "missing 'value' parameter"
  else
    (* Parse package@version format *)
    let (pkgName, version) := parsePackageVersion value in
    let found :=
      if negb (String.eqb version "") then
        (* Version-specific query *)
        repo.(FindByValueAndVersion) pkgName version
      else
        (* No version: return all versions *)
        repo.(queryAllByValue) pkgName in
    match found with
    | QueryError => SearchError 500 "failed to query IOCs"
    | Rows iocList => SearchOK value (Z.of_nat (List.length iocList)) iocList
    end.

(** [findEarliestTimestamp] and [findLatestTimestamp] (grpc.go); [now] is
    what [time.Now()] returns for the empty list. *)
Definition findEarliestTimestamp (now : Time) (iocs : list IOC) : Time :=
  match iocs with
  | [] => now
  | first :: rest =>
      fold_left (fun earliest ioc =>
                   if ioc.(Domain.FirstSeen) <? earliest then ioc.(Domain.FirstSeen)
                   else earliest)
                rest first.(Domain.FirstSeen)
  end.

Definition findLatestTimestamp (now : Time) (iocs : list IOC) : Time :=
  match iocs with
  | [] => now
  | first :: rest =>
      fold_left (fun latest ioc =>
                   if latest <? ioc.(Domain.DateIngested) then ioc.(Domain.DateIngested)
                   else latest)
                rest first.(Domain.DateIngested)
  end.

End Handler.

(* ================================================================= *)
(** ** The CEF feed: scores, one line per row, the export *)

Module CEFExporter.
Import GoStrings Domain Repository Exporter.

(** [fmt.Sprintf("%d", n)] *)
Definition formatInt (n : Z) : string := NilZero.string_of_int (Z.to_int n).

Definition calculateSeverity (confidence : Z) : Z :=
  (* Map confidence (0-100) to CEF severity (0-10) *)
  if confidence >=? 90 then 10
  else if confidence >=? 80 then 8
  else if confidence >=? 70 then 6
  else if confidence >=? 60 then 4
  else 2.

(** [calculateConfidence] (CEF exporter) *)
Definition calculateConfidence (ioc : IOC) : Z :=
  let confidence := 70 in
  let confidence :=
    if (String.eqb ioc.(Source) "alienvault-otx" || String.eqb ioc.(Source) "abusech-urlhaus")%bool
    then confidence + 10 else confidence in
  let confidence :=
    if (String.eqb ioc.(ThreatType) "malware_download" || String.eqb ioc.(ThreatType) "c2_server")%bool
    then confidence + 5 else confidence in
  let confidence :=
    if Z.of_nat (List.length ioc.(Tags)) >? 3 then confidence + 5 else confidence in
  let confidence := if confidence >? 100 then 100 else confidence in
  confidence.

(** [calculateConfidenceSTIX] (STIX exporter) *)
Definition calculateConfidenceSTIX (ioc : IOC) : Z :=
  let confidence := 70 in
  let confidence :=
    if (String.eqb ioc.(Source) "alienvault-otx" || String.eqb ioc.(Source) "abusech-urlhaus")%bool
    then confidence + 10 else confidence in
  let confidence :=
    if (String.eqb ioc.(ThreatType) "malware_download" || String.eqb ioc.(ThreatType) "c2_server")%bool
    then confidence + 5 else confidence in
  let confidence :=
    if Z.of_nat (List.length ioc.(Tags)) >? 3 then confidence + 5 else confidence in
  let confidence := if confidence >? 100 then 100 else confidence in
  confidence.

Record CEFEntry := mkCEFEntry {
  eValue : string;
  eType : IOCType;
  eThreatType : string;
  eSources : list string;
  eTags : list string;
  eConfidence : Z;
  eFirstSeen : Time
}.

(** Go's [int64] product, with its wrap-around. *)
Definition wrapInt64 (z : Z) : Z := (z + 2 ^ 63) mod 2 ^ 64 - 2 ^ 63.

Section Format.

(** [strings.ToUpper], and [t.Unix()], the seconds since 1970 of an
    instant. *)
Variable ToUpper : string -> string.
Variable Unix : Time -> Z.

Definition formatCEF (ioc : CEFEntry) : string :=
  let vendor := "Watchtower" in
  let product := "ThreatIntel" in
  let version := "1.0" in
  let signatureID := ioc.(eType) in
  let name := ToUpper ioc.(eType) ++ " IOC Detected" in
  let severity := calculateSeverity ioc.(eConfidence) in
  (* CEF Extensions (key=value pairs) *)
  let extensions :=
    [ "src=" ++ escapeField ioc.(eValue);
      "cn1Label=ConfidenceScore";
      "cn1=" ++ formatInt ioc.(eConfidence);
      "cs1Label=ThreatType";
      "cs1=" ++ escapeField ioc.(eThreatType);
      "cs2Label=Sources";
      "cs2=" ++ escapeField (Join ioc.(eSources) ",");
      "cs3Label=Tags";
      "cs3=" ++ escapeField (Join ioc.(eTags) ",");
      "rt=" ++ formatInt (wrapInt64 (Unix ioc.(eFirstSeen) * 1000)) ] in
  let extensionStr := Join extensions " " in
  (* Build CEF line *)
  "CEF:0|" ++ vendor ++ "|" ++ product ++ "|" ++ version ++ "|" ++ signatureID
    ++ "|" ++ name ++ "|" ++ formatInt severity ++ "|" ++ extensionStr.

(** The entry [Export] builds for a row. *)
Definition entryOf (ioc : IOC) : CEFEntry :=
  {| eValue := ioc.(Value);
     eType := ioc.(Type_);
     eThreatType := ioc.(ThreatType);
     eSources := [ioc.(Source)];
     eTags := ioc.(Tags);
     eConfidence := calculateConfidence ioc;
     eFirstSeen := ioc.(FirstSeen) |}.

(** [CEFExporter.Export] on the Postgres repository; [dayAgo] is
    [time.Now().Add(-24 * time.Hour)], and [None] is the returned error. *)
Definition Export (dayAgo : Time) (repo : PostgresRepository) (since : Time)
  : option string :=
  (* Default to last 24 hours if no time specified *)
  let since := if since =? 0 then dayAgo else since in
  match FindSince repo since 10000 with
  | QueryError => None
  | Rows iocs =>
      Some (fold_left (fun output ioc => output ++ formatCEF (entryOf ioc) ++ String LF "")
                      iocs "")
  end.

End Format.

(** No line break: neither LF nor CR occurs. *)
Definition lineFree (s : string) : Prop :=
  countByte LF s = 0%nat /\ countByte CR s = 0%nat.

End CEFExporter.

(* ================================================================= *)
(** ** Concrete alerts and LLM replies the statements are evaluated on *)

Module Scenarios.
Import Llm.

Definition reply (severity : string) (priority : Z) (falsePositive : bool) (confidence : Z)
  : TriageResult :=
  {| Severity := severity; Priority := priority; Summary := ""; Analysis := "";
     Recommended := []; FalsePositive := falsePositive; Confidence := confidence |}.

Definition alertWith (iocs : list IOCContext) : ThreatContext :=
  {| AlertID := "alert-1"; ThreatName := "Suspicious Connection";
     Classification := "Malware"; Endpoint := "WORKSTATION-10"; OSType := "windows";
     IOCs := iocs |}.

Definition indicator (value : string) (inDatabase : bool) (sources threatTypes : list string)
  : IOCContext :=
  {| Type_ := "IPV4"; Value := value; InDatabase := inDatabase; Sources := sources;
     Tags := []; ThreatTypes := threatTypes; FirstSeen := 0 |}.

(** A triager whose model answers every alert with the same parsed result. *)
Definition answering (r : TriageResult) : LLMTriager :=
  {| enabled := true; ask := fun _ => Parsed r |}.

(** A triager whose model cannot be reached. *)
Definition unreachable : LLMTriager :=
  {| enabled := true; ask := fun _ => CallFailed |}.

(** A decoder standing in for [json.Unmarshal]: it knows one document. *)
Definition decodeOne (s : string) : option TriageResult :=
  if String.eqb s "{}" then Some (reply "" 0 false 0) else None.


(** Two catalog rows for one address: the row ingested last was first seen
    later than the row ingested before it. *)
Definition olderRow : Domain.IOC :=
  Domain.mkIOC "192.0.2.5" Domain.IPAddress "alienvault-otx" "c2_server" ["apt"] "" 100 10.

Definition newerRow : Domain.IOC :=
  Domain.mkIOC "192.0.2.5" Domain.IPAddress "abusech-urlhaus" "botnet" ["mirai"] "" 200 20.

Definition catalog : Repository.PostgresRepository :=
  {| Repository.iocs := [olderRow; newerRow]; Repository.reachable := true |}.

(** The catalog behind the repository interface; the substring fallback
    finds nothing. *)
Definition exactOnly (pg : Repository.PostgresRepository) : Repository.IOCRepository :=
  {| Repository.FindAllByValue := Repository.PgFindAllByValue pg;
     Repository.FindContaining := fun _ => Repository.Rows [] |}.

(** The same, with the exact lookup of one value failing in transport. *)
Definition failingFor (bad : string) (pg : Repository.PostgresRepository)
  : Repository.IOCRepository :=
  {| Repository.FindAllByValue :=
       fun v => if String.eqb v bad then Repository.QueryError
                else Repository.PgFindAllByValue pg v;
     Repository.FindContaining := fun _ => Repository.Rows [] |}.

(** A repository whose exact lookup finds nothing and whose substring
    fallback fails in transport. *)
Definition fallbackFailing : Repository.IOCRepository :=
  {| Repository.FindAllByValue := fun _ => Repository.Rows [];
     Repository.FindContaining := fun _ => Repository.QueryError |}.

Definition alertOn (indicators : list Handler.SentinelOneIOC) : Handler.SentinelOneAlert :=
  {| Handler.AlertID := "alert-1"; Handler.ThreatName := "Suspicious Connection";
     Handler.Classification := "Malware"; Handler.Indicators := indicators;
     Handler.Endpoint := Handler.mkSentinelOneEndpoint "WORKSTATION-10" "windows" "23.1";
     Handler.Timestamp := "2026-01-01T00:00:00Z" |}.

(** A record for a key the catalog does not hold, and a record whose key
    is the one of [newerRow] with other fields. *)
Definition freshRow : Domain.IOC :=
  Domain.mkIOC "lodash" Domain.Package "google-osv-npm" "supply_chain_malware"
    ["MAL-2024-1"; "osv"] "4.17.0" 300 30.

Definition clashingRow : Domain.IOC :=
  Domain.mkIOC "192.0.2.5" Domain.IPAddress "abusech-urlhaus" "phishing" [] "" 999 40.

Definition acceptAll (ioc : Domain.IOC) : bool := true.

(** The widths of the columns of table iocs, and a record whose type does
    not fit its column. *)
Definition columnWidths (ioc : Domain.IOC) : bool :=
  (Nat.leb (String.length ioc.(Domain.Type_)) 50
   && Nat.leb (String.length ioc.(Domain.Source)) 100
   && Nat.leb (String.length ioc.(Domain.ThreatType)) 100
   && Nat.leb (String.length ioc.(Domain.Version)) 100)%bool.

Definition oversizedRow : Domain.IOC :=
  Domain.mkIOC "198.51.100.7" (String.concat "" (List.repeat "x" 51)) "digitalside"
    "malware_download" [] "" 400 50.

End Scenarios.

(* ================================================================= *)
(** * Verified properties *)

(* ================================================================= *)
(** ** Facts about the CEF escaping *)

Section EscapeFacts.
Import GoStrings Exporter.

Lemma append_assoc (a b c : string) :
  ((a ++ b) ++ c = a ++ (b ++ c))%string.
Proof. induction a as [|x a IH]; simpl; [reflexivity|now rewrite IH]. Qed.

Lemma ReplaceAll_app (a b : string) (old : ascii) (new : string) :
  ReplaceAll (a ++ b) old new = (ReplaceAll a old new ++ ReplaceAll b old new)%string.
Proof.
  induction a as [|c a IH]; [reflexivity|].
  cbn [ReplaceAll String.append].
  destruct (Ascii.eqb c old); rewrite IH.
  - now rewrite append_assoc.
  - reflexivity.
Qed.

Lemma escapeField_app (a b : string) :
  escapeField (a ++ b) = (escapeField a ++ escapeField b)%string.
Proof. unfold escapeField. now rewrite !ReplaceAll_app. Qed.

Lemma escapeField_byte (c : ascii) :
  escapeField (String c "") = escapeByte c.
Proof. destruct c as [[] [] [] [] [] [] [] []]; reflexivity. Qed.

Lemma escapeField_cons (c : ascii) (s : string) :
  escapeField (String c s) = (escapeByte c ++ escapeField s)%string.
Proof.
  change (String c s) with (String c "" ++ s)%string.
  now rewrite escapeField_app, escapeField_byte.
Qed.

Lemma escapeField_bytewise (s : string) : escapeField s = escapeBytes s.
Proof.
  induction s as [|c s IH]; [reflexivity|].
  rewrite escapeField_cons, IH. reflexivity.
Qed.

Lemma wellEscaped_escapeBytes (s : string) : wellEscaped (escapeBytes s) = true.
Proof.
  induction s as [|c s IH]; [reflexivity|].
  destruct c as [[] [] [] [] [] [] [] []]; simpl; exact IH.
Qed.

Lemma unescape_escapeBytes (s : string) : unescapeField (escapeBytes s) = s.
Proof.
  induction s as [|c s IH]; [reflexivity|].
  destruct c as [[] [] [] [] [] [] [] []]; simpl; now rewrite IH.
Qed.

(** C9. escapeField rewrites exactly the bytes backslash, '|', '=', LF
    and CR, each to its two-byte backslash form (every other byte is kept),
    its output has no bare occurrence of those five bytes, and decoding the
    output gives the input back: decode (encode s) = s for every s. *)
Theorem escapeField_roundtrip (s : string) :
  escapeField s = escapeBytes s
  /\ (forall c, isSpecial c = false -> escapeByte c = String c "")
  /\ wellEscaped (escapeField s) = true
  /\ unescapeField (escapeField s) = s.
Proof.
  rewrite escapeField_bytewise. split; [reflexivity|]. split.
  - intros c Hc. unfold isSpecial in Hc. unfold escapeByte.
    repeat (apply orb_false_elim in Hc; destruct Hc as [Hc ?]).
    repeat match goal with H : _ = false |- _ => rewrite H; clear H end.
    reflexivity.
  - split; [apply wellEscaped_escapeBytes | apply unescape_escapeBytes].
Qed.

(** Losslessness stated without a decoder: escapeField is injective. *)
Lemma escapeField_injective (s t : string) :
  escapeField s = escapeField t -> s = t.
Proof.
  intros H. rewrite <- (unescape_escapeBytes s), <- (unescape_escapeBytes t).
  rewrite <- !escapeField_bytewise. now rewrite H.
Qed.

(** The escaping on concrete fields: a pipe, an equals sign, a backslash
    followed by the letter n, and a line feed. *)
Example escapeField_cases :
  escapeField "a|b=c" = "a\|b\=c"
  /\ escapeField "C:\new" = "C:\\new"
  /\ escapeField (String LF "x") = "\nx"
  /\ escapeField "plain, text" = "plain, text"
  /\ unescapeField "C:\\new" = "C:\new"
  /\ unescapeField "\nx" = String LF "x".
Proof. vm_compute. repeat split. Qed.

End EscapeFacts.

(* ================================================================= *)
(** ** Facts about the guardrails and the triage protocol *)

Section GuardrailFacts.
Import GoStrings Llm.

Variable ToLower : string -> string.
Variable TrimSpace : string -> string.

Local Abbreviation normalizeFields := (Llm.normalizeFields ToLower TrimSpace).
Local Abbreviation isHighRiskThreatType := (Llm.isHighRiskThreatType ToLower).
Local Abbreviation normalizeSeverity := (Llm.normalizeSeverity ToLower TrimSpace).
Local Abbreviation hasHighRiskInDB := (Llm.hasHighRiskInDB ToLower).
Local Abbreviation isKnownGoodIndicator := (Llm.isKnownGoodIndicator ToLower).
Local Abbreviation ApplyPreLLMGuardrails := (Llm.ApplyPreLLMGuardrails ToLower).
Local Abbreviation ApplyPostLLMGuardrails := (Llm.ApplyPostLLMGuardrails ToLower TrimSpace).
Local Abbreviation Triage := (Llm.Triage ToLower TrimSpace).

Lemma normalizeSeverity_enum (s : string) : validSeverity (normalizeSeverity s).
Proof.
  unfold Llm.normalizeSeverity, validSeverity. cbn [existsb].
  set (x := ToLower (TrimSpace s)).
  destruct (String.eqb_spec x "critical"); [now left|].
  destruct (String.eqb_spec x "high"); [now right; left|].
  destruct (String.eqb_spec x "medium"); [now right; right; left|].
  destruct (String.eqb_spec x "low"); [now right; right; right; left|].
  destruct (String.eqb_spec x "info"); [now right; right; right; right|].
  cbn. now right; right; left.
Qed.

Lemma normalizePriority_range (p : Z) (s : string) : 1 <= normalizePriority p s <= 5.
Proof.
  unfold normalizePriority.
  destruct (Z.ltb_spec p 1); cbn; [lia|].
  unfold Z.gtb. destruct (Z.compare_spec p 5); lia.
Qed.

Lemma normalizeConfidence_range (c : Z) : 0 <= normalizeConfidence c <= 100.
Proof.
  unfold normalizeConfidence.
  destruct (Z.ltb_spec c 0); [lia|].
  unfold Z.gtb. destruct (Z.compare_spec c 100); lia.
Qed.

Lemma countInDB_nonneg (iocs : list IOCContext) : 0 <= countInDB iocs.
Proof. unfold countInDB. lia. Qed.

Lemma countInDB_pos_iff (iocs : list IOCContext) :
  0 < countInDB iocs <-> exists ioc, In ioc iocs /\ InDatabase ioc = true.
Proof.
  unfold countInDB. split.
  - intros H. destruct (filter InDatabase iocs) as [|x l] eqn:E; [cbn in H; lia|].
    exists x. apply filter_In. rewrite E. now left.
  - intros [ioc Hioc]. apply filter_In in Hioc.
    destruct (filter InDatabase iocs); [contradiction|cbn; lia].
Qed.

Lemma hasHighRiskInDB_countInDB (iocs : list IOCContext) :
  hasHighRiskInDB iocs = true -> 0 < countInDB iocs.
Proof.
  unfold Llm.hasHighRiskInDB. intros H. apply existsb_exists in H.
  destruct H as [ioc [Hin H]]. apply andb_true_iff in H.
  apply countInDB_pos_iff. exists ioc. tauto.
Qed.

(** Go's comparison helpers against the order of [Z]. *)
Lemma max_spec (a b : Z) : max a b = Z.max a b.
Proof. unfold max, Z.gtb. destruct (Z.compare_spec a b); lia. Qed.

Lemma min_spec (a b : Z) : min a b = Z.min a b.
Proof. unfold min. destruct (Z.ltb_spec a b); lia. Qed.

Lemma abs_spec (x : Z) : abs x = Z.abs x.
Proof. unfold abs. destruct (Z.ltb_spec x 0); lia. Qed.

(** Case analysis on every test of the post-filter, once the normalised
    fields and the two counts are abstracted. *)
Ltac split_tests :=
  repeat match goal with
         | |- context [Z.gtb ?a ?b] =>
             let H := fresh "T" in
             unfold Z.gtb; destruct (Z.compare_spec a b) as [H|H|H]
         | |- context [Z.ltb ?a ?b] => destruct (Z.ltb_spec a b)
         | |- context [Z.geb ?a ?b] =>
             let H := fresh "T" in
             unfold Z.geb; destruct (Z.compare_spec a b) as [H|H|H]
         | |- context [Z.eqb ?a ?b] => destruct (Z.eqb_spec a b)
         | |- context [if ?b then _ else _] => destruct b eqn:?
         end; cbn in *.

(** *** One invariant per block of the post-filter *)

Ltac enum_cases H :=
  unfold inRange, validSeverity in H;
  destruct H as [[H | [H | [H | [H | H]]]] [? ?]].

Ltac finish_fields :=
  unfold inRange, validSeverity; cbn;
  repeat split; try tauto; try lia; try discriminate.

Lemma normalizeFields_inRange (r : TriageResult) : inRange 100 (normalizeFields r).
Proof.
  unfold Llm.normalizeFields, inRange; cbn.
  auto using normalizeSeverity_enum, normalizePriority_range, normalizeConfidence_range.
Qed.

Lemma guardrail1_inRange (n : Z) (r : TriageResult) :
  0 <= n -> inRange 100 r -> inRange 100 (guardrail1 n r) /\ fpSound n (guardrail1 n r).
Proof.
  intros Hn H. unfold guardrail1, fpSound. destruct r as [sev p su an rec fp c].
  enum_cases H; cbn in *; subst sev; rewrite ?max_spec;
    destruct fp; cbn; split_tests; finish_fields.
Qed.

Lemma guardrail2_inRange (hr : bool) (n : Z) (r : TriageResult) :
  inRange 100 r -> fpSound n r ->
  inRange 110 (guardrail2 hr r) /\ fpSound n (guardrail2 hr r).
Proof.
  intros H F. unfold guardrail2, fpSound in *. destruct r as [sev p su an rec fp c].
  enum_cases H; cbn in *; subst sev; rewrite ?max_spec;
    destruct hr; cbn; finish_fields.
Qed.

Lemma guardrail2_idle (r : TriageResult) : guardrail2 false r = r.
Proof. reflexivity. Qed.

Lemma guardrail3_inRange (hi : Z) (config : GuardrailConfig) (n : Z) (r : TriageResult) :
  inRange hi r -> fpSound n r ->
  inRange hi (guardrail3 config n r) /\ fpSound n (guardrail3 config n r).
Proof.
  intros H F. unfold guardrail3, fpSound in *. destruct r as [sev p su an rec fp c].
  enum_cases H; cbn in *; subst sev; rewrite ?min_spec;
    destruct (RequireThreatIntelForCritical config); cbn; split_tests; finish_fields.
Qed.

Lemma guardrail4_inRange (hi n : Z) (threat : ThreatContext) (r : TriageResult) :
  98 <= hi -> inRange hi r -> fpSound n r ->
  inRange hi (guardrail4 n threat r) /\ fpSound n (guardrail4 n threat r).
Proof.
  intros Hhi H F. unfold guardrail4, fpSound in *. destruct r as [sev p su an rec fp c].
  generalize (Z.of_nat (List.length (uniqueSources (IOCs threat)))). intros k.
  enum_cases H; cbn in *; subst sev; rewrite ?min_spec; split_tests; finish_fields.
Qed.

Lemma guardrail5_inRange (hi n : Z) (r : TriageResult) :
  inRange hi r -> fpSound n r ->
  inRange hi (guardrail5 DefaultGuardrailConfig r)
  /\ fpSound n (guardrail5 DefaultGuardrailConfig r)
  /\ ((guardrail5 DefaultGuardrailConfig r).(FalsePositive) = true ->
      85 <= (guardrail5 DefaultGuardrailConfig r).(Confidence)).
Proof.
  intros H F. unfold guardrail5, fpSound in *. destruct r as [sev p su an rec fp c].
  enum_cases H; cbn in *; subst sev; destruct fp; cbn; split_tests; finish_fields.
Qed.


Lemma guardrail6_aligned (hi : Z) (r : TriageResult) :
  inRange hi r ->
  inRange hi (guardrail6 r)
  /\ Z.abs ((guardrail6 r).(Priority) - severityToPriority (guardrail6 r).(Severity)) <= 1.
Proof.
  intros H. unfold guardrail6, ensurePriorityMatchesSeverity.
  destruct r as [sev p su an rec fp c].
  enum_cases H; cbn in *; subst sev; cbn; rewrite ?abs_spec; split_tests; finish_fields.
Qed.

Lemma guardrail6_fields (r : TriageResult) :
  (guardrail6 r).(Severity) = r.(Severity)
  /\ (guardrail6 r).(Confidence) = r.(Confidence)
  /\ (guardrail6 r).(FalsePositive) = r.(FalsePositive).
Proof. unfold guardrail6; cbn; auto. Qed.

Lemma guardrail7_fields (r : TriageResult) :
  (guardrail7 r).(Severity) = r.(Severity)
  /\ (guardrail7 r).(Priority) = r.(Priority)
  /\ (guardrail7 r).(Confidence) = r.(Confidence)
  /\ (guardrail7 r).(FalsePositive) = r.(FalsePositive).
Proof. unfold guardrail7. destruct (_ && _)%bool; cbn; auto. Qed.

(** The ranges the post-filter guarantees under the default configuration;
    [hi] is 100 when no IOC in the database has a high-risk threat type, and
    110 otherwise. *)
Lemma ApplyPostLLMGuardrails_fields (r : TriageResult) (threat : ThreatContext) :
  let out := ApplyPostLLMGuardrails r threat DefaultGuardrailConfig in
  let hi := if hasHighRiskInDB threat.(IOCs) then 110 else 100 in
  inRange hi out
  /\ Z.abs (out.(Priority) - severityToPriority out.(Severity)) <= 1
  /\ (out.(FalsePositive) = true -> 85 <= out.(Confidence)).
Proof.
  unfold Llm.ApplyPostLLMGuardrails. cbv zeta.
  pose proof (countInDB_nonneg threat.(IOCs)) as Hn.
  set (n := countInDB threat.(IOCs)) in *.
  pose proof (normalizeFields_inRange r) as H0.
  destruct (guardrail1_inRange n _ Hn H0) as [H1 F1].
  assert (H2 : inRange (if hasHighRiskInDB threat.(IOCs) then 110 else 100)
                 (guardrail2 (hasHighRiskInDB threat.(IOCs)) (guardrail1 n (normalizeFields r)))
               /\ fpSound n (guardrail2 (hasHighRiskInDB threat.(IOCs))
                               (guardrail1 n (normalizeFields r)))).
  { destruct (hasHighRiskInDB threat.(IOCs)).
    - now apply guardrail2_inRange.
    - rewrite guardrail2_idle. now split. }
  set (hi := if hasHighRiskInDB threat.(IOCs) then 110 else 100) in *.
  assert (Hhi : 98 <= hi) by (subst hi; destruct (hasHighRiskInDB _); lia).
  destruct H2 as [H2 F2].
  destruct (guardrail3_inRange hi DefaultGuardrailConfig n _ H2 F2) as [H3 F3].
  destruct (guardrail4_inRange hi n threat _ Hhi H3 F3) as [H4 F4].
  destruct (guardrail5_inRange hi n _ H4 F4) as [H5 [F5 C5]].
  destruct (guardrail6_aligned hi _ H5) as [H6 A6].
  match goal with |- context [guardrail7 ?x] =>
    destruct (guardrail7_fields x) as [Es [Ep [Ec Ef]]] end.
  match type of C5 with context [guardrail5 ?c ?x] =>
    destruct (guardrail6_fields (guardrail5 c x)) as [_ [Ec6 Ef6]] end.
  unfold inRange. rewrite Es, Ep, Ec, Ef.
  split; [exact H6|]. split; [exact A6|].
  rewrite Ec6, Ef6. exact C5.
Qed.


(** The three ways the pre-filter can answer. *)
Lemma ApplyPreLLMGuardrails_cases (threat : ThreatContext) (config : GuardrailConfig) :
  (exists r, ApplyPreLLMGuardrails threat config = (Some r, true)
             /\ r.(Severity) = "info" /\ r.(Priority) = 5
             /\ r.(FalsePositive) = true /\ r.(Confidence) = 95
             /\ threat.(IOCs) <> []
             /\ forallb (fun ioc => isKnownGoodIndicator ioc.(Value)) threat.(IOCs) = true)
  \/ (exists r, ApplyPreLLMGuardrails threat config = (Some r, true)
                /\ r.(Severity) = "high" /\ r.(Priority) = 2
                /\ r.(FalsePositive) = false /\ r.(Confidence) = 90
                /\ hasHighRiskInDB threat.(IOCs) = true)
  \/ (ApplyPreLLMGuardrails threat config = (None, false)
      /\ hasHighRiskInDB threat.(IOCs) = false).
Proof.
  unfold Llm.ApplyPreLLMGuardrails.
  destruct (forallb _ (IOCs threat)) eqn:Hall.
  - destruct (IOCs threat) as [|i l] eqn:E.
    + cbn. destruct (hasHighRiskInDB []) eqn:Hh; [discriminate Hh|].
      right; right. now split.
    + left. eexists. split.
      * replace (0 <? Z.of_nat (length (i :: l))) with true; [reflexivity|].
        symmetry; apply Z.ltb_lt; cbn; lia.
      * cbn [Severity Priority FalsePositive Confidence]. repeat split; congruence.
  - rewrite andb_false_r.
    destruct (hasHighRiskInDB (IOCs threat)) eqn:Hh.
    + right; left. eexists. split; [reflexivity|]. cbn. auto.
    + right; right. now split.
Qed.

(** C1. Every result returned by Triage -- from the pre-filter short-circuit
    or from the post-filter over any parsed LLM result, for any alert -- has
    its severity in {critical, high, medium, low, info}, its priority in
    1..5, its confidence in 0..100, a priority within 1 of the canonical
    priority of its severity (critical 1, high 2, medium 3, low 4, info 5,
    the table [severityToPriority]), and, if it is a false positive, a
    confidence of at least 85. *)
Theorem Triage_result_invariants (t : LLMTriager) (threat : ThreatContext)
    (r : TriageResult) (Hret : Triage t threat = inr r) :
  validSeverity r.(Severity)
  /\ 1 <= r.(Priority) <= 5
  /\ 0 <= r.(Confidence) <= 100
  /\ Z.abs (r.(Priority) - severityToPriority r.(Severity)) <= 1
  /\ (r.(FalsePositive) = true -> 85 <= r.(Confidence)).
Proof.
  unfold Llm.Triage in Hret.
  destruct (negb (enabled t)); [discriminate|].
  destruct (ApplyPreLLMGuardrails_cases threat DefaultGuardrailConfig)
    as [[p [E [Hs [Hp [Hf Hc]]]]] | [[p [E [Hs [Hp [Hf [Hc _]]]]]] | [E Hh]]];
    rewrite E in Hret.
  - destruct Hc as [Hc _]. injection Hret as <-.
    rewrite Hs, Hp, Hc. unfold validSeverity. cbn. repeat split; auto; lia.
  - injection Hret as <-.
    rewrite Hs, Hp, Hc, Hf. unfold validSeverity. cbn.
    repeat split; auto; try lia; discriminate.
  - destruct (ask t threat) as [| |res]; try discriminate.
    injection Hret as <-.
    pose proof (ApplyPostLLMGuardrails_fields res threat) as H.
    cbv zeta in H. rewrite Hh in H. destruct H as [[S [P C]] [A F]].
    repeat split; try assumption; lia.
Qed.


(** The state of the counters once some indicator in the database carries a
    high-risk threat type. *)
Lemma high_risk_indicator (threat : ThreatContext) (ioc : IOCContext) (tt : string) :
  In ioc threat.(IOCs) -> ioc.(InDatabase) = true ->
  In tt ioc.(ThreatTypes) -> isHighRiskThreatType tt = true ->
  hasHighRiskInDB threat.(IOCs) = true.
Proof.
  intros Hin Hdb Htt Hrisk. unfold Llm.hasHighRiskInDB.
  apply existsb_exists. exists ioc. split; [assumption|].
  rewrite Hdb. cbn. apply existsb_exists. eauto.
Qed.

(** *** When a block of the post-filter leaves the result alone *)

Lemma normalizeFields_fields (r : TriageResult) :
  (normalizeFields r).(Severity) = normalizeSeverity r.(Severity)
  /\ (normalizeFields r).(Confidence) = normalizeConfidence r.(Confidence)
  /\ (normalizeFields r).(FalsePositive) = r.(FalsePositive).
Proof. unfold Llm.normalizeFields; cbn; auto. Qed.

Lemma guardrail1_idle (n : Z) (r : TriageResult) :
  r.(FalsePositive) = false -> guardrail1 n r = r.
Proof. unfold guardrail1. now intros ->. Qed.

Lemma guardrail1_fires (n : Z) (r : TriageResult) :
  r.(FalsePositive) = true -> 0 < n ->
  let out := guardrail1 n r in
  out.(FalsePositive) = false
  /\ out.(Confidence) = Z.max (r.(Confidence) - 20) 50
  /\ (r.(Severity) = "info" \/ r.(Severity) = "low" ->
      out.(Severity) = "medium" /\ out.(Priority) = 3)
  /\ (validSeverity r.(Severity) ->
      out.(Severity) <> "info" /\ out.(Severity) <> "low").
Proof.
  intros Hfp Hn. unfold guardrail1. rewrite Hfp.
  replace (n >? 0) with true by (symmetry; apply Z.gtb_lt; lia).
  destruct r as [sev p su an rec fp c]. cbn. rewrite max_spec.
  destruct (String.eqb_spec sev "info") as [->|Hi]; cbn.
  - split; [reflexivity|]. split; [reflexivity|].
    split; [intros _; split; reflexivity | intros _; split; discriminate].
  - destruct (String.eqb_spec sev "low") as [->|Hl]; cbn.
    + split; [reflexivity|]. split; [reflexivity|].
      split; [intros _; split; reflexivity | intros _; split; discriminate].
    + split; [reflexivity|]. split; [reflexivity|].
      split; [intros [E|E]; contradiction | intros _; split; assumption].
Qed.

Lemma guardrail2_fires (r : TriageResult) :
  r.(Severity) = "info" \/ r.(Severity) = "low" ->
  guardrail2 true r =
  setConfidence (setFalsePositive (setPriority (setSeverity r "high") 2) false)
    (Z.max (r.(Confidence) + 10) 85).
Proof.
  intros H. unfold guardrail2. rewrite <- max_spec.
  destruct H as [-> | ->]; reflexivity.
Qed.

Lemma guardrail2_other_severity (hr : bool) (r : TriageResult) :
  r.(Severity) <> "info" -> r.(Severity) <> "low" -> guardrail2 hr r = r.
Proof.
  intros Hi Hl. unfold guardrail2.
  destruct (String.eqb_spec r.(Severity) "info"); [contradiction|].
  destruct (String.eqb_spec r.(Severity) "low"); [contradiction|].
  now rewrite andb_false_r.
Qed.

Lemma guardrail3_idle (config : GuardrailConfig) (n : Z) (r : TriageResult) :
  0 < n -> guardrail3 config n r = r.
Proof.
  intros Hn. unfold guardrail3.
  replace (n =? 0) with false by (symmetry; apply Z.eqb_neq; lia).
  now rewrite andb_false_r.
Qed.

Lemma guardrail4_idle (n : Z) (threat : ThreatContext) (r : TriageResult) :
  (List.length (uniqueSources threat.(IOCs)) < 3)%nat -> guardrail4 n threat r = r.
Proof.
  intros H. unfold guardrail4.
  replace (Z.of_nat (length (uniqueSources (IOCs threat))) >=? 3) with false
    by (symmetry; rewrite Z.geb_leb; apply Z.leb_gt; lia).
  now destruct (n >? 0).
Qed.

Lemma guardrail4_fields (n : Z) (threat : ThreatContext) (r : TriageResult) :
  let out := guardrail4 n threat r in
  out.(Severity) = r.(Severity) /\ out.(Priority) = r.(Priority)
  /\ out.(FalsePositive) = r.(FalsePositive)
  /\ (out.(Confidence) = r.(Confidence)
      \/ out.(Confidence) = Z.min (r.(Confidence) + 15) 98).
Proof.
  unfold guardrail4. rewrite <- min_spec.
  destruct (n >? 0); [destruct (_ >=? 3)|]; cbn; auto.
Qed.

Lemma guardrail5_idle (config : GuardrailConfig) (r : TriageResult) :
  r.(FalsePositive) = false -> guardrail5 config r = r.
Proof. unfold guardrail5. now intros ->. Qed.

Lemma guardrail6_keeps (r : TriageResult) :
  r.(Priority) = severityToPriority r.(Severity) -> guardrail6 r = r.
Proof.
  intros H. unfold guardrail6, ensurePriorityMatchesSeverity. rewrite <- H.
  rewrite Z.sub_diag. cbn. destruct (Priority r =? 0); now destruct r.
Qed.

(** C3 (as amended). In the post-filter, under any configuration: if some
    enriched indicator that is in the database has a threat type matching the
    high-risk set, the result is not marked false positive, and its
    normalised severity is info or low, then the output has severity high,
    priority 2, false_positive false and a confidence of at least 85: the
    rule adds 10 with a floor of 85, so that with fewer than three distinct
    sources and a normalised confidence c of at most 90 the output confidence
    is max (c + 10) 85. *)
Theorem severity_upgrade_floor (r : TriageResult) (threat : ThreatContext)
    (config : GuardrailConfig) (ioc : IOCContext) (tt : string)
    (Hin : In ioc threat.(IOCs)) (Hdb : ioc.(InDatabase) = true)
    (Htt : In tt ioc.(ThreatTypes)) (Hrisk : isHighRiskThreatType tt = true)
    (Hfp : r.(FalsePositive) = false)
    (Hsev : normalizeSeverity r.(Severity) = "info"
            \/ normalizeSeverity r.(Severity) = "low") :
  let out := ApplyPostLLMGuardrails r threat config in
  let c := normalizeConfidence r.(Confidence) in
  out.(Severity) = "high" /\ out.(Priority) = 2 /\ out.(FalsePositive) = false
  /\ 85 <= out.(Confidence)
  /\ ((List.length (uniqueSources threat.(IOCs)) < 3)%nat -> c <= 90 ->
      out.(Confidence) = Z.max (c + 10) 85).
Proof.
  pose proof (high_risk_indicator threat ioc tt Hin Hdb Htt Hrisk) as Hh.
  pose proof (hasHighRiskInDB_countInDB _ Hh) as Hn.
  pose proof (normalizeConfidence_range r.(Confidence)) as Hc.
  destruct (normalizeFields_fields r) as [Es [Ec Ef]].
  unfold Llm.ApplyPostLLMGuardrails. cbv zeta. rewrite Hh.
  set (n := countInDB threat.(IOCs)) in *.
  set (r0 := normalizeFields r) in *.
  rewrite (guardrail1_idle n r0) by congruence.
  rewrite (guardrail2_fires r0) by congruence.
  set (r2 := setConfidence _ _).
  rewrite (guardrail3_idle config n r2 Hn).
  destruct (guardrail4_fields n threat r2) as [S4 [P4 [F4 C4]]].
  assert (H4 : guardrail4 n threat r2 = r2 \/
               (List.length (uniqueSources threat.(IOCs)) >= 3)%nat).
  { destruct (Nat.ltb_spec (length (uniqueSources (IOCs threat))) 3).
    - left. now apply guardrail4_idle.
    - right. lia. }
  set (r4 := guardrail4 n threat r2) in *.
  rewrite (guardrail5_idle config r4) by (rewrite F4; reflexivity).
  rewrite (guardrail6_keeps r4) by (rewrite S4, P4; reflexivity).
  destruct (guardrail7_fields r4) as [E7s [E7p [E7c E7f]]].
  rewrite E7s, E7p, E7c, E7f, S4, P4, F4.
  assert (Hr2 : r2.(Confidence) = Z.max (normalizeConfidence r.(Confidence) + 10) 85)
    by (subst r2; cbn [Confidence setConfidence]; now rewrite Ec).
  repeat split.
  - destruct C4 as [-> | ->]; lia.
  - intros Hlt _. destruct H4 as [-> | ?]; [assumption | lia].
Qed.

Lemma guardrail4_fires (n : Z) (threat : ThreatContext) (r : TriageResult) :
  0 < n -> (3 <= List.length (uniqueSources threat.(IOCs)))%nat ->
  (guardrail4 n threat r).(Confidence) = Z.min (r.(Confidence) + 15) 98.
Proof.
  intros Hn H. unfold guardrail4.
  replace (n >? 0) with true by (symmetry; apply Z.gtb_lt; lia).
  replace (Z.of_nat (length (uniqueSources (IOCs threat))) >=? 3) with true
    by (symmetry; rewrite Z.geb_leb; apply Z.leb_le; lia).
  cbn. apply min_spec.
Qed.

(** C4 (as amended). In the post-filter, under any configuration: if the
    result is marked false positive and at least one enriched indicator has
    in_database = true, then the output has false_positive false and, when
    the normalised severity is info or low, severity medium and priority 3,
    whatever the number of sources.  Its confidence is max (c - 20) 50 for the
    normalised confidence c when fewer than three distinct sources occur over
    all enriched indicators; with three or more the multi-source boost runs
    on top of it and the confidence is min (max (c - 20) 50 + 15) 98. *)
Theorem false_positive_override (r : TriageResult) (threat : ThreatContext)
    (config : GuardrailConfig) (ioc : IOCContext)
    (Hfp : r.(FalsePositive) = true)
    (Hin : In ioc threat.(IOCs)) (Hdb : ioc.(InDatabase) = true) :
  let out := ApplyPostLLMGuardrails r threat config in
  let c := normalizeConfidence r.(Confidence) in
  out.(FalsePositive) = false
  /\ ((List.length (uniqueSources threat.(IOCs)) < 3)%nat ->
      out.(Confidence) = Z.max (c - 20) 50)
  /\ ((3 <= List.length (uniqueSources threat.(IOCs)))%nat ->
      out.(Confidence) = Z.min (Z.max (c - 20) 50 + 15) 98)
  /\ (normalizeSeverity r.(Severity) = "info" \/ normalizeSeverity r.(Severity) = "low" ->
      out.(Severity) = "medium" /\ out.(Priority) = 3).
Proof.
  assert (Hn : 0 < countInDB threat.(IOCs)) by (apply countInDB_pos_iff; eauto).
  pose proof (normalizeSeverity_enum r.(Severity)) as Hs.
  destruct (normalizeFields_fields r) as [Es [Ec Ef]].
  unfold Llm.ApplyPostLLMGuardrails. cbv zeta.
  set (n := countInDB threat.(IOCs)) in *.
  set (r0 := normalizeFields r) in *.
  destruct (guardrail1_fires n r0) as [F1 [C1 [S1 V1]]]; [congruence|assumption|].
  rewrite <- Es in Hs. destruct (V1 Hs) as [Ni Nl].
  set (r1 := guardrail1 n r0) in *.
  rewrite (guardrail2_other_severity _ r1 Ni Nl).
  rewrite (guardrail3_idle config n r1 Hn).
  destruct (guardrail4_fields n threat r1) as [S4 [P4 [F4 _]]].
  assert (Clt : (List.length (uniqueSources threat.(IOCs)) < 3)%nat ->
                (guardrail4 n threat r1).(Confidence) = r1.(Confidence))
    by (intros H; now rewrite guardrail4_idle).
  pose proof (guardrail4_fires n threat r1 Hn) as Cge.
  set (r4 := guardrail4 n threat r1) in *.
  rewrite (guardrail5_idle config r4) by congruence.
  destruct (guardrail7_fields (guardrail6 r4)) as [E7s [E7p [E7c E7f]]].
  destruct (guardrail6_fields r4) as [E6s [E6c E6f]].
  rewrite E7s, E7p, E7c, E7f, E6s, E6c, E6f.
  split; [congruence|].
  split; [intros H; rewrite (Clt H); congruence|].
  split; [intros H; rewrite (Cge H); congruence|].
  intros Hlow. rewrite <- Es in Hlow. destruct (S1 Hlow) as [Sm Pm].
  rewrite (guardrail6_keeps r4) by (rewrite S4, P4, Sm, Pm; reflexivity).
  rewrite S4, P4. now split.
Qed.

End GuardrailFacts.

(* ================================================================= *)
(** ** The guardrails on concrete alerts *)

Section GuardrailScenarios.
Import GoStrings Llm Scenarios.

(** The cases of guardrails_test.go, replayed on the embedding. *)
Example pre_filter_all_known_good :
  let out := ApplyPreLLMGuardrails asciiToLower
               (alertWith [indicator "update.microsoft.com" false [] []])
               DefaultGuardrailConfig in
  snd out = true
  /\ option_map Severity (fst out) = Some "info"
  /\ option_map FalsePositive (fst out) = Some true
  /\ option_map Confidence (fst out) = Some 95.
Proof. vm_compute. repeat split. Qed.

Example pre_filter_high_risk_threat_type :
  let out := ApplyPreLLMGuardrails asciiToLower
               (alertWith [indicator "192.0.2.1" true ["alienvault-otx"; "urlhaus"]
                             ["c2_server"; "botnet"]])
               DefaultGuardrailConfig in
  snd out = true
  /\ option_map Severity (fst out) = Some "high"
  /\ option_map FalsePositive (fst out) = Some false
  /\ option_map Confidence (fst out) = Some 90.
Proof. vm_compute. repeat split. Qed.

Example isKnownGoodIndicator_cases :
  map (isKnownGoodIndicator asciiToLower)
    ["update.microsoft.com"; "windowsupdate.com"; "s3.amazonaws.com";
     "fonts.googleapis.com"; "cdnjs.cloudflare.com"; "malicious-site.xyz"; "192.0.2.1"]
  = [true; true; true; true; true; false; false].
Proof. vm_compute. reflexivity. Qed.

Example isHighRiskThreatType_cases :
  map (isHighRiskThreatType asciiToLower)
    ["c2_server"; "command_and_control"; "botnet"; "ransomware"; "malware_download";
     "phishing"; "suspicious"; "scanner"; "C2_Server"]
  = [true; true; true; true; true; true; false; false; true].
Proof. vm_compute. reflexivity. Qed.

Example pre_filter_no_match :
  ApplyPreLLMGuardrails asciiToLower
    (alertWith [indicator "unknown-domain.xyz" false [] []]) DefaultGuardrailConfig
  = (None, false).
Proof. vm_compute. reflexivity. Qed.

Example post_filter_require_intel_for_critical :
  let out := asciiPostFilter (reply "critical" 1 false 85)
               (alertWith [indicator "unknown-domain.xyz" false [] []])
               DefaultGuardrailConfig in
  out.(Severity) = "high" /\ out.(Priority) = 2 /\ out.(Confidence) = 75.
Proof. vm_compute. repeat split. Qed.

Example post_filter_low_confidence_false_positive :
  let out := asciiPostFilter (reply "info" 5 true 70) (alertWith []) DefaultGuardrailConfig in
  out.(FalsePositive) = false /\ out.(Severity) = "low" /\ out.(Priority) = 4.
Proof. vm_compute. repeat split. Qed.

Example post_filter_multi_source_boost :
  let out := asciiPostFilter (reply "high" 2 false 70)
               (alertWith [indicator "192.0.2.1" true
                             ["alienvault-otx"; "urlhaus"; "abuse.ch"; "digitalside"] []])
               DefaultGuardrailConfig in
  out.(Confidence) = 85.
Proof. vm_compute. reflexivity. Qed.

Example normalizeSeverity_cases :
  normalizeSeverity asciiToLower asciiTrimSpace "HIGH" = "high"
  /\ normalizeSeverity asciiToLower asciiTrimSpace " medium " = "medium"
  /\ normalizeSeverity asciiToLower asciiTrimSpace "unknown" = "medium"
  /\ normalizeSeverity asciiToLower asciiTrimSpace "" = "medium".
Proof. vm_compute. repeat split. Qed.

Example ensurePriorityMatchesSeverity_cases :
  ensurePriorityMatchesSeverity 1 "critical" = 1
  /\ ensurePriorityMatchesSeverity 3 "critical" = 1
  /\ ensurePriorityMatchesSeverity 5 "high" = 2
  /\ ensurePriorityMatchesSeverity 2 "critical" = 2
  /\ ensurePriorityMatchesSeverity 4 "unknown" = 4.
Proof. vm_compute. repeat split. Qed.

(** Scenario S6 with a single-source catalog hit. *)
Example scenario_S6 :
  let out := asciiPostFilter (reply "low" 4 true 70)
               (alertWith [indicator "192.0.2.1" true ["alienvault-otx"] []])
               DefaultGuardrailConfig in
  out.(Severity) = "medium" /\ out.(FalsePositive) = false
  /\ out.(Confidence) = 50 /\ out.(Priority) = 3.
Proof. vm_compute. repeat split. Qed.

(** The post-filter called on its own, outside Triage, on an alert the
    pre-filter would have answered: the severity upgrade takes a confidence
    of 100 to 110. *)
Example post_filter_alone_confidence :
  let threat := alertWith [indicator "192.0.2.1" true ["urlhaus"] ["botnet"]] in
  (asciiPostFilter (reply "low" 4 false 100) threat DefaultGuardrailConfig).(Confidence) = 110
  /\ snd (ApplyPreLLMGuardrails asciiToLower threat DefaultGuardrailConfig) = true.
Proof. vm_compute. repeat split. Qed.

(** An instance of C1: a reply with out-of-range fields, on an alert that
    passes the pre-filter. *)
Lemma Triage_result_invariants_witness :
  let t := answering (reply " High" 9 true 120) in
  let threat := alertWith [indicator "203.0.113.9" false [] []] in
  let r := asciiPostFilter (reply " High" 9 true 120) threat DefaultGuardrailConfig in
  asciiTriage t threat = inr r
  /\ (validSeverity r.(Severity)
      /\ 1 <= r.(Priority) <= 5
      /\ 0 <= r.(Confidence) <= 100
      /\ Z.abs (r.(Priority) - severityToPriority r.(Severity)) <= 1
      /\ (r.(FalsePositive) = true -> 85 <= r.(Confidence))).
Proof.
  cbv zeta. split; [vm_compute; reflexivity|].
  apply (Triage_result_invariants asciiToLower asciiTrimSpace
           (answering (reply " High" 9 true 120))
           (alertWith [indicator "203.0.113.9" false [] []])).
  vm_compute. reflexivity.
Defined.



(** C3, refuted as stated.  (1) A catalogued botnet indicator, normalised
    severity low, confidence 90: the output confidence is 100, above 85.
    (2) The same threat type on an indicator that is not in the database: the
    severity stays low.  (3) The same catalogued indicator with a
    false-positive verdict: the FP override runs first and the severity ends
    at medium, not high. *)
Lemma severity_upgrade_not_capped :
  let inDb := alertWith [indicator "192.0.2.1" true ["urlhaus"] ["botnet"]] in
  let notInDb := alertWith [indicator "192.0.2.1" false [] ["botnet"]] in
  isHighRiskThreatType asciiToLower "botnet" = true
  /\ normalizeSeverity asciiToLower asciiTrimSpace "low" = "low"
  /\ (asciiPostFilter (reply "low" 4 false 90) inDb DefaultGuardrailConfig).(Confidence) = 100
  /\ ~ (asciiPostFilter (reply "low" 4 false 90) inDb DefaultGuardrailConfig).(Confidence) <= 85
  /\ (asciiPostFilter (reply "low" 4 false 90) notInDb DefaultGuardrailConfig).(Severity) = "low"
  /\ (asciiPostFilter (reply "low" 4 true 90) inDb DefaultGuardrailConfig).(Severity) = "medium".
Proof.
  cbv zeta. repeat apply conj; try (vm_compute; reflexivity).
  intros H. vm_compute in H. now apply H.
Qed.

(** An instance of C3 as amended: the case of
    TestApplyPostLLMGuardrails_UpgradeSeverity. *)
Lemma severity_upgrade_floor_witness :
  let r := reply "low" 4 false 70 in
  let ioc := indicator "192.0.2.1" true [] ["c2_server"; "ransomware"] in
  let threat := alertWith [ioc] in
  let out := asciiPostFilter r threat DefaultGuardrailConfig in
  (In ioc threat.(IOCs) /\ ioc.(InDatabase) = true /\ In "c2_server" ioc.(ThreatTypes)
   /\ isHighRiskThreatType asciiToLower "c2_server" = true
   /\ r.(FalsePositive) = false
   /\ (normalizeSeverity asciiToLower asciiTrimSpace r.(Severity) = "info"
       \/ normalizeSeverity asciiToLower asciiTrimSpace r.(Severity) = "low"))
  /\ (out.(Severity) = "high" /\ out.(Priority) = 2 /\ out.(FalsePositive) = false
      /\ 85 <= out.(Confidence)
      /\ ((List.length (uniqueSources threat.(IOCs)) < 3)%nat ->
          normalizeConfidence r.(Confidence) <= 90 ->
          out.(Confidence) = Z.max (normalizeConfidence r.(Confidence) + 10) 85)).
Proof.
  cbv zeta. split.
  - repeat split; try reflexivity; try (now left). right. vm_compute. reflexivity.
  - apply (severity_upgrade_floor asciiToLower asciiTrimSpace
             (reply "low" 4 false 70)
             (alertWith [indicator "192.0.2.1" true [] ["c2_server"; "ransomware"]])
             DefaultGuardrailConfig
             (indicator "192.0.2.1" true [] ["c2_server"; "ransomware"]) "c2_server").
    + now left.
    + reflexivity.
    + now left.
    + vm_compute. reflexivity.
    + reflexivity.
    + right. vm_compute. reflexivity.
Defined.

(** C4, refuted as stated: the LLM result of scenario S6, with exactly one
    enriched indicator in the database; that indicator has three
    sources, the multi-source boost runs after the override, and the output
    confidence is 65, not 50 = max (70 - 20) 50. *)
Lemma false_positive_override_then_boost :
  let threat := alertWith [indicator "192.0.2.1" true ["alienvault-otx"; "urlhaus"; "abuse.ch"] []] in
  let out := asciiPostFilter (reply "low" 4 true 70) threat DefaultGuardrailConfig in
  countInDB threat.(IOCs) = 1
  /\ out.(Severity) = "medium" /\ out.(FalsePositive) = false /\ out.(Priority) = 3
  /\ out.(Confidence) = 65
  /\ out.(Confidence) <> Z.max (normalizeConfidence 70 - 20) 50.
Proof. vm_compute. repeat split; try reflexivity. discriminate. Qed.

(** An instance of C4 as amended: scenario S6 with a single-source hit. *)
Lemma false_positive_override_witness :
  let r := reply "low" 4 true 70 in
  let ioc := indicator "192.0.2.1" true ["alienvault-otx"] [] in
  let threat := alertWith [ioc] in
  let out := asciiPostFilter r threat DefaultGuardrailConfig in
  (r.(FalsePositive) = true /\ In ioc threat.(IOCs) /\ ioc.(InDatabase) = true)
  /\ (out.(FalsePositive) = false
      /\ ((List.length (uniqueSources threat.(IOCs)) < 3)%nat ->
          out.(Confidence) = Z.max (normalizeConfidence r.(Confidence) - 20) 50)
      /\ ((3 <= List.length (uniqueSources threat.(IOCs)))%nat ->
          out.(Confidence) = Z.min (Z.max (normalizeConfidence r.(Confidence) - 20) 50 + 15) 98)
      /\ (normalizeSeverity asciiToLower asciiTrimSpace r.(Severity) = "info"
          \/ normalizeSeverity asciiToLower asciiTrimSpace r.(Severity) = "low" ->
          out.(Severity) = "medium" /\ out.(Priority) = 3)).
Proof.
  cbv zeta. split.
  - split; [reflexivity|]. split; [now left|]. reflexivity.
  - apply (false_positive_override asciiToLower asciiTrimSpace
             (reply "low" 4 true 70)
             (alertWith [indicator "192.0.2.1" true ["alienvault-otx"] []])
             DefaultGuardrailConfig
             (indicator "192.0.2.1" true ["alienvault-otx"] [])).
    + reflexivity.
    + now left.
    + reflexivity.
Defined.

End GuardrailScenarios.

(* ================================================================= *)
(** ** Facts about the component extractor *)

Section ExtractorFacts.
Import GoStrings Domain.

Variable ParseIP : string -> bool.
Variable urlHostname : string -> option string.

Local Abbreviation firstEmbeddedIP := (Domain.firstEmbeddedIP ParseIP).
Local Abbreviation ExtractIOCComponents := (Domain.ExtractIOCComponents ParseIP urlHostname).

Lemma HasPrefix_app (s p q : string) :
  HasPrefix s (p ++ q) = true -> HasPrefix s p = true.
Proof.
  revert s. induction p as [|a p IH]; intros s H; [reflexivity|].
  destruct s as [|c s]; cbn in *; [discriminate|].
  apply andb_true_iff in H. destruct H as [Hc H].
  rewrite Hc. cbn. now apply IH.
Qed.

(** Both URL schemes of the host branch begin with "http": the two
    branches of the extractor cannot both be taken. *)
Lemma url_scheme_has_http_prefix (value : string) :
  (HasPrefix value "http://" || HasPrefix value "https://")%bool = true ->
  HasPrefix value "http" = true.
Proof.
  intros H. apply orb_true_iff in H. destruct H as [H|H].
  - now apply (HasPrefix_app value "http" "://").
  - destruct value as [|c0 [|c1 [|c2 [|c3 v]]]]; cbn in *; try discriminate;
      repeat (apply andb_true_iff in H; destruct H as [? H]);
      repeat (apply andb_true_iff; split); auto.
Qed.

(** The loop over the parts returns the first part that is an IP literal
    other than the whole value. *)
Lemma firstEmbeddedIP_spec (value : string) (parts : list string) :
  match firstEmbeddedIP value parts with
  | None => forall part, In part parts -> ParseIP part = true -> part = value
  | Some part =>
      exists pre post,
        parts = (pre ++ part :: post)%list
        /\ (forall q, In q pre -> ParseIP q = true -> q = value)
        /\ ParseIP part = true /\ part <> value
  end.
Proof.
  induction parts as [|p parts IH]; cbn.
  - intros part [].
  - destruct (ParseIP p) eqn:Hp; cbn.
    + destruct (String.eqb_spec p value) as [->|Hne]; cbn.
      * destruct (firstEmbeddedIP value parts) as [part|].
        -- destruct IH as [pre [post [E [Hpre [Hip Hne]]]]].
           exists (value :: pre), post. rewrite E. repeat split; auto.
           intros q [<-|Hq]; auto.
        -- intros part [<-|Hin]; auto.
      * exists [], parts. repeat split; auto. intros q [].
    + destruct (firstEmbeddedIP value parts) as [part|].
      * destruct IH as [pre [post [E [Hpre [Hip Hne]]]]].
        exists (p :: pre), post. rewrite E. repeat split; auto.
        intros q [<-|Hq]; [congruence|auto].
      * intros part [<-|Hin]; [congruence|auto].
Qed.

(** C10. For every value and source IOC the extractor returns one or two
    IOCs, the first being the source IOC unchanged.  A second one, when
    present, comes either from the URL-host branch (taken only for values
    starting with "http://" or "https://": an IP IOC or a Domain IOC tagged
    extracted-from-url) or from the embedded-IP branch (taken only for values
    not starting with "http": an IP IOC tagged extracted-from-value); the two
    guards exclude each other, so no call emits both. *)
Theorem ExtractIOCComponents_shape (value : string) (sourceIOC : IOC) :
  let out := ExtractIOCComponents value sourceIOC in
  (List.length out = 1%nat \/ List.length out = 2%nat)
  /\ hd_error out = Some sourceIOC
  /\ ((HasPrefix value "http://" || HasPrefix value "https://")%bool = true ->
      negb (HasPrefix value "http") = false)
  /\ (out = [sourceIOC]
      \/ (exists host,
            (HasPrefix value "http://" || HasPrefix value "https://")%bool = true
            /\ ParseIP host = true
            /\ out = [sourceIOC; derived sourceIOC host IPAddress "extracted-from-url"])
      \/ (exists host,
            (HasPrefix value "http://" || HasPrefix value "https://")%bool = true
            /\ ParseIP host = false
            /\ out = [sourceIOC; derived sourceIOC host Domain "extracted-from-url"])
      \/ (exists part,
            HasPrefix value "http" = false
            /\ ParseIP part = true
            /\ out = [sourceIOC; derived sourceIOC part IPAddress "extracted-from-value"])).
Proof.
  cbv zeta.
  assert (Hex : (HasPrefix value "http://" || HasPrefix value "https://")%bool = true ->
                negb (HasPrefix value "http") = false).
  { intros H. now rewrite (url_scheme_has_http_prefix value H). }
  assert (Hshape :
    let out := ExtractIOCComponents value sourceIOC in
    out = [sourceIOC]
    \/ (exists host,
          (HasPrefix value "http://" || HasPrefix value "https://")%bool = true
          /\ ParseIP host = true
          /\ out = [sourceIOC; derived sourceIOC host IPAddress "extracted-from-url"])
    \/ (exists host,
          (HasPrefix value "http://" || HasPrefix value "https://")%bool = true
          /\ ParseIP host = false
          /\ out = [sourceIOC; derived sourceIOC host Domain "extracted-from-url"])
    \/ (exists part,
          HasPrefix value "http" = false
          /\ ParseIP part = true
          /\ out = [sourceIOC; derived sourceIOC part IPAddress "extracted-from-value"])).
  { unfold Domain.ExtractIOCComponents. cbv zeta.
    destruct (HasPrefix value "http://" || HasPrefix value "https://")%bool eqn:Hurl.
    - rewrite (Hex eq_refl).
      destruct (urlHostname value) as [host|]; [|now left].
      destruct (negb (host =? "")%string && negb (host =? value)%string)%bool; [|now left].
      destruct (ParseIP host) eqn:Hip.
      + right; left. exists host. auto.
      + right; right; left. exists host. auto.
    - destruct (HasPrefix value "http") eqn:Hhttp; cbn [negb]; [now left|].
      pose proof (firstEmbeddedIP_spec value (FieldsFunc value isSeparator)) as Hspec.
      destruct (firstEmbeddedIP value (FieldsFunc value isSeparator)) as [part|]; [|now left].
      destruct Hspec as [pre [post [_ [_ [Hip _]]]]].
      right; right; right. exists part. auto. }
  cbv zeta in Hshape.
  split; [|split; [|split; [exact Hex | exact Hshape]]].
  - destruct Hshape as [-> | [[h [_ [_ ->]]] | [[h [_ [_ ->]]] | [p [_ [_ ->]]]]]]; cbn; auto.
  - destruct Hshape as [-> | [[h [_ [_ ->]]] | [[h [_ [_ ->]]] | [p [_ [_ ->]]]]]]; reflexivity.
Qed.

(** C8 (as amended). For a value that does not start with "http", the value
    is tokenised on ':', '/', '?', and one additional IP IOC (tag
    extracted-from-value first, empty version, source, threat type,
    first_seen and date_ingested of the parent) is emitted if and only if at
    least one token is an IP literal distinct from the whole value; the
    emitted IOC is the first such token, later ones are ignored, so at most
    one is emitted. *)
Theorem embedded_ip_first_match (value : string) (sourceIOC : IOC)
    (Hnp : HasPrefix value "http" = false) :
  let parts := FieldsFunc value isSeparator in
  let out := ExtractIOCComponents value sourceIOC in
  ((forall part, In part parts -> ParseIP part = true -> part = value)
   /\ out = [sourceIOC])
  \/ (exists pre part post,
        parts = (pre ++ part :: post)%list
        /\ (forall q, In q pre -> ParseIP q = true -> q = value)
        /\ ParseIP part = true /\ part <> value
        /\ out = [sourceIOC;
                  {| Value := part; Type_ := IPAddress;
                     Source := sourceIOC.(Source);
                     ThreatType := sourceIOC.(ThreatType);
                     Tags := "extracted-from-value" :: sourceIOC.(Tags);
                     Version := "";
                     FirstSeen := sourceIOC.(FirstSeen);
                     DateIngested := sourceIOC.(DateIngested) |}]).
Proof.
  cbv zeta. unfold Domain.ExtractIOCComponents. cbv zeta.
  destruct (HasPrefix value "http://" || HasPrefix value "https://")%bool eqn:Hurl.
  { rewrite (url_scheme_has_http_prefix value Hurl) in Hnp. discriminate. }
  rewrite Hnp. cbn [negb].
  pose proof (firstEmbeddedIP_spec value (FieldsFunc value isSeparator)) as Hspec.
  destruct (firstEmbeddedIP value (FieldsFunc value isSeparator)) as [part|].
  - right. destruct Hspec as [pre [post [E [Hpre [Hip Hne]]]]].
    exists pre, part, post. repeat split; auto.
  - left. split; [exact Hspec | reflexivity].
Qed.

End ExtractorFacts.

(** *** The extractor on concrete values *)

Section ExtractorScenarios.
Import GoStrings Domain.

Example FieldsFunc_cases :
  FieldsFunc "198.0.2.12:8080" isSeparator = ["198.0.2.12"; "8080"]
  /\ FieldsFunc "//198.0.2.12/path?x" isSeparator = ["198.0.2.12"; "path"; "x"]
  /\ FieldsFunc "198.0.2.12" isSeparator = ["198.0.2.12"]
  /\ FieldsFunc ":/?" isSeparator = [].
Proof. vm_compute. repeat split. Qed.

Example parseIPv4_cases :
  parseIPv4 "198.0.2.12" = true /\ parseIPv4 "8080" = false
  /\ parseIPv4 "256.1.1.1" = false /\ parseIPv4 "1.2.3" = false
  /\ parseIPv4 "01.2.3.4" = false /\ parseIPv4 "1.2.3.4." = false.
Proof. vm_compute. repeat split. Qed.

(** C8, refuted as stated: two distinct tokens of the value are IP literals
    and an IP IOC is emitted all the same, for the first of them. *)
Lemma embedded_ip_two_literals :
  let value := "198.51.100.7:203.0.113.9" in
  let src := mkIOC value "ip" "feed" "c2_server" ["t"] "" 10 20 in
  HasPrefix value "http" = false
  /\ FieldsFunc value isSeparator = ["198.51.100.7"; "203.0.113.9"]
  /\ parseIPv4 "198.51.100.7" = true /\ parseIPv4 "203.0.113.9" = true
  /\ "198.51.100.7" <> "203.0.113.9"
  /\ Domain.ExtractIOCComponents parseIPv4 (fun _ => None) value src
     = [src; mkIOC "198.51.100.7" IPAddress "feed" "c2_server"
               ["extracted-from-value"; "t"] "" 10 20].
Proof.
  cbv zeta. repeat apply conj; try (vm_compute; reflexivity). discriminate.
Qed.

(** An instance of C8 as amended: the "host:port" example of the source
    comment. *)
Lemma embedded_ip_first_match_witness :
  let value := "198.0.2.12:8080" in
  let src := mkIOC value "ip" "feed" "c2_server" [] "" 10 20 in
  HasPrefix value "http" = false
  /\ (((forall part, In part (FieldsFunc value isSeparator) ->
          parseIPv4 part = true -> part = value)
       /\ Domain.ExtractIOCComponents parseIPv4 (fun _ => None) value src = [src])
      \/ (exists pre part post,
            FieldsFunc value isSeparator = (pre ++ part :: post)%list
            /\ (forall q, In q pre -> parseIPv4 q = true -> q = value)
            /\ parseIPv4 part = true /\ part <> value
            /\ Domain.ExtractIOCComponents parseIPv4 (fun _ => None) value src
               = [src;
                  {| Value := part; Type_ := IPAddress;
                     Source := src.(Source);
                     ThreatType := src.(ThreatType);
                     Tags := "extracted-from-value" :: src.(Tags);
                     Version := "";
                     FirstSeen := src.(FirstSeen);
                     DateIngested := src.(DateIngested) |}])).
Proof.
  cbv zeta. split; [reflexivity|].
  apply (embedded_ip_first_match parseIPv4 (fun _ => None) "198.0.2.12:8080").
  reflexivity.
Defined.

End ExtractorScenarios.

(* ================================================================= *)
(** ** Facts about the webhook enrichment *)

Section EnrichmentFacts.
Import Domain Repository Handler.

Variable repo : IOCRepository.

(** A failed exact lookup takes the [continue]: nothing is appended for the
    indicator. *)
Lemma enrichIndicator_exact_lookup_error (indicator : SentinelOneIOC) :
  repo.(FindAllByValue) indicator.(Value) = QueryError ->
  enrichIndicator repo indicator = None.
Proof. unfold enrichIndicator. now intros ->. Qed.

(** A failed substring fallback is only logged: the indicator is appended
    as not in the database. *)
Lemma enrichIndicator_fallback_error (indicator : SentinelOneIOC) :
  repo.(FindAllByValue) indicator.(Value) = Rows [] ->
  repo.(FindContaining) indicator.(Value) = QueryError ->
  exists e, enrichIndicator repo indicator = Some e
            /\ e.(eValue) = indicator.(Value) /\ e.(InDatabase) = false.
Proof.
  unfold enrichIndicator. intros -> ->. cbn. eexists. split; [reflexivity|]. now split.
Qed.

(** With matching rows the enriched first_seen is the one of the first row
    returned. *)
Lemma enrichIndicator_first_row (indicator : SentinelOneIOC) (first : IOC) (rest : list IOC) :
  repo.(FindAllByValue) indicator.(Value) = Rows (first :: rest) ->
  exists e, enrichIndicator repo indicator = Some e
            /\ e.(InDatabase) = true
            /\ e.(Handler.FirstSeen) = first.(Domain.FirstSeen).
Proof.
  unfold enrichIndicator. intros ->. cbn. eexists. split; [reflexivity|]. now split.
Qed.

(** The enriched list never has more entries than the alert has indicators. *)
Lemma enrichIndicators_length (indicators : list SentinelOneIOC) :
  (List.length (enrichIndicators repo indicators) <= List.length indicators)%nat.
Proof.
  induction indicators as [|i l IH]; cbn; [lia|].
  destruct (enrichIndicator repo i); cbn; lia.
Qed.

End EnrichmentFacts.

Section EnrichmentScenarios.
Import GoStrings Domain Repository Handler Scenarios.

(** C5, on the failing input: the catalog holds two rows for 192.0.2.5;
    the repository returns the row ingested last first; the enriched
    first_seen is that row's (200), while the earliest first_seen over the
    matching rows is 100. *)
Theorem enriched_first_seen_is_first_row :
  let indicator := mkSentinelOneIOC "IPV4" "192.0.2.5" in
  PgFindAllByValue catalog "192.0.2.5" = Rows [newerRow; olderRow]
  /\ option_map InDatabase (enrichIndicator (exactOnly catalog) indicator) = Some true
  /\ option_map Handler.FirstSeen (enrichIndicator (exactOnly catalog) indicator) = Some 200
  /\ Z.min newerRow.(Domain.FirstSeen) olderRow.(Domain.FirstSeen) = 100.
Proof. vm_compute. repeat split. Qed.

(** C6, on the failing input: an alert with two indicators; the exact lookup
    of the first fails in transport.  Only the second indicator is in the
    enriched list and indicators_enriched is 1; the first is neither reported
    as "not in database" nor counted. *)
Theorem failed_lookup_drops_indicator :
  let bad := mkSentinelOneIOC "IPV4" "203.0.113.9" in
  let good := mkSentinelOneIOC "IPV4" "192.0.2.5" in
  let repo := failingFor "203.0.113.9" catalog in
  repo.(FindAllByValue) "203.0.113.9" = QueryError
  /\ map eValue (enrichIndicators repo [bad; good]) = ["192.0.2.5"]
  /\ (SentinelOneWebhook asciiToLower asciiTrimSpace repo None false
        (alertOn [bad; good])).(indicators_enriched) = 1
  /\ (SentinelOneWebhook asciiToLower asciiTrimSpace repo None false
        (alertOn [bad; good])).(status) = "received".
Proof. vm_compute. repeat split. Qed.

(** The sibling error path: when the substring fallback fails instead, the
    indicator is reported as not in the database and counted. *)
Example failed_fallback_keeps_indicator :
  let unknown := mkSentinelOneIOC "IPV4" "203.0.113.9" in
  map (fun e => (e.(eValue), e.(InDatabase))) (enrichIndicators fallbackFailing [unknown])
  = [("203.0.113.9", false)]
  /\ (SentinelOneWebhook asciiToLower asciiTrimSpace fallbackFailing None false
        (alertOn [unknown])).(indicators_enriched) = 1.
Proof. vm_compute. repeat split. Qed.

(** Scenario S3: a known-good domain short-circuits the triage and the
    response carries false_positive. *)
Example scenario_S3 :
  let response :=
    SentinelOneWebhook asciiToLower asciiTrimSpace (exactOnly catalog)
      (Some Scenarios.unreachable) true
      (alertOn [mkSentinelOneIOC "DOMAIN" "update.microsoft.com"]) in
  response.(false_positive) = Some true /\ response.(llm_triaged) = true
  /\ response.(slack_notification) = false /\ response.(indicators_in_db) = 0.
Proof. vm_compute. repeat split. Qed.

End EnrichmentScenarios.

(* ================================================================= *)
(** ** Facts about the catalog window *)

Section WindowFacts.
Import Domain Repository.

Local Abbreviation newerOrEqual := (fun a b : IOC => b.(DateIngested) <= a.(DateIngested)).

Lemma insertDesc_perm (x : IOC) (l : list IOC) : Permutation (insertDesc x l) (x :: l).
Proof.
  induction l as [|y l IH]; cbn; [reflexivity|].
  destruct (y.(DateIngested) <=? x.(DateIngested)); [reflexivity|].
  rewrite IH. apply perm_swap.
Qed.

Lemma orderByDateIngestedDesc_perm (l : list IOC) :
  Permutation (orderByDateIngestedDesc l) l.
Proof.
  induction l as [|x l IH]; cbn; [reflexivity|].
  rewrite insertDesc_perm. now constructor.
Qed.

Lemma insertDesc_sorted (x : IOC) (l : list IOC) :
  newestFirst l -> newestFirst (insertDesc x l).
Proof.
  unfold newestFirst. induction 1 as [|y l Hs IH Hy]; cbn.
  - repeat constructor.
  - destruct (Z.leb_spec y.(DateIngested) x.(DateIngested)) as [Hle|Hgt].
    + constructor; [now constructor|].
      constructor; [assumption|].
      eapply Forall_impl; [|exact Hy]. cbn. intros; lia.
    + constructor; [assumption|].
      eapply Permutation_Forall; [symmetry; apply insertDesc_perm|].
      constructor; [lia|assumption].
Qed.

Lemma orderByDateIngestedDesc_sorted (l : list IOC) :
  newestFirst (orderByDateIngestedDesc l).
Proof.
  induction l as [|x l IH]; cbn; [constructor|now apply insertDesc_sorted].
Qed.

Lemma firstn_incl (n : nat) (l : list IOC) (x : IOC) : In x (firstn n l) -> In x l.
Proof.
  revert l. induction n as [|n IH]; intros [|y l]; cbn; try tauto.
  intros [->|H]; auto.
Qed.

Lemma firstn_sorted (n : nat) (l : list IOC) : newestFirst l -> newestFirst (firstn n l).
Proof.
  unfold newestFirst. revert l. induction n as [|n IH]; intros l H; [constructor|].
  destruct H as [|y l Hs Hy]; cbn; [constructor|].
  constructor; [now apply IH|].
  apply Forall_forall. intros z Hz. apply firstn_incl in Hz.
  now apply (proj1 (Forall_forall _ _) Hy).
Qed.

(** In a list that is newest first, no row after a position is newer than a
    row before it. *)
Lemma newestFirst_cut (n : nat) (l : list IOC) :
  newestFirst l ->
  forall a b, In a (firstn n l) -> In b (skipn n l) ->
  b.(DateIngested) <= a.(DateIngested).
Proof.
  unfold newestFirst. revert l. induction n as [|n IH]; intros l Hs a b Ha Hb;
    [destruct Ha|].
  destruct Hs as [|y l Hs Hy]; [destruct Ha|]. cbn in Ha, Hb.
  destruct Ha as [<-|Ha]; [|now apply (IH l)].
  apply (proj1 (Forall_forall _ _) Hy).
  rewrite <- (firstn_skipn n l). apply in_or_app. now right.
Qed.

(** C7 (as amended). For a reachable catalog, every time t and every limit
    >= 0, FindSince returns the first [limit] rows of the rows with
    date_ingested >= t taken newest first: at most [limit] rows, each a
    catalog row with date_ingested >= t, in non-increasing date_ingested
    order, and all matching rows when there are at most [limit] of them.
    The limit is used as passed, without a default: with limit 0 the result
    is empty.  The number of rows returned is the smaller of [limit] and the
    number of matching rows, and the matching rows are the returned ones
    together with rows left out of which none is newer than a returned
    one. *)
Theorem FindSince_window (r : PostgresRepository) (since : Time) (limit : Z)
    (Hup : r.(reachable) = true) (Hlim : 0 <= limit) :
  let matching := filter (fun ioc => since <=? ioc.(DateIngested)) r.(iocs) in
  exists rows,
    FindSince r since limit = Rows rows
    /\ (List.length rows <= Z.to_nat limit)%nat
    /\ (forall ioc, In ioc rows -> In ioc r.(iocs) /\ since <= ioc.(DateIngested))
    /\ newestFirst rows
    /\ ((List.length matching <= Z.to_nat limit)%nat -> Permutation rows matching)
    /\ (limit = 0 -> rows = [])
    /\ List.length rows = Nat.min (Z.to_nat limit) (List.length matching)
    /\ (exists omitted,
          Permutation (rows ++ omitted) matching
          /\ forall kept left, In kept rows -> In left omitted ->
               left.(DateIngested) <= kept.(DateIngested)).
Proof.
  cbv zeta. unfold FindSince. rewrite Hup. cbn [negb].
  destruct (Z.ltb_spec limit 0) as [?|_]; [lia|].
  set (matching := filter _ _).
  exists (firstn (Z.to_nat limit) (orderByDateIngestedDesc matching)).
  split; [reflexivity|]. split; [apply firstn_le_length|].
  split; [|split; [|split; [|split; [|split]]]].
  6:{ exists (skipn (Z.to_nat limit) (orderByDateIngestedDesc matching)). split.
      - rewrite firstn_skipn. apply orderByDateIngestedDesc_perm.
      - apply newestFirst_cut, orderByDateIngestedDesc_sorted. }
  5:{ rewrite length_firstn.
      now rewrite (Permutation_length (orderByDateIngestedDesc_perm matching)). }
  - intros ioc Hin. apply firstn_incl in Hin.
    apply (Permutation_in _ (orderByDateIngestedDesc_perm matching)) in Hin.
    subst matching. apply filter_In in Hin. destruct Hin as [Hin Hge].
    split; [assumption|]. now apply Z.leb_le.
  - apply firstn_sorted, orderByDateIngestedDesc_sorted.
  - intros Hlen. rewrite firstn_all2.
    + apply orderByDateIngestedDesc_perm.
    + now rewrite (Permutation_length (orderByDateIngestedDesc_perm matching)).
  - intros ->. reflexivity.
Qed.

End WindowFacts.

Section WindowScenarios.
Import Domain Repository Scenarios.

(** C7, refuted as stated: both rows of the catalog have date_ingested >= 0,
    and FindSince with limit 0 returns no row. *)
Lemma FindSince_limit_zero_is_empty :
  filter (fun ioc => 0 <=? ioc.(DateIngested)) catalog.(iocs) = [olderRow; newerRow]
  /\ FindSince catalog 0 0 = Rows [].
Proof. vm_compute. repeat split. Qed.

(** An instance of C7 as amended: the call of the exporters, limit 10000. *)
Lemma FindSince_window_witness :
  let matching := filter (fun ioc => 15 <=? ioc.(DateIngested)) catalog.(iocs) in
  catalog.(reachable) = true /\ 0 <= 10000
  /\ exists rows,
       FindSince catalog 15 10000 = Rows rows
       /\ (List.length rows <= Z.to_nat 10000)%nat
       /\ (forall ioc, In ioc rows -> In ioc catalog.(iocs) /\ 15 <= ioc.(DateIngested))
       /\ newestFirst rows
       /\ ((List.length matching <= Z.to_nat 10000)%nat -> Permutation rows matching)
       /\ (10000 = 0 -> rows = [])
       /\ List.length rows = Nat.min (Z.to_nat 10000) (List.length matching)
       /\ (exists omitted,
             Permutation (rows ++ omitted) matching
             /\ forall kept left, In kept rows -> In left omitted ->
                  left.(DateIngested) <= kept.(DateIngested)).
Proof.
  cbv zeta. split; [reflexivity|]. split; [lia|].
  apply (FindSince_window catalog 15 10000); [reflexivity | lia].
Defined.

Example FindSince_newest_first :
  FindSince catalog 0 10000 = Rows [newerRow; olderRow]
  /\ FindSince catalog 0 1 = Rows [newerRow]
  /\ FindSince catalog 15 10000 = Rows [newerRow]
  /\ FindSince catalog 0 (-1) = QueryError.
Proof. vm_compute. repeat split. Qed.

End WindowScenarios.

(* ================================================================= *)
(** ** Facts about the package@version split *)

Section PackageVersionFacts.
Import GoStrings Handler.

Lemma LastIndex_bounds (s : string) (sep : ascii) :
  -1 <= LastIndex s sep < Z.of_nat (String.length s).
Proof.
  induction s as [|c s IH]; cbn [LastIndex String.length]; [lia|].
  destruct (Z.leb_spec 0 (LastIndex s sep)); [lia|].
  destruct (Ascii.eqb c sep); lia.
Qed.

Lemma LastIndex_absent (s : string) (sep : ascii) :
  LastIndex s sep = -1 <-> hasByte sep s = false.
Proof.
  induction s as [|c s IH]; cbn [LastIndex hasByte]; [tauto|].
  pose proof (LastIndex_bounds s sep) as Hb.
  destruct (Z.leb_spec 0 (LastIndex s sep)) as [Hge|Hlt].
  - split; [lia|]. intros H. apply orb_false_elim in H. destruct H as [_ H].
    apply IH in H. lia.
  - assert (Hs : hasByte sep s = false) by (apply IH; lia).
    rewrite Hs, orb_false_r. destruct (Ascii.eqb c sep); split; intros; (lia || congruence).
Qed.

(** Cutting at the last occurrence: the separator sits between the two
    halves and does not occur in the second. *)
Lemma LastIndex_split (s : string) (sep : ascii) :
  0 <= LastIndex s sep ->
  s = (sliceTo s (Z.to_nat (LastIndex s sep)) ++ String sep
         (sliceFrom s (Z.to_nat (LastIndex s sep + 1))))%string
  /\ hasByte sep (sliceFrom s (Z.to_nat (LastIndex s sep + 1))) = false.
Proof.
  induction s as [|c s IH]; cbn [LastIndex]; [lia|].
  pose proof (LastIndex_bounds s sep) as Hb.
  destruct (Z.leb_spec 0 (LastIndex s sep)) as [Hge|Hlt].
  - intros _. destruct (IH Hge) as [E Hno].
    replace (Z.to_nat (LastIndex s sep + 1)) with (S (Z.to_nat (LastIndex s sep))) by lia.
    replace (Z.to_nat (LastIndex s sep + 1 + 1))
      with (S (Z.to_nat (LastIndex s sep + 1))) by lia.
    cbn [sliceTo sliceFrom String.append]. split; [now rewrite <- E | exact Hno].
  - destruct (Ascii.eqb_spec c sep) as [->|Hne]; [|lia].
    intros _. change (Z.to_nat 0) with O. change (Z.to_nat (0 + 1)) with 1%nat.
    cbn [sliceTo sliceFrom String.append].
    split; [reflexivity|]. apply LastIndex_absent. lia.
Qed.

(** X1. parsePackageVersion loses nothing and cuts at the last '@': either
    it returns the whole value with an empty version, or the value is the
    package name, an '@' and the version; the version never contains '@'. *)
Theorem parsePackageVersion_rejoin (value : string) :
  let (pkgName, version) := parsePackageVersion value in
  ((pkgName = value /\ version = "")
   \/ value = (pkgName ++ "@" ++ version)%string)
  /\ hasByte "@" version = false.
Proof.
  unfold parsePackageVersion.
  pose proof (LastIndex_bounds value "@") as Hb.
  destruct (Z.eqb_spec (LastIndex value "@") (-1)) as [E|Hne].
  - split; [now left | reflexivity].
  - destruct (HasPrefix value "@" && (LastIndex value "@" =? 0))%bool.
    + split; [now left | reflexivity].
    + destruct (LastIndex_split value "@") as [E Hno]; [lia|].
      split; [right; exact E | exact Hno].
Qed.

(** X2. A value without '@', and a scoped package name whose only '@' is
    the leading one, come back whole with an empty version: the search then
    covers all versions. *)
Theorem parsePackageVersion_unversioned (value : string)
    (Hat : hasByte "@" (sliceFrom value 1) = false) :
  parsePackageVersion value = (value, "").
Proof.
  unfold parsePackageVersion. destruct value as [|c rest]; [reflexivity|].
  cbn [sliceFrom] in Hat. cbn [LastIndex].
  apply LastIndex_absent in Hat. rewrite Hat. cbn.
  destruct (Ascii.eqb_spec c "@") as [->|Hne]; reflexivity.
Qed.

Example parsePackageVersion_cases :
  parsePackageVersion "lodash@4.17.0" = ("lodash", "4.17.0")
  /\ parsePackageVersion "@org/package@1.0.0" = ("@org/package", "1.0.0")
  /\ parsePackageVersion "@org/package" = ("@org/package", "")
  /\ parsePackageVersion "lodash" = ("lodash", "")
  /\ parsePackageVersion "lodash@" = ("lodash", "")
  /\ parsePackageVersion "a@b@c" = ("a@b", "c").
Proof. vm_compute. repeat split. Qed.

Lemma parsePackageVersion_unversioned_witness :
  hasByte "@" (sliceFrom "@org/package" 1) = false
  /\ parsePackageVersion "@org/package" = ("@org/package", "").
Proof.
  split; [reflexivity|].
  apply (parsePackageVersion_unversioned "@org/package"). reflexivity.
Defined.

End PackageVersionFacts.

(* ================================================================= *)
(** ** Facts about the catalog writes and the query endpoints *)

Section CatalogFacts.
Import Domain Repository Handler.

Variable accepts : IOC -> bool.

Lemma sameKey_refl (a : IOC) : sameKey a a = true.
Proof. unfold sameKey. now rewrite !String.eqb_refl. Qed.

Lemma sameKey_sym (a b : IOC) : sameKey a b = sameKey b a.
Proof. unfold sameKey. now rewrite (String.eqb_sym (Domain.Value a)), (String.eqb_sym (Source a)),
  (String.eqb_sym (Version a)). Qed.

Lemma sameKey_trans (a b c : IOC) :
  sameKey a b = true -> sameKey b c = true -> sameKey a c = true.
Proof.
  unfold sameKey. intros H1 H2.
  repeat (apply andb_true_iff in H1; destruct H1 as [H1 ?]).
  repeat (apply andb_true_iff in H2; destruct H2 as [H2 ?]).
  repeat match goal with H : (_ =? _)%string = true |- _ => apply String.eqb_eq in H end.
  repeat (apply andb_true_iff; split); apply String.eqb_eq; congruence.
Qed.

Lemma uniqueKeys_app_one (table : list IOC) (x : IOC) :
  uniqueKeys table -> existsb (sameKey x) table = false -> uniqueKeys (table ++ [x]).
Proof.
  induction table as [|a table IH]; cbn; [auto|].
  intros [Ha Hu] Hx. apply orb_false_elim in Hx. destruct Hx as [Hxa Hx].
  split; [|now apply IH].
  rewrite existsb_app, Ha. cbn. now rewrite sameKey_sym, Hxa.
Qed.

Lemma insertIgnore_uniqueKeys (table : list IOC) (ioc : IOC) :
  uniqueKeys table -> uniqueKeys (insertIgnore table ioc).
Proof.
  intros Hu. unfold insertIgnore.
  destruct (existsb (sameKey ioc) table) eqn:E; [assumption|].
  now apply uniqueKeys_app_one.
Qed.

Lemma fold_insertIgnore_uniqueKeys (batch table : list IOC) :
  uniqueKeys table -> uniqueKeys (fold_left insertIgnore batch table).
Proof.
  revert table. induction batch as [|x batch IH]; cbn; [auto|].
  intros table Hu. now apply IH, insertIgnore_uniqueKeys.
Qed.

(** The table only grows at its end, by rows of the batch. *)
Lemma fold_insertIgnore_extends (batch table : list IOC) :
  exists added,
    fold_left insertIgnore batch table = (table ++ added)%list
    /\ (forall row, In row added -> In row batch).
Proof.
  revert table. induction batch as [|x batch IH]; intros table; cbn.
  - exists []. now rewrite app_nil_r.
  - destruct (IH (insertIgnore table x)) as [added [E Hin]]. unfold insertIgnore in *.
    destruct (existsb (sameKey x) table).
    + exists added. split; [assumption | auto].
    + exists (x :: added). rewrite E, <- app_assoc. split; [reflexivity|].
      intros row [<-|H]; auto.
Qed.

Lemma fold_insertIgnore_keeps_key (batch table : list IOC) (x : IOC) :
  existsb (sameKey x) table = true ->
  existsb (sameKey x) (fold_left insertIgnore batch table) = true.
Proof.
  intros H. destruct (fold_insertIgnore_extends batch table) as [added [-> _]].
  now rewrite existsb_app, H.
Qed.

Lemma fold_insertIgnore_covers (batch table : list IOC) (x : IOC) :
  In x batch -> existsb (sameKey x) (fold_left insertIgnore batch table) = true.
Proof.
  revert table. induction batch as [|y batch IH]; intros table; cbn; [tauto|].
  intros [->|Hin]; [|now apply IH].
  apply fold_insertIgnore_keeps_key. unfold insertIgnore.
  destruct (existsb (sameKey x) table) eqn:E; [assumption|].
  now rewrite existsb_app, E; cbn; rewrite sameKey_refl.
Qed.

Lemma fold_insertIgnore_noop (batch table : list IOC) :
  (forall x, In x batch -> existsb (sameKey x) table = true) ->
  fold_left insertIgnore batch table = table.
Proof.
  revert table. induction batch as [|y batch IH]; intros table H; cbn; [reflexivity|].
  unfold insertIgnore at 2. rewrite (H y (or_introl eq_refl)).
  apply IH. intros x Hx. apply H. now right.
Qed.

Lemma SaveBatch_Saved (r r' : PostgresRepository) (batch : list IOC) :
  SaveBatch accepts r batch = Saved r' ->
  r.(reachable) = true /\ batch <> []
  /\ ((forallb accepts batch = true
       /\ r' = {| iocs := fold_left insertIgnore batch r.(iocs); reachable := true |})
      \/ (forallb accepts batch = false /\ r' = r)).
Proof.
  unfold SaveBatch. destruct (reachable r); cbn [negb]; [|discriminate].
  destruct batch as [|x batch]; [discriminate|].
  destruct (accepts x); cbn [negb]; [|discriminate].
  destruct (forallb accepts (x :: batch));
    intros H; injection H as <-; (split; [reflexivity|]); (split; [discriminate|]); auto.
Qed.

(** X3. SaveBatch keeps the uniqueness of (value, source, version): if no
    two rows of the table share a key before a batch is saved, none do
    afterwards, whatever duplicates the batch contains. *)
Theorem SaveBatch_keeps_unique_keys (r r' : PostgresRepository) (batch : list IOC)
    (Hsaved : SaveBatch accepts r batch = Saved r')
    (Huniq : uniqueKeys r.(iocs)) :
  uniqueKeys r'.(iocs).
Proof.
  apply SaveBatch_Saved in Hsaved. destruct Hsaved as [_ [_ [[_ ->] | [_ ->]]]].
  - cbn. now apply fold_insertIgnore_uniqueKeys.
  - assumption.
Qed.

(** X4. Saving is idempotent: saving the same batch again succeeds and
    leaves the catalog exactly as the first save left it. *)
Theorem SaveBatch_idempotent (r r' : PostgresRepository) (batch : list IOC)
    (Hsaved : SaveBatch accepts r batch = Saved r') :
  SaveBatch accepts r' batch = Saved r'.
Proof.
  destruct (SaveBatch_Saved r r' batch Hsaved) as [_ [Hne [[Hacc ->] | [_ ->]]]];
    [|assumption].
  unfold SaveBatch. cbn [reachable iocs negb]. rewrite Hacc.
  destruct batch as [|x batch]; [congruence|].
  cbn [forallb] in Hacc. apply andb_true_iff in Hacc. destruct Hacc as [-> _].
  cbn [negb]. rewrite fold_insertIgnore_noop; [reflexivity|].
  intros y Hy. now apply fold_insertIgnore_covers.
Qed.

(** X5. A save that returns nil never updates or removes a row: the old
    table is a prefix of the new one and every added row is a record of the
    batch.  The batch is stored all or nothing.  When every record passes the
    column types, every record of the batch is then found by the exact
    lookup of its value, as a row with its (value, source, version).  When
    some record does not, the table is left as it was, although nil was
    returned: the refusal of a record after the first is not reported. *)
Theorem SaveBatch_first_writer_wins (r r' : PostgresRepository) (batch : list IOC)
    (Hsaved : SaveBatch accepts r batch = Saved r') :
  (exists added,
      r'.(iocs) = (r.(iocs) ++ added)%list /\ forall row, In row added -> In row batch)
  /\ (forallb accepts batch = true ->
      forall ioc, In ioc batch ->
      exists rows row,
        PgFindAllByValue r' ioc.(Domain.Value) = Rows rows
        /\ In row rows /\ sameKey ioc row = true)
  /\ (forallb accepts batch = false ->
      r' = r /\ exists first rest, batch = first :: rest /\ accepts first = true).
Proof.
  destruct (SaveBatch_Saved r r' batch Hsaved) as [_ [Hne [[Hacc ->] | [Hacc ->]]]].
  2:{ split; [exists []; split; [now rewrite app_nil_r | intros ? []]|].
      split; [congruence|]. intros _. split; [reflexivity|].
      unfold SaveBatch in Hsaved. destruct (negb (reachable r)); [discriminate|].
      destruct batch as [|first rest]; [discriminate|].
      exists first, rest. split; [reflexivity|].
      destruct (accepts first); [reflexivity | discriminate]. }
  cbn [iocs].
  split; [apply fold_insertIgnore_extends|].
  split; [|congruence]. intros _.
  intros ioc Hin. unfold PgFindAllByValue. cbn [reachable iocs negb].
  pose proof (fold_insertIgnore_covers batch r.(iocs) ioc Hin) as Hc.
  apply existsb_exists in Hc. destruct Hc as [row [Hrow Hkey]].
  eexists. exists row. split; [reflexivity|]. split; [|assumption].
  apply (Permutation_in _ (Permutation_sym (orderByDateIngestedDesc_perm _))).
  apply filter_In. split; [assumption|].
  unfold sameKey in Hkey. apply andb_true_iff in Hkey. destruct Hkey as [Hkey _].
  apply andb_true_iff in Hkey. destruct Hkey as [Hv _].
  now rewrite String.eqb_sym.
Qed.

(** X6. The REST check answers 200 for every non-empty value, and says
    "exists" exactly when the catalog is reachable and holds a row with that
    value: a storage failure is answered like an absent value, never with an
    error status. *)
Theorem CheckIOC_exists (pg : PostgresRepository) (value : string)
    (Hvalue : value <> "") :
  exists found ioc,
    CheckIOC (postgresQueries pg) value = CheckOK found value ioc
    /\ (found = true <->
        pg.(reachable) = true /\ exists row, In row pg.(iocs) /\ row.(Domain.Value) = value).
Proof.
  unfold CheckIOC. apply String.eqb_neq in Hvalue. rewrite Hvalue.
  cbn [postgresQueries FindByValue]. unfold PgFindByValue.
  destruct (reachable pg); cbn [negb].
  - destruct (filter _ (iocs pg)) as [|row rows] eqn:E.
    + exists false, None. split; [reflexivity|]. split; [discriminate|].
      intros [_ [row [Hin Hv]]].
      assert (H : In row (filter (fun ioc => (Domain.Value ioc =? value)%string) (iocs pg)))
        by (apply filter_In; split; [assumption | now apply String.eqb_eq]).
      rewrite E in H. contradiction.
    + assert (H : In row (filter (fun ioc => (Domain.Value ioc =? value)%string) (iocs pg)))
        by (rewrite E; now left).
      apply filter_In in H. destruct H as [Hin Hv]. apply String.eqb_eq in Hv.
      exists true, (Some row). rewrite Hv. split; [reflexivity|].
      split; [|reflexivity]. intros _. split; [reflexivity|]. now exists row.
  - exists false, None. split; [reflexivity|]. split; [discriminate|].
    intros [H _]. discriminate.
Qed.

(** X7. The gRPC check separates the two cases the REST check merges: it
    fails exactly when the value is empty or the catalog cannot be reached,
    and otherwise reports "exists" (with score 80 and the block flag) exactly
    when a row has the value. *)
Theorem GrpcCheckIOC_outcomes (pg : PostgresRepository) (value : string) :
  (GrpcCheckIOC (postgresQueries pg) value = GrpcCheckError <->
   value = "" \/ pg.(reachable) = false)
  /\ (forall found threatType score block,
        GrpcCheckIOC (postgresQueries pg) value = GrpcCheck found threatType score block ->
        (found = true <-> exists row, In row pg.(iocs) /\ row.(Domain.Value) = value)
        /\ (found = true -> score = 80 /\ block = true)
        /\ (found = false -> block = false)).
Proof.
  unfold GrpcCheckIOC. destruct (String.eqb_spec value "") as [->|Hne].
  { split; [split; auto | discriminate]. }
  cbn [postgresQueries FindByValue]. unfold PgFindByValue.
  destruct (reachable pg); cbn [negb].
  - destruct (filter _ (iocs pg)) as [|row rows] eqn:E.
    + split; [split; [discriminate | intros [?|?]; congruence]|].
      intros found tt score block H. injection H as <- <- <- <-.
      split; [|split; [discriminate | reflexivity]].
      split; [discriminate|]. intros [row [Hin Hv]].
      assert (H : In row (filter (fun ioc => (Domain.Value ioc =? value)%string) (iocs pg)))
        by (apply filter_In; split; [assumption | now apply String.eqb_eq]).
      rewrite E in H. contradiction.
    + assert (H : In row (filter (fun ioc => (Domain.Value ioc =? value)%string) (iocs pg)))
        by (rewrite E; now left).
      apply filter_In in H. destruct H as [Hin Hv]. apply String.eqb_eq in Hv.
      split; [split; [discriminate | intros [?|?]; congruence]|].
      intros found tt score block H'. injection H' as <- <- <- <-.
      split; [|split; [auto | discriminate]].
      split; [|reflexivity]. intros _. now exists row.
  - split; [split; auto | discriminate].
Qed.

End CatalogFacts.

Section CatalogScenarios.
Import Domain Repository Handler Scenarios.

Example SaveBatch_cases :
  SaveBatch acceptAll catalog [clashingRow; freshRow; freshRow]
  = Saved {| iocs := [olderRow; newerRow; freshRow]; reachable := true |}
  /\ SaveBatch acceptAll {| iocs := []; reachable := false |} [freshRow] = SaveUnreachable
  /\ SaveBatch columnWidths catalog [oversizedRow; freshRow] = SaveRefused
  /\ SaveBatch columnWidths catalog [freshRow; oversizedRow] = Saved catalog.
Proof. vm_compute. repeat split. Qed.

Lemma SaveBatch_keeps_unique_keys_witness :
  let r' := {| iocs := [olderRow; newerRow; freshRow]; reachable := true |} in
  SaveBatch acceptAll catalog [clashingRow; freshRow; freshRow] = Saved r'
  /\ uniqueKeys catalog.(iocs)
  /\ uniqueKeys r'.(iocs).
Proof.
  cbv zeta. split; [reflexivity|]. split; [cbn; auto|].
  apply (SaveBatch_keeps_unique_keys acceptAll catalog _ [clashingRow; freshRow; freshRow]).
  - reflexivity.
  - cbn. auto.
Defined.

Lemma SaveBatch_idempotent_witness :
  let r' := {| iocs := [olderRow; newerRow; freshRow]; reachable := true |} in
  SaveBatch acceptAll catalog [clashingRow; freshRow; freshRow] = Saved r'
  /\ SaveBatch acceptAll r' [clashingRow; freshRow; freshRow] = Saved r'.
Proof.
  cbv zeta. split; [reflexivity|].
  apply (SaveBatch_idempotent acceptAll catalog). reflexivity.
Defined.

Lemma SaveBatch_first_writer_wins_witness :
  let r' := {| iocs := [olderRow; newerRow; freshRow]; reachable := true |} in
  let batch := [clashingRow; freshRow; freshRow] in
  SaveBatch columnWidths catalog batch = Saved r'
  /\ (exists added,
         r'.(iocs) = (catalog.(iocs) ++ added)%list
         /\ forall row, In row added -> In row batch)
  /\ (forallb columnWidths batch = true ->
      forall ioc, In ioc batch ->
      exists rows row,
        PgFindAllByValue r' ioc.(Domain.Value) = Rows rows
        /\ In row rows /\ sameKey ioc row = true)
  /\ (forallb columnWidths batch = false ->
      r' = catalog /\ exists first rest, batch = first :: rest /\ columnWidths first = true).
Proof.
  cbv zeta. split; [reflexivity|].
  apply (SaveBatch_first_writer_wins columnWidths catalog). reflexivity.
Defined.

Lemma CheckIOC_exists_witness :
  "192.0.2.5" <> ""
  /\ exists found ioc,
       CheckIOC (postgresQueries catalog) "192.0.2.5" = CheckOK found "192.0.2.5" ioc
       /\ (found = true <->
           catalog.(reachable) = true
           /\ exists row, In row catalog.(iocs) /\ row.(Domain.Value) = "192.0.2.5").
Proof.
  split; [discriminate|].
  apply (CheckIOC_exists catalog "192.0.2.5"). discriminate.
Defined.

Example CheckIOC_cases :
  CheckIOC (postgresQueries catalog) "" = CheckError 400 "missing 'value' parameter"
  /\ CheckIOC (postgresQueries catalog) "192.0.2.5" = CheckOK true "192.0.2.5" (Some olderRow)
  /\ CheckIOC (postgresQueries catalog) "203.0.113.9" = CheckOK false "203.0.113.9" None
  /\ CheckIOC (postgresQueries {| iocs := [olderRow]; reachable := false |}) "192.0.2.5"
     = CheckOK false "192.0.2.5" None
  /\ GrpcCheckIOC (postgresQueries {| iocs := [olderRow]; reachable := false |}) "192.0.2.5"
     = GrpcCheckError.
Proof. vm_compute. repeat split. Qed.

End CatalogScenarios.

(* ================================================================= *)
(** ** Facts about the search endpoint and the sighting aggregation *)

Section SearchFacts.
Import Domain Repository Handler.


(** The running minimum of a [fold_left]. *)
Lemma fold_min_spec (f : IOC -> Z) (l : list IOC) (init : Z) :
  let m := fold_left (fun acc x => if f x <? acc then f x else acc) l init in
  m <= init /\ (forall x, In x l -> m <= f x)
  /\ (m = init \/ exists x, In x l /\ m = f x).
Proof.
  cbv zeta. revert init. induction l as [|y l IH]; intros init; cbn [fold_left].
  - split; [lia|]. split; [intros x []|now left].
  - destruct (IH (if f y <? init then f y else init)) as [H1 [H2 H3]].
    destruct (Z.ltb_spec (f y) init) as [Hlt|Hge].
    + split; [lia|]. split.
      * intros x [<-|Hx]; [assumption | now apply H2].
      * right. destruct H3 as [->|[x [Hx ->]]]; [exists y | exists x]; cbn; auto.
    + split; [lia|]. split.
      * intros x [<-|Hx]; [lia | now apply H2].
      * destruct H3 as [->|[x [Hx ->]]]; [now left | right; exists x; cbn; auto].
Qed.

Lemma fold_max_spec (f : IOC -> Z) (l : list IOC) (init : Z) :
  let m := fold_left (fun acc x => if acc <? f x then f x else acc) l init in
  init <= m /\ (forall x, In x l -> f x <= m)
  /\ (m = init \/ exists x, In x l /\ m = f x).
Proof.
  cbv zeta. revert init. induction l as [|y l IH]; intros init; cbn [fold_left].
  - split; [lia|]. split; [intros x []|now left].
  - destruct (IH (if init <? f y then f y else init)) as [H1 [H2 H3]].
    destruct (Z.ltb_spec init (f y)) as [Hlt|Hge].
    + split; [lia|]. split.
      * intros x [<-|Hx]; [assumption | now apply H2].
      * right. destruct H3 as [->|[x [Hx ->]]]; [exists y | exists x]; cbn; auto.
    + split; [lia|]. split.
      * intros x [<-|Hx]; [lia | now apply H2].
      * destruct H3 as [->|[x [Hx ->]]]; [now left | right; exists x; cbn; auto].
Qed.

(** X9. For a non-empty list of sightings findEarliestTimestamp is the
    least first_seen of the list: it is the first_seen of some sighting and
    no sighting was first seen before it; so it does not depend on the order
    of the rows. *)
Theorem findEarliestTimestamp_least (now : Time) (iocs : list IOC)
    (Hrows : iocs <> []) :
  (exists ioc, In ioc iocs /\ findEarliestTimestamp now iocs = ioc.(Domain.FirstSeen))
  /\ (forall ioc, In ioc iocs -> findEarliestTimestamp now iocs <= ioc.(Domain.FirstSeen))
  /\ (forall iocs', Permutation iocs iocs' ->
        findEarliestTimestamp now iocs' = findEarliestTimestamp now iocs).
Proof.
  assert (Hmin : forall l, l <> [] ->
            (exists ioc, In ioc l /\ findEarliestTimestamp now l = ioc.(Domain.FirstSeen))
            /\ (forall ioc, In ioc l -> findEarliestTimestamp now l <= ioc.(Domain.FirstSeen))).
  { intros [|first rest] Hne; [congruence|]. unfold findEarliestTimestamp.
    destruct (fold_min_spec Domain.FirstSeen rest first.(Domain.FirstSeen)) as [H1 [H2 H3]].
    cbv zeta in *. split.
    - destruct H3 as [->|[x [Hx ->]]]; [exists first | exists x]; cbn; auto.
    - intros ioc [<-|Hin]; [assumption | now apply H2]. }
  destruct (Hmin iocs Hrows) as [Hex Hle].
  split; [assumption|]. split; [assumption|].
  intros iocs' Hperm.
  assert (Hne' : iocs' <> []).
  { intros ->. apply Permutation_sym, Permutation_nil in Hperm. contradiction. }
  destruct (Hmin iocs' Hne') as [[a [Ha Ea]] Hle'].
  destruct Hex as [b [Hb Eb]].
  pose proof (Hle a (Permutation_in _ (Permutation_sym Hperm) Ha)).
  pose proof (Hle' b (Permutation_in _ Hperm Hb)).
  lia.
Qed.

(** X10. For a non-empty list of sightings findLatestTimestamp is the
    greatest date_ingested of the list: the date_ingested of some sighting,
    and no sighting was ingested after it. *)
Theorem findLatestTimestamp_greatest (now : Time) (iocs : list IOC)
    (Hrows : iocs <> []) :
  (exists ioc, In ioc iocs /\ findLatestTimestamp now iocs = ioc.(DateIngested))
  /\ (forall ioc, In ioc iocs -> ioc.(DateIngested) <= findLatestTimestamp now iocs).
Proof.
  destruct iocs as [|first rest]; [congruence|]. unfold findLatestTimestamp.
  destruct (fold_max_spec DateIngested rest first.(DateIngested)) as [H1 [H2 H3]].
  cbv zeta in *. split.
  - destruct H3 as [->|[x [Hx ->]]]; [exists first | exists x]; cbn; auto.
  - intros ioc [<-|Hin]; [assumption | now apply H2].
Qed.

(** X11. The overall score never decreases when sightings are added, is 0
    exactly for no sighting, and is otherwise 80, 85 or 90. *)
Theorem CalculateConfidenceScore_monotone (iocs more : list IOC) :
  CalculateConfidenceScore iocs <= CalculateConfidenceScore (iocs ++ more)
  /\ (CalculateConfidenceScore iocs = 0 <-> iocs = [])
  /\ (iocs <> [] ->
      CalculateConfidenceScore iocs = 80 \/ CalculateConfidenceScore iocs = 85
      \/ CalculateConfidenceScore iocs = 90).
Proof.
  unfold CalculateConfidenceScore. rewrite length_app.
  destruct iocs as [|a [|b [|c iocs]]]; cbn [List.length Nat.eqb Nat.leb Nat.add].
  - split; [|split; [tauto|congruence]].
    destruct more as [|x [|y [|z more]]]; cbn; lia.
  - split; [|split; [split; [lia|discriminate]|auto]].
    destruct more as [|x [|y more]]; cbn; lia.
  - split; [|split; [split; [lia|discriminate]|auto]].
    destruct more as [|x more]; cbn; lia.
  - split; [cbn; lia|]. split; [split; [lia|discriminate]|auto].
Qed.

End SearchFacts.

Section SearchScenarios.
Import Domain Repository Handler Scenarios.

(** Scenario S5: the catalog holds (lodash, "") and (lodash, "4.17.0"); the
    search of "lodash@4.17.0" counts both. *)
Example scenario_S5 :
  let wildcard := mkIOC "lodash" Package "google-osv-npm" "supply_chain_malware" [] "" 1 2 in
  let other := mkIOC "lodash" Package "google-osv-npm" "supply_chain_malware" [] "3.0.0" 1 3 in
  let pg := {| iocs := [wildcard; freshRow; other]; reachable := true |} in
  SearchIOC (postgresQueries pg) "lodash@4.17.0" = SearchOK "lodash@4.17.0" 2 [freshRow; wildcard]
  /\ SearchIOC (postgresQueries pg) "lodash" = SearchOK "lodash" 3 [freshRow; other; wildcard].
Proof. vm_compute. repeat split. Qed.


Lemma findEarliestTimestamp_least_witness :
  [newerRow; olderRow] <> []
  /\ (exists ioc, In ioc [newerRow; olderRow]
                  /\ findEarliestTimestamp 0 [newerRow; olderRow] = ioc.(Domain.FirstSeen))
  /\ (forall ioc, In ioc [newerRow; olderRow] ->
        findEarliestTimestamp 0 [newerRow; olderRow] <= ioc.(Domain.FirstSeen))
  /\ (forall iocs', Permutation [newerRow; olderRow] iocs' ->
        findEarliestTimestamp 0 iocs' = findEarliestTimestamp 0 [newerRow; olderRow]).
Proof.
  split; [discriminate|].
  apply (findEarliestTimestamp_least 0 [newerRow; olderRow]). discriminate.
Defined.

Lemma findLatestTimestamp_greatest_witness :
  [olderRow; newerRow] <> []
  /\ (exists ioc, In ioc [olderRow; newerRow]
                  /\ findLatestTimestamp 0 [olderRow; newerRow] = ioc.(DateIngested))
  /\ (forall ioc, In ioc [olderRow; newerRow] ->
        ioc.(DateIngested) <= findLatestTimestamp 0 [olderRow; newerRow]).
Proof.
  split; [discriminate|].
  apply (findLatestTimestamp_greatest 0 [olderRow; newerRow]). discriminate.
Defined.

Example aggregation_cases :
  findEarliestTimestamp 0 [newerRow; olderRow] = 100
  /\ findLatestTimestamp 0 [olderRow; newerRow] = 20
  /\ findEarliestTimestamp 7 [] = 7
  /\ CalculateConfidenceScore [] = 0
  /\ CalculateConfidenceScore [olderRow] = 80
  /\ CalculateConfidenceScore [olderRow; newerRow] = 85
  /\ CalculateConfidenceScore [olderRow; newerRow; freshRow] = 90.
Proof. vm_compute. repeat split. Qed.

End SearchScenarios.

(* ================================================================= *)
(** ** Further facts about the guardrails *)

Section GuardrailLimits.
Import GoStrings Llm.

Variable ToLower : string -> string.
Variable TrimSpace : string -> string.

Local Abbreviation normalizeFields := (Llm.normalizeFields ToLower TrimSpace).
Local Abbreviation hasHighRiskInDB := (Llm.hasHighRiskInDB ToLower).
Local Abbreviation isKnownGoodIndicator := (Llm.isKnownGoodIndicator ToLower).
Local Abbreviation isHighRiskThreatType := (Llm.isHighRiskThreatType ToLower).
Local Abbreviation ApplyPreLLMGuardrails := (Llm.ApplyPreLLMGuardrails ToLower).
Local Abbreviation ApplyPostLLMGuardrails := (Llm.ApplyPostLLMGuardrails ToLower TrimSpace).
Local Abbreviation Triage := (Llm.Triage ToLower TrimSpace).

(** No block of the post-filter sets the false-positive flag. *)
Lemma guardrail1_fp (n : Z) (r : TriageResult) :
  (guardrail1 n r).(FalsePositive) = true -> r.(FalsePositive) = true.
Proof.
  unfold guardrail1. destruct r as [sev p su an rec fp c]; cbn.
  destruct (fp && (n >? 0))%bool eqn:E; cbn; [|auto].
  destruct (_ || _)%bool; cbn; discriminate.
Qed.

Lemma guardrail2_fp (hr : bool) (r : TriageResult) :
  (guardrail2 hr r).(FalsePositive) = true -> r.(FalsePositive) = true.
Proof. unfold guardrail2. destruct (hr && _)%bool; cbn; [discriminate|auto]. Qed.

Lemma guardrail3_fp (config : GuardrailConfig) (n : Z) (r : TriageResult) :
  (guardrail3 config n r).(FalsePositive) = r.(FalsePositive).
Proof.
  unfold guardrail3. destruct (_ && (n =? 0))%bool; [|reflexivity].
  destruct (Severity r =? "critical")%string; [reflexivity|].
  now destruct (_ && _)%bool.
Qed.

Lemma guardrail5_fp (config : GuardrailConfig) (r : TriageResult) :
  (guardrail5 config r).(FalsePositive) = true -> r.(FalsePositive) = true.
Proof. unfold guardrail5. destruct (FalsePositive r && _)%bool eqn:E; cbn; [discriminate|auto]. Qed.

(** X12. The post-filter never marks a result as a false positive: an
    output with false_positive = true comes from an LLM result that already
    had it, under any configuration and for any alert. *)
Theorem ApplyPostLLMGuardrails_never_sets_false_positive (r : TriageResult)
    (threat : ThreatContext) (config : GuardrailConfig)
    (Hout : (ApplyPostLLMGuardrails r threat config).(FalsePositive) = true) :
  r.(FalsePositive) = true.
Proof.
  unfold Llm.ApplyPostLLMGuardrails in Hout. cbv zeta in Hout.
  match type of Hout with context [guardrail7 ?x] =>
    destruct (guardrail7_fields x) as [_ [_ [_ E7]]] end.
  rewrite E7 in Hout.
  match type of Hout with context [guardrail6 ?x] =>
    destruct (guardrail6_fields x) as [_ [_ E6]] end.
  rewrite E6 in Hout. apply guardrail5_fp in Hout.
  match type of Hout with context [guardrail4 ?n ?t ?x] =>
    destruct (guardrail4_fields n t x) as [_ [_ [E4 _]]] end.
  rewrite E4, guardrail3_fp in Hout.
  apply guardrail2_fp, guardrail1_fp in Hout.
  now destruct (normalizeFields_fields ToLower TrimSpace r) as [_ [_ <-]].
Qed.

(** Where the severity of each block's output can come from. *)
Lemma guardrail3_critical (config : GuardrailConfig) (n : Z) (r : TriageResult) :
  config.(RequireThreatIntelForCritical) = true ->
  (guardrail3 config n r).(Severity) = "critical" -> n <> 0.
Proof.
  unfold guardrail3. intros -> H. cbn [andb] in H.
  destruct (Z.eqb_spec n 0) as [->|Hn]; [|assumption].
  destruct (String.eqb_spec (Severity r) "critical") as [E|Hne]; [discriminate H|].
  destruct (_ && _)%bool; [discriminate H | contradiction].
Qed.

Lemma guardrail5_critical (config : GuardrailConfig) (r : TriageResult) :
  (guardrail5 config r).(Severity) = "critical" -> r.(Severity) = "critical".
Proof. unfold guardrail5. destruct (_ && _)%bool; cbn; [discriminate|auto]. Qed.

Lemma ApplyPostLLMGuardrails_critical (r : TriageResult) (threat : ThreatContext)
    (config : GuardrailConfig) :
  config.(RequireThreatIntelForCritical) = true ->
  (ApplyPostLLMGuardrails r threat config).(Severity) = "critical" ->
  0 < countInDB threat.(IOCs).
Proof.
  intros Hreq H. unfold Llm.ApplyPostLLMGuardrails in H. cbv zeta in H.
  match type of H with context [guardrail7 ?x] =>
    destruct (guardrail7_fields x) as [E7 _] end.
  rewrite E7 in H.
  match type of H with context [guardrail6 ?x] =>
    destruct (guardrail6_fields x) as [E6 _] end.
  rewrite E6 in H. apply guardrail5_critical in H.
  match type of H with context [guardrail4 ?n ?t ?x] =>
    destruct (guardrail4_fields n t x) as [E4 _] end.
  rewrite E4 in H. apply (guardrail3_critical config _ _ Hreq) in H.
  pose proof (countInDB_nonneg threat.(IOCs)). lia.
Qed.

(** X13. Triage never returns severity critical for an alert without
    catalog evidence: if the returned severity is critical, some enriched
    indicator of the alert has in_database = true. *)
Theorem Triage_critical_requires_intel (t : LLMTriager) (threat : ThreatContext)
    (r : TriageResult)
    (Hret : Triage t threat = inr r) (Hsev : r.(Severity) = "critical") :
  exists ioc, In ioc threat.(IOCs) /\ ioc.(InDatabase) = true.
Proof.
  unfold Llm.Triage in Hret.
  destruct (negb (enabled t)); [discriminate|].
  destruct (ApplyPreLLMGuardrails_cases ToLower threat DefaultGuardrailConfig)
    as [[p [E [Hs _]]] | [[p [E [Hs _]]] | [E _]]]; rewrite E in Hret.
  - injection Hret as <-. congruence.
  - injection Hret as <-. congruence.
  - destruct (ask t threat) as [| |res]; try discriminate.
    injection Hret as <-. apply countInDB_pos_iff.
    now apply (ApplyPostLLMGuardrails_critical res threat DefaultGuardrailConfig).
Qed.

Lemma countInDB_zero (iocs : list IOCContext) :
  (forall ioc, In ioc iocs -> ioc.(InDatabase) = false) -> countInDB iocs = 0.
Proof.
  intros H. pose proof (countInDB_nonneg iocs) as Hn.
  destruct (Z.eq_dec (countInDB iocs) 0) as [|Hne]; [assumption|].
  assert (Hpos : 0 < countInDB iocs) by lia.
  apply countInDB_pos_iff in Hpos. destruct Hpos as [ioc [Hin Hdb]].
  rewrite (H ioc Hin) in Hdb. discriminate.
Qed.

Lemma guardrail3_confidence (config : GuardrailConfig) (n : Z) (r : TriageResult) :
  (guardrail3 config n r).(Confidence) <= r.(Confidence).
Proof.
  unfold guardrail3. destruct (_ && (n =? 0))%bool; [|lia].
  destruct (Severity r =? "critical")%string; cbn; [rewrite min_spec; lia|].
  destruct (_ && _)%bool; cbn; [rewrite min_spec; lia | lia].
Qed.

Lemma guardrail5_confidence (config : GuardrailConfig) (r : TriageResult) :
  (guardrail5 config r).(Confidence) = r.(Confidence).
Proof. unfold guardrail5. now destruct (_ && _)%bool. Qed.

(** X14. Without catalog evidence the post-filter never raises the
    confidence: if no enriched indicator is in the database, the output
    confidence is at most the normalised confidence of the LLM result. *)
Theorem ApplyPostLLMGuardrails_no_boost_without_intel (r : TriageResult)
    (threat : ThreatContext) (config : GuardrailConfig)
    (Hnone : forall ioc, In ioc threat.(IOCs) -> ioc.(InDatabase) = false) :
  (ApplyPostLLMGuardrails r threat config).(Confidence)
  <= normalizeConfidence r.(Confidence).
Proof.
  pose proof (countInDB_zero _ Hnone) as Hn.
  assert (Hh : hasHighRiskInDB threat.(IOCs) = false).
  { destruct (hasHighRiskInDB threat.(IOCs)) eqn:E; [|reflexivity].
    apply hasHighRiskInDB_countInDB in E. lia. }
  unfold Llm.ApplyPostLLMGuardrails. cbv zeta. rewrite Hn, Hh.
  match goal with |- context [guardrail7 ?x] =>
    destruct (guardrail7_fields x) as [_ [_ [-> _]]] end.
  match goal with |- context [guardrail6 ?x] =>
    destruct (guardrail6_fields x) as [_ [-> _]] end.
  rewrite guardrail5_confidence.
  unfold guardrail4 at 1. cbn [Z.gtb Z.compare].
  rewrite guardrail2_idle.
  etransitivity; [apply guardrail3_confidence|].
  destruct (normalizeFields_fields ToLower TrimSpace r) as [_ [Ec _]].
  unfold guardrail1. rewrite andb_false_r. rewrite Ec. lia.
Qed.

Lemma getDefaultRecommendations_nonempty (severity : string) :
  getDefaultRecommendations severity <> [].
Proof.
  unfold getDefaultRecommendations.
  repeat match goal with |- context [if ?b then _ else _] => destruct b end; discriminate.
Qed.

Lemma guardrail7_recommended (r : TriageResult) :
  (guardrail7 r).(FalsePositive) = false -> (guardrail7 r).(Recommended) <> [].
Proof.
  unfold guardrail7. destruct r as [sev p su an rec fp c]; cbn.
  destruct fp; cbn; [discriminate|].
  destruct rec as [|x rec]; cbn; intros _; [apply getDefaultRecommendations_nonempty|discriminate].
Qed.

(** X15. Every result Triage returns that is not a false positive carries
    at least one recommended action: the pre-filter verdicts bring their own
    and the post-filter fills in the severity defaults when the LLM gave
    none. *)
Theorem Triage_recommended_nonempty (t : LLMTriager) (threat : ThreatContext)
    (r : TriageResult)
    (Hret : Triage t threat = inr r) (Hfp : r.(FalsePositive) = false) :
  r.(Recommended) <> [].
Proof.
  unfold Llm.Triage in Hret.
  destruct (negb (enabled t)); [discriminate|].
  unfold Llm.ApplyPreLLMGuardrails in Hret.
  destruct (_ && _)%bool.
  - injection Hret as <-. discriminate.
  - destruct (Llm.hasHighRiskInDB ToLower (IOCs threat)).
    + injection Hret as <-. discriminate.
    + destruct (ask t threat) as [| |res]; try discriminate.
      injection Hret as <-. unfold Llm.ApplyPostLLMGuardrails in *. cbv zeta in *.
      now apply guardrail7_recommended.
Qed.

(** X16. A catalogued high-risk threat type decides the verdict without
    the LLM: for an enabled triager, if some enriched indicator in the
    database has a high-risk threat type and not every indicator value is on
    the allowlist, Triage returns severity high, priority 2, confidence 90,
    not a false positive, whatever the model would answer. *)
Theorem Triage_known_bad_verdict (t : LLMTriager) (threat : ThreatContext)
    (ioc : IOCContext) (tt : string)
    (Hon : t.(enabled) = true)
    (Hin : In ioc threat.(IOCs)) (Hdb : ioc.(InDatabase) = true)
    (Htt : In tt ioc.(ThreatTypes)) (Hrisk : isHighRiskThreatType tt = true)
    (Hgood : forallb (fun i => isKnownGoodIndicator i.(Value)) threat.(IOCs) = false) :
  exists r,
    Triage t threat = inr r
    /\ r.(Severity) = "high" /\ r.(Priority) = 2
    /\ r.(Confidence) = 90 /\ r.(FalsePositive) = false.
Proof.
  pose proof (high_risk_indicator ToLower threat ioc tt Hin Hdb Htt Hrisk) as Hh.
  unfold Llm.Triage, Llm.ApplyPreLLMGuardrails. rewrite Hon, Hgood, Hh, andb_false_r.
  cbn [negb]. eexists. split; [reflexivity|]. cbn. auto.
Qed.

End GuardrailLimits.

(* ================================================================= *)
(** ** Further facts about the webhook *)

Section WebhookFacts.
Import Domain Repository Handler.

Lemma uniqueStringsFrom_spec (slice seen : list string) :
  NoDup (uniqueStringsFrom seen slice)
  /\ (forall x, In x (uniqueStringsFrom seen slice) <-> In x slice /\ ~ In x seen).
Proof.
  revert seen. induction slice as [|s slice IH]; intros seen; cbn.
  - split; [constructor | intros x; tauto].
  - destruct (existsb (String.eqb s) seen) eqn:E.
    + destruct (IH seen) as [Hnd Hin]. split; [assumption|].
      apply existsb_exists in E. destruct E as [y [Hy Hsy]]. apply String.eqb_eq in Hsy. subst y.
      intros x. rewrite Hin. split; [tauto|]. intros [[<-|Hx] Hns]; [contradiction|tauto].
    + destruct (IH (s :: seen)) as [Hnd Hin].
      assert (Hs : ~ In s seen).
      { intros Hs. assert (existsb (String.eqb s) seen = true)
          by (apply existsb_exists; exists s; split; [assumption | apply String.eqb_refl]).
        congruence. }
      split.
      * constructor; [|assumption]. rewrite Hin. cbn. tauto.
      * intros x. cbn. rewrite Hin. cbn. split.
        -- intros [<-|[Hx Hn]]; tauto.
        -- intros [[<-|Hx] Hn]; [now left|].
           destruct (string_dec s x) as [->|Hne]; [now left | right; tauto].
Qed.

Lemma uniqueStrings_NoDup (slice : list string) : NoDup (uniqueStrings slice).
Proof. apply uniqueStringsFrom_spec. Qed.

(** X17. uniqueStrings returns the distinct strings of its input: no string
    twice, the same strings as the input, and unchanged by a second pass. *)
Theorem uniqueStrings_distinct (slice : list string) :
  NoDup (uniqueStrings slice)
  /\ (forall x, In x (uniqueStrings slice) <-> In x slice)
  /\ uniqueStrings (uniqueStrings slice) = uniqueStrings slice.
Proof.
  unfold uniqueStrings. destruct (uniqueStringsFrom_spec slice []) as [Hnd Hin].
  split; [assumption|]. split; [intros x; rewrite Hin; cbn; tauto|].
  clear Hin. revert Hnd. generalize (uniqueStringsFrom [] slice). intros l.
  assert (H : forall seen, NoDup l -> (forall x, In x l -> ~ In x seen) ->
                           uniqueStringsFrom seen l = l).
  { induction l as [|a l IH]; intros seen Hnd Hfresh; cbn; [reflexivity|].
    inversion Hnd as [|? ? Ha Hl]; subst.
    destruct (existsb (String.eqb a) seen) eqn:E.
    - apply existsb_exists in E. destruct E as [y [Hy Hay]]. apply String.eqb_eq in Hay.
      subst y. exfalso. apply (Hfresh a); cbn; auto.
    - f_equal. apply IH; [assumption|].
      intros x Hx [<-|Hs]; [contradiction|]. apply (Hfresh x); cbn; auto. }
  intros Hnd. apply H; [assumption | intros x _ []].
Qed.

Section WithRepository.

Variable repo : IOCRepository.

Lemma enrichIndicator_verbatim (indicator : SentinelOneIOC) (e : EnrichedIndicator) :
  enrichIndicator repo indicator = Some e ->
  e.(eType) = indicator.(Type_) /\ e.(eValue) = indicator.(Value).
Proof.
  unfold enrichIndicator.
  destruct (FindAllByValue repo (Value indicator)) as [|rows]; [discriminate|].
  match goal with
  | |- match ?l with [] => _ | _ :: _ => _ end = _ -> _ => destruct l
  end; intros H; injection H as <-; now split.
Qed.

(** X18. An enriched indicator keeps the type tag and value of the alert
    indicator verbatim.  Reported as not in the database it carries no
    sources, tags or threat types; reported as in the database it carries at
    least one source and one threat type, each list without repetition. *)
Theorem enrichIndicator_fields (indicator : SentinelOneIOC) (e : EnrichedIndicator)
    (Henriched : enrichIndicator repo indicator = Some e) :
  e.(eType) = indicator.(Type_) /\ e.(eValue) = indicator.(Value)
  /\ (e.(InDatabase) = false ->
      e.(Sources) = [] /\ e.(Tags) = [] /\ e.(ThreatTypes) = [])
  /\ (e.(InDatabase) = true ->
      e.(Sources) <> [] /\ e.(ThreatTypes) <> []
      /\ NoDup e.(Sources) /\ NoDup e.(Tags) /\ NoDup e.(ThreatTypes)).
Proof.
  unfold enrichIndicator in Henriched.
  destruct (FindAllByValue repo (Value indicator)) as [|rows]; [discriminate|].
  match type of Henriched with
  | match ?l with [] => _ | _ :: _ => _ end = _ => destruct l as [|first rest] eqn:E
  end; injection Henriched as <-;
    cbn [eType eValue InDatabase Sources Tags ThreatTypes].
  - repeat split; auto; discriminate.
  - split; [reflexivity|]. split; [reflexivity|]. split; [discriminate|]. intros _.
    split; [unfold uniqueStrings; cbn; discriminate|].
    split; [unfold uniqueStrings; cbn; discriminate|].
    repeat split; apply uniqueStrings_NoDup.
Qed.

(** X19. When no exact lookup fails, the enriched list has one entry per
    indicator of the alert, in the order of the alert, with the same type
    tags and values. *)
Theorem enrichIndicators_in_order (indicators : list SentinelOneIOC)
    (Hok : forall i, In i indicators -> repo.(FindAllByValue) i.(Value) <> QueryError) :
  map (fun e => (e.(eType), e.(eValue))) (enrichIndicators repo indicators)
  = map (fun i => (i.(Type_), i.(Value))) indicators.
Proof.
  induction indicators as [|i l IH]; [reflexivity|]. cbn [enrichIndicators map].
  destruct (enrichIndicator repo i) as [e|] eqn:E.
  - destruct (enrichIndicator_verbatim i e E) as [Ht Hv].
    cbn [map]. rewrite Ht, Hv. f_equal. apply IH. intros j Hj. apply Hok. now right.
  - exfalso. unfold enrichIndicator in E.
    destruct (FindAllByValue repo (Value i)) eqn:F.
    + apply (Hok i); [now left | assumption].
    + destruct (if Nat.eqb _ 0 then _ else _); discriminate.
Qed.

Lemma countEnriched_bounds (l : list EnrichedIndicator) :
  0 <= countEnriched l <= Z.of_nat (List.length l).
Proof.
  unfold countEnriched. pose proof (filter_length_le InDatabase l). lia.
Qed.

End WithRepository.

Section WithTriage.

Variable ToLower : string -> string.
Variable TrimSpace : string -> string.

Local Abbreviation SentinelOneWebhook := (Handler.SentinelOneWebhook ToLower TrimSpace).
Local Abbreviation Triage := (Llm.Triage ToLower TrimSpace).

(** X20. The webhook always answers "received" with the alert id, and its
    counters are ordered: indicators_in_db is at most indicators_enriched,
    which is at most the number of indicators of the alert. *)
Theorem SentinelOneWebhook_counters (repo : IOCRepository)
    (llmTriager : option Llm.LLMTriager) (slackNotifier : bool)
    (payload : SentinelOneAlert) :
  let response := SentinelOneWebhook repo llmTriager slackNotifier payload in
  response.(status) = "received"
  /\ response.(alert_id) = payload.(AlertID)
  /\ 0 <= response.(indicators_in_db) <= response.(indicators_enriched)
  /\ response.(indicators_enriched) <= Z.of_nat (List.length payload.(Indicators)).
Proof.
  cbv zeta. unfold Handler.SentinelOneWebhook. cbv zeta.
  pose proof (countEnriched_bounds (enrichIndicators repo payload.(Indicators))).
  pose proof (enrichIndicators_length repo payload.(Indicators)).
  destruct (match _ with Some _ => _ | None => false end); cbn; repeat split; lia.
Qed.

(** A false-positive verdict of Triage has a confidence of at least 85. *)
Lemma Triage_false_positive_confident (t : Llm.LLMTriager) (threat : Llm.ThreatContext)
    (r : Llm.TriageResult) :
  Triage t threat = inr r -> r.(Llm.FalsePositive) = true -> 85 <= r.(Llm.Confidence).
Proof.
  unfold Llm.Triage. destruct (negb (Llm.enabled t)); [discriminate|].
  destruct (ApplyPreLLMGuardrails_cases ToLower threat Llm.DefaultGuardrailConfig)
    as [[p [E [_ [_ [_ [Hc _]]]]]] | [[p [E [_ [_ [Hf _]]]]] | [E _]]]; rewrite E.
  - intros H _. injection H as <-. lia.
  - intros H Hfp. injection H as <-. congruence.
  - destruct (Llm.ask t threat) as [| |res]; try discriminate.
    intros H. injection H as <-.
    apply (ApplyPostLLMGuardrails_fields ToLower TrimSpace res threat).
Qed.

(** X21. What the triage does to the webhook response.  When Triage returns
    a result, the response has llm_triaged = true; if that result is a false
    positive the notification is always skipped (false_positive = true in
    the response, slack_notification = false): the handler's own confidence
    threshold of 80 never keeps a false positive, as the guardrails only let
    one through at 85 or more.  When Triage fails or is disabled the response
    is the untriaged one, with the notifier as configured. *)
Theorem SentinelOneWebhook_triage (repo : IOCRepository) (t : Llm.LLMTriager)
    (slackNotifier : bool) (payload : SentinelOneAlert) :
  let threat := threatContextOf payload (enrichIndicators repo payload.(Indicators)) in
  let response := SentinelOneWebhook repo (Some t) slackNotifier payload in
  match Triage t threat with
  | inr r =>
      response.(llm_triaged) = true
      /\ (r.(Llm.FalsePositive) = true ->
          response.(false_positive) = Some true /\ response.(slack_notification) = false)
      /\ (r.(Llm.FalsePositive) = false ->
          response.(false_positive) = None /\ response.(slack_notification) = slackNotifier)
  | inl _ =>
      response.(llm_triaged) = false /\ response.(false_positive) = None
      /\ response.(slack_notification) = slackNotifier
  end.
Proof.
  cbv zeta. unfold Handler.SentinelOneWebhook. cbv zeta.
  set (threat := threatContextOf payload (enrichIndicators repo payload.(Indicators))).
  destruct (Llm.enabled t) eqn:Hon.
  - destruct (Triage t threat) as [err|r] eqn:E.
    + cbn. auto.
    + destruct (Llm.FalsePositive r) eqn:Hfp.
      * pose proof (Triage_false_positive_confident t threat r E Hfp) as Hc.
        replace (Llm.Confidence r >=? 80) with true
          by (symmetry; rewrite Z.geb_leb; apply Z.leb_le; lia).
        cbn. repeat split; auto; discriminate.
      * cbn. repeat split; auto; discriminate.
  - assert (E : Triage t threat = inl Llm.ErrNotEnabled)
      by (unfold Llm.Triage; now rewrite Hon).
    rewrite E. cbn. auto.
Qed.

End WithTriage.

End WebhookFacts.

(* ================================================================= *)
(** ** Facts about the CEF feed *)

Section FeedFacts.
Import GoStrings Domain Repository Exporter CEFExporter.

(** X22. The confidence an exported row gets lies between 70 and 90 (the
    cap at 100 is never reached) and is the same in the CEF and the STIX
    feed; the CEF severity derived from it is 6, 8 or 10, and 10 exactly for
    a row of a high-trust source with threat type malware_download or
    c2_server and more than three tags. *)
Theorem calculateConfidence_range (ioc : IOC) :
  70 <= calculateConfidence ioc <= 90
  /\ calculateConfidenceSTIX ioc = calculateConfidence ioc
  /\ (calculateSeverity (calculateConfidence ioc) = 6
      \/ calculateSeverity (calculateConfidence ioc) = 8
      \/ calculateSeverity (calculateConfidence ioc) = 10)
  /\ (calculateSeverity (calculateConfidence ioc) = 10 <->
      (ioc.(Source) = "alienvault-otx" \/ ioc.(Source) = "abusech-urlhaus")
      /\ (ioc.(ThreatType) = "malware_download" \/ ioc.(ThreatType) = "c2_server")
      /\ (3 < List.length ioc.(Tags))%nat).
Proof.
  unfold calculateConfidenceSTIX, calculateConfidence, calculateSeverity.
  destruct (String.eqb_spec ioc.(Source) "alienvault-otx") as [Ha|Ha];
    destruct (String.eqb_spec ioc.(Source) "abusech-urlhaus") as [Hu|Hu];
    destruct (String.eqb_spec ioc.(ThreatType) "malware_download") as [Hm|Hm];
    destruct (String.eqb_spec ioc.(ThreatType) "c2_server") as [Hc|Hc];
    destruct (Z.gtb_spec (Z.of_nat (List.length ioc.(Tags))) 3) as [Ht|Ht];
    cbn; repeat split; auto; try lia; try discriminate;
    try (intros [[?|?] [[?|?] ?]]; try contradiction; lia);
    try (intros _; repeat split; auto; lia).
Qed.

Lemma countByte_app (c : ascii) (a b : string) :
  countByte c (a ++ b) = (countByte c a + countByte c b)%nat.
Proof. induction a as [|x a IH]; cbn; [reflexivity|]. rewrite IH. lia. Qed.

Lemma lineFree_app (a b : string) : lineFree a -> lineFree b -> lineFree (a ++ b).
Proof. unfold lineFree. rewrite !countByte_app. lia. Qed.

Lemma lineFree_escapeField (s : string) : lineFree (escapeField s).
Proof.
  rewrite escapeField_bytewise. induction s as [|c s IH]; [now split|].
  cbn [escapeBytes]. apply lineFree_app; [|assumption].
  destruct c as [[] [] [] [] [] [] [] []]; now split.
Qed.

Lemma lineFree_formatInt (n : Z) : lineFree (formatInt n).
Proof.
  unfold formatInt.
  assert (Hu : forall d, lineFree (NilEmpty.string_of_uint d)).
  { induction d; cbn [NilEmpty.string_of_uint]; [now split|..];
      (change (String ?c ?s) with (String c "" ++ s)%string;
       apply lineFree_app; [now split | assumption]). }
  assert (Hz : forall d, lineFree (NilZero.string_of_uint d)).
  { intros d. unfold NilZero.string_of_uint. destruct d; try apply Hu. now split. }
  destruct (Z.to_int n) as [d|d]; cbn [NilZero.string_of_int]; [apply Hz|].
  change (String "-" ?s) with ("-" ++ s)%string. apply lineFree_app; [now split | apply Hz].
Qed.

Ltac line_free :=
  lazymatch goal with
  | |- lineFree (_ ++ _) => apply lineFree_app; line_free
  | |- lineFree (escapeField _) => apply lineFree_escapeField
  | |- lineFree (formatInt _) => apply lineFree_formatInt
  | _ => first [ assumption | now split ]
  end.

Section WithFormat.

Variable ToUpper : string -> string.
Variable Unix : Time -> Z.

Local Abbreviation formatCEF := (CEFExporter.formatCEF ToUpper Unix).
Local Abbreviation Export := (CEFExporter.Export ToUpper Unix).

Lemma formatCEF_lineFree (entry : CEFEntry) :
  lineFree entry.(eType) -> lineFree (ToUpper entry.(eType)) ->
  lineFree (formatCEF entry).
Proof.
  intros Htype Hupper. unfold CEFExporter.formatCEF. cbv zeta. cbn [Join]. line_free.
Qed.

(** X23. A CEF record is one line: whatever value, threat type, sources and
    tags contain, formatCEF's output has no line feed and no carriage
    return, provided the row's type has none (the type is the one field
    written without escaping). *)
Theorem formatCEF_one_line (entry : CEFEntry)
    (Htype : lineFree entry.(eType)) (Hupper : lineFree (ToUpper entry.(eType))) :
  lineFree (formatCEF entry).
Proof.
  unfold CEFExporter.formatCEF. cbv zeta. cbn [Join]. line_free.
Qed.

Lemma Export_fold_lines (rows : list IOC) (acc : string) :
  (forall ioc, In ioc rows -> lineFree ioc.(Type_) /\ lineFree (ToUpper ioc.(Type_))) ->
  countByte LF (fold_left (fun output ioc =>
                             output ++ formatCEF (entryOf ioc) ++ String LF "")
                          rows acc)
  = (countByte LF acc + List.length rows)%nat.
Proof.
  revert acc. induction rows as [|ioc rows IH]; intros acc H; cbn [fold_left List.length].
  - lia.
  - rewrite IH by (intros j Hj; apply H; now right).
    rewrite !countByte_app.
    destruct (H ioc (or_introl eq_refl)) as [Ht Hu].
    destruct (formatCEF_lineFree (entryOf ioc) Ht Hu) as [-> _]. cbn. lia.
Qed.

(** X24. The CEF export of a reachable catalog whose row types contain no
    line break is one line per row of the window: the output has exactly as
    many line feeds as FindSince returned rows, at most 10 000, the window
    starting a day ago when no time is given. *)
Theorem Export_line_per_row (dayAgo : Time) (repo : PostgresRepository) (since : Time)
    (Hup : repo.(reachable) = true)
    (Htypes : forall ioc, In ioc repo.(iocs) ->
                lineFree ioc.(Type_) /\ lineFree (ToUpper ioc.(Type_))) :
  exists rows output,
    FindSince repo (if since =? 0 then dayAgo else since) 10000 = Rows rows
    /\ Export dayAgo repo since = Some output
    /\ countByte LF output = List.length rows
    /\ Z.of_nat (List.length rows) <= 10000.
Proof.
  unfold CEFExporter.Export. cbv zeta.
  set (from := if since =? 0 then dayAgo else since).
  unfold FindSince. rewrite Hup. cbn [negb Z.ltb Z.compare].
  set (rows := firstn (Z.to_nat 10000) _).
  exists rows. eexists. split; [reflexivity|]. split; [reflexivity|].
  split.
  - rewrite Export_fold_lines; [reflexivity|].
    intros ioc Hin. apply Htypes. subst rows. apply firstn_incl in Hin.
    apply (Permutation_in _ (orderByDateIngestedDesc_perm _)) in Hin.
    now apply filter_In in Hin.
  - subst rows.
    match goal with |- context [firstn ?n ?l] => pose proof (firstn_le_length n l) end.
    lia.
Qed.

End WithFormat.

End FeedFacts.

Section FeedScenarios.
Import GoStrings Domain Repository Exporter CEFExporter Scenarios.

Example formatInt_cases :
  formatInt 0 = "0" /\ formatInt 70 = "70" /\ formatInt (-5) = "-5"
  /\ formatInt 1767225600000 = "1767225600000".
Proof. vm_compute. repeat split. Qed.

Example formatCEF_case :
  formatCEF asciiToUpper (fun t => t) (entryOf newerRow)
  = "CEF:0|Watchtower|ThreatIntel|1.0|ip|IP IOC Detected|8|src=192.0.2.5 cn1Label=ConfidenceScore cn1=80 cs1Label=ThreatType cs1=botnet cs2Label=Sources cs2=abusech-urlhaus cs3Label=Tags cs3=mirai rt=200000".
Proof. vm_compute. reflexivity. Qed.

Lemma formatCEF_one_line_witness :
  let entry := mkCEFEntry (String LF "a|b") "ip" "c2=x" ["s"] ["t"; "u"] 80 5 in
  lineFree entry.(eType) /\ lineFree (asciiToUpper entry.(eType))
  /\ lineFree (formatCEF asciiToUpper (fun t => t) entry).
Proof.
  cbv zeta. split; [now split|]. split; [now split|].
  apply (formatCEF_one_line asciiToUpper (fun t => t)); now split.
Defined.

Lemma Export_line_per_row_witness :
  catalog.(reachable) = true
  /\ (forall ioc, In ioc catalog.(iocs) ->
        lineFree ioc.(Type_) /\ lineFree (asciiToUpper ioc.(Type_)))
  /\ exists rows output,
       FindSince catalog (if 0 =? 0 then 15 else 0) 10000 = Rows rows
       /\ Export asciiToUpper (fun t => t) 15 catalog 0 = Some output
       /\ countByte LF output = List.length rows
       /\ Z.of_nat (List.length rows) <= 10000.
Proof.
  assert (H : forall ioc, In ioc catalog.(iocs) ->
                lineFree ioc.(Type_) /\ lineFree (asciiToUpper ioc.(Type_))).
  { intros ioc [<-|[<-|[]]]; split; now split. }
  split; [reflexivity|]. split; [exact H|].
  apply (Export_line_per_row asciiToUpper (fun t => t) 15 catalog 0); [reflexivity | exact H].
Defined.

End FeedScenarios.

(* ================================================================= *)
(** ** Facts about the parsing of the LLM reply *)

Section ParseFacts.
Import GoStrings Llm.

Lemma HasPrefix_self_app (sub rest : string) : HasPrefix (sub ++ rest) sub = true.
Proof.
  induction sub as [|c sub IH]; [reflexivity|]. cbn. now rewrite Ascii.eqb_refl, IH.
Qed.

(** In a text that starts with a run free of backticks, the first
    occurrence of a pattern that begins with a backtick is where the run
    ends, if the pattern is there. *)
Lemma Index_after_run (pre sub rest : string) :
  hasByte "`"%char pre = false ->
  Index (pre ++ String "`"%char (sub ++ rest)) (String "`"%char sub)
  = Z.of_nat (String.length pre).
Proof.
  intros Hpre. induction pre as [|c pre IH].
  - cbn [String.append String.length Index].
    pose proof (HasPrefix_self_app (String "`"%char sub) rest) as H.
    cbn [String.append] in H. now rewrite H.
  - cbn [hasByte] in Hpre. apply orb_false_elim in Hpre. destruct Hpre as [Hc Hpre].
    cbn [String.append String.length Index].
    replace (HasPrefix (String c (pre ++ String "`"%char (sub ++ rest))) (String "`"%char sub))
      with false by (cbn [HasPrefix]; now rewrite Hc).
    rewrite (IH Hpre).
    destruct (Z.ltb_spec (Z.of_nat (String.length pre)) 0); lia.
Qed.

Lemma Index_no_backtick (s sub : string) :
  hasByte "`"%char s = false -> Index s (String "`"%char sub) = -1.
Proof.
  induction s as [|c s IH]; intros H; [reflexivity|].
  cbn [hasByte] in H. apply orb_false_elim in H. destruct H as [Hc H].
  cbn [Index HasPrefix]. rewrite Hc. cbn [andb]. now rewrite (IH H).
Qed.

Lemma sliceFrom_app (pre rest : string) :
  sliceFrom (pre ++ rest) (String.length pre) = rest.
Proof. induction pre as [|c pre IH]; [reflexivity | exact IH]. Qed.

Lemma sliceTo_app (pre rest : string) :
  sliceTo (pre ++ rest) (String.length pre) = pre.
Proof. induction pre as [|c pre IH]; [reflexivity|]. cbn. now rewrite IH. Qed.

Lemma length_append (a b : string) :
  String.length (a ++ b) = (String.length a + String.length b)%nat.
Proof. induction a as [|c a IH]; cbn; [reflexivity | now rewrite IH]. Qed.

Lemma append_assoc' (a b c : string) : ((a ++ b) ++ c = a ++ (b ++ c))%string.
Proof. induction a as [|x a IH]; cbn; [reflexivity | now rewrite IH]. Qed.

Variable TrimSpace : string -> string.
Variable Unmarshal : string -> option TriageResult.

Local Abbreviation parseResponse := (Llm.parseResponse TrimSpace Unmarshal).

(** X25. parseResponse reads a reply the same way bare or fenced: for a
    body without backticks, the body alone and the body inside a fence
    labelled json -- after any backtick-free preamble and before any
    trailing text -- are parsed to the same result (or the same parse
    error). *)
Theorem parseResponse_fenced (pre body post : string)
    (Hpre : hasByte backtick pre = false) (Hbody : hasByte backtick body = false) :
  jsonBody body = body
  /\ jsonBody (pre ++ "```json" ++ body ++ "```" ++ post) = body
  /\ parseResponse (pre ++ "```json" ++ body ++ "```" ++ post) = parseResponse body.
Proof.
  unfold backtick in *.
  assert (Hbare : jsonBody body = body).
  { unfold jsonBody.
    rewrite (Index_no_backtick body "``json" Hbody), (Index_no_backtick body "``" Hbody).
    reflexivity. }
  assert (Hfenced : jsonBody (pre ++ "```json" ++ body ++ "```" ++ post) = body).
  { unfold jsonBody.
    pose proof (Index_after_run pre "``json" (body ++ "```" ++ post) Hpre) as Hi.
    cbn [String.append] in Hi |- *. rewrite Hi.
    replace (Z.of_nat (String.length pre) =? -1) with false
      by (symmetry; apply Z.eqb_neq; lia).
    cbn [negb].
    replace (Z.to_nat (Z.of_nat (String.length pre) + 7))
      with (String.length (pre ++ "```json")).
    2:{ rewrite length_append. cbn. lia. }
    change (String "`" (String "`" (String "`" (String "j" (String "s" (String "o"
              (String "n" ?x)))))))
      with ("```json" ++ x)%string.
    rewrite <- append_assoc', sliceFrom_app.
    pose proof (Index_after_run body "``" post Hbody) as Hj.
    cbn [String.append] in Hj. rewrite Hj.
    replace (Z.of_nat (String.length body) =? -1) with false
      by (symmetry; apply Z.eqb_neq; lia).
    cbn [negb]. rewrite Nat2Z.id. apply sliceTo_app. }
  split; [assumption|]. split; [assumption|].
  unfold Llm.parseResponse. now rewrite Hbare, Hfenced.
Qed.

End ParseFacts.

Section ParseScenarios.
Import GoStrings Llm Scenarios.

Example jsonBody_cases :
  jsonBody "{}" = "{}"
  /\ jsonBody "Here you go: ```json {} ``` bye" = " {} "
  /\ jsonBody "``` {} ```" = " {} "
  /\ jsonBody "```json {}" = " {}"
  /\ parseResponse asciiTrimSpace decodeOne "``` {} ```" = inr (reply "" 0 false 0)
  /\ parseResponse asciiTrimSpace decodeOne "not json" = inl ErrParseResponse.
Proof. vm_compute. repeat split. Qed.

Lemma parseResponse_fenced_witness :
  hasByte backtick "Assessment: " = false /\ hasByte backtick " {} " = false
  /\ jsonBody " {} " = " {} "
  /\ jsonBody ("Assessment: " ++ "```json" ++ " {} " ++ "```" ++ " done") = " {} "
  /\ parseResponse asciiTrimSpace decodeOne
       ("Assessment: " ++ "```json" ++ " {} " ++ "```" ++ " done")
     = parseResponse asciiTrimSpace decodeOne " {} ".
Proof.
  split; [reflexivity|]. split; [reflexivity|].
  apply (parseResponse_fenced asciiTrimSpace decodeOne "Assessment: " " {} " " done");
    reflexivity.
Defined.

End ParseScenarios.

(* ================================================================= *)
(** ** Further facts about the component extractor *)

Section ComponentFacts.
Import GoStrings Domain.

Lemma append_nonempty (cur : string) (c : ascii) : (cur ++ String c "")%string <> "".
Proof. destruct cur; discriminate. Qed.

(** FieldsFunc never reports an empty field. *)
Lemma fieldsFrom_nonempty (f : ascii -> bool) (s cur : string) (x : string) :
  In x (fieldsFrom f cur s) -> x <> "".
Proof.
  revert cur. induction s as [|c s IH]; intros cur; cbn [fieldsFrom].
  - destruct (String.eqb_spec cur ""); cbn; [tauto|]. intros [<-|[]]. assumption.
  - destruct (f c).
    + destruct (String.eqb_spec cur ""); [apply IH|].
      intros [<-|H]; [assumption | now apply (IH "")].
    + apply IH.
Qed.

Variable ParseIP : string -> bool.
Variable urlHostname : string -> option string.

Local Abbreviation ExtractIOCComponents := (Domain.ExtractIOCComponents ParseIP urlHostname).

(** X26. Every IOC the extractor adds to the source IOC has a non-empty
    value different from the value it was extracted from, type ip or domain,
    an empty version, and the parent's source, threat type, first_seen and
    date_ingested.  Its tags are one extraction tag followed by the parent's
    tags: extracted-from-url when the value starts with http:// or https://,
    and otherwise extracted-from-value, then on an IOC of type ip. *)
Theorem ExtractIOCComponents_added (value : string) (sourceIOC added : IOC)
    (Hadded : In added (tl (ExtractIOCComponents value sourceIOC))) :
  added.(Value) <> "" /\ added.(Value) <> value
  /\ (added.(Type_) = IPAddress \/ added.(Type_) = Domain)
  /\ added.(Version) = ""
  /\ (((HasPrefix value "http://" || HasPrefix value "https://")%bool = true
       /\ added.(Tags) = "extracted-from-url" :: sourceIOC.(Tags))
      \/ (HasPrefix value "http" = false /\ added.(Type_) = IPAddress
          /\ added.(Tags) = "extracted-from-value" :: sourceIOC.(Tags)))
  /\ added.(Source) = sourceIOC.(Source)
  /\ added.(ThreatType) = sourceIOC.(ThreatType)
  /\ added.(FirstSeen) = sourceIOC.(FirstSeen)
  /\ added.(DateIngested) = sourceIOC.(DateIngested).
Proof.
  unfold Domain.ExtractIOCComponents in Hadded. cbv zeta in Hadded.
  destruct (HasPrefix value "http://" || HasPrefix value "https://")%bool eqn:Hurl.
  - rewrite (url_scheme_has_http_prefix value Hurl) in Hadded. cbn [negb] in Hadded.
    destruct (urlHostname value) as [host|]; [|destruct Hadded].
    destruct (String.eqb_spec host "") as [|Hne]; [destruct Hadded|].
    destruct (String.eqb_spec host value) as [|Hnv]; [destruct Hadded|].
    cbn [negb andb] in Hadded.
    destruct (ParseIP host); destruct Hadded as [<-|[]]; cbn; repeat split; auto.
  - destruct (HasPrefix value "http"); cbn [negb] in Hadded; [destruct Hadded|].
    pose proof (firstEmbeddedIP_spec ParseIP value (FieldsFunc value isSeparator)) as Hspec.
    destruct (firstEmbeddedIP ParseIP value (FieldsFunc value isSeparator)) as [part|];
      [|destruct Hadded].
    destruct Hspec as [pre [post [E [_ [_ Hne]]]]].
    assert (Hin : In part (FieldsFunc value isSeparator))
      by (rewrite E; apply in_or_app; right; now left).
    apply fieldsFrom_nonempty in Hin.
    destruct Hadded as [<-|[]]; cbn; repeat split; auto.
Qed.

End ComponentFacts.

Section MoreScenarios.
Import GoStrings Domain Repository Handler Scenarios.

Lemma ExtractIOCComponents_added_witness :
  let value := "198.0.2.12:8080" in
  let src := mkIOC value "ip" "feed" "c2_server" ["t"] "7" 10 20 in
  let added := mkIOC "198.0.2.12" IPAddress "feed" "c2_server"
                 ["extracted-from-value"; "t"] "" 10 20 in
  In added (tl (Domain.ExtractIOCComponents parseIPv4 (fun _ => None) value src))
  /\ (added.(Domain.Value) <> "" /\ added.(Domain.Value) <> value
      /\ (added.(Domain.Type_) = IPAddress \/ added.(Domain.Type_) = Domain.Domain)
      /\ added.(Version) = ""
      /\ (((HasPrefix value "http://" || HasPrefix value "https://")%bool = true
           /\ added.(Domain.Tags) = "extracted-from-url" :: src.(Domain.Tags))
          \/ (HasPrefix value "http" = false /\ added.(Domain.Type_) = IPAddress
              /\ added.(Domain.Tags) = "extracted-from-value" :: src.(Domain.Tags)))
      /\ added.(Source) = src.(Source)
      /\ added.(ThreatType) = src.(ThreatType)
      /\ added.(Domain.FirstSeen) = src.(Domain.FirstSeen)
      /\ added.(DateIngested) = src.(DateIngested)).
Proof.
  cbv zeta. split; [now left|].
  apply (ExtractIOCComponents_added parseIPv4 (fun _ => None) "198.0.2.12:8080"
           (mkIOC "198.0.2.12:8080" "ip" "feed" "c2_server" ["t"] "7" 10 20)).
  now left.
Defined.

Lemma enrichIndicator_fields_witness :
  let indicator := mkSentinelOneIOC "IPV4" "192.0.2.5" in
  let e := mkEnrichedIndicator "IPV4" "192.0.2.5" true
             ["abusech-urlhaus"; "alienvault-otx"] ["mirai"; "apt"]
             ["botnet"; "c2_server"] 200 in
  enrichIndicator (exactOnly catalog) indicator = Some e
  /\ (e.(eType) = indicator.(Type_) /\ e.(eValue) = indicator.(Value)
      /\ (e.(InDatabase) = false ->
          e.(Sources) = [] /\ e.(Tags) = [] /\ e.(ThreatTypes) = [])
      /\ (e.(InDatabase) = true ->
          e.(Sources) <> [] /\ e.(ThreatTypes) <> []
          /\ NoDup e.(Sources) /\ NoDup e.(Tags) /\ NoDup e.(ThreatTypes))).
Proof.
  cbv zeta. split; [reflexivity|].
  apply (enrichIndicator_fields (exactOnly catalog) (mkSentinelOneIOC "IPV4" "192.0.2.5")).
  reflexivity.
Defined.

Lemma enrichIndicators_in_order_witness :
  let indicators := [mkSentinelOneIOC "DNS" "unknown.example"; mkSentinelOneIOC "IPV4" "192.0.2.5"] in
  (forall i, In i indicators ->
     (exactOnly catalog).(FindAllByValue) i.(Value) <> QueryError)
  /\ map (fun e => (e.(eType), e.(eValue))) (enrichIndicators (exactOnly catalog) indicators)
     = map (fun i => (i.(Type_), i.(Value))) indicators.
Proof.
  cbv zeta.
  assert (H : forall i,
            In i [mkSentinelOneIOC "DNS" "unknown.example"; mkSentinelOneIOC "IPV4" "192.0.2.5"] ->
            (exactOnly catalog).(FindAllByValue) i.(Value) <> QueryError).
  { intros i [<-|[<-|[]]]; discriminate. }
  split; [exact H|].
  apply (enrichIndicators_in_order (exactOnly catalog)). exact H.
Defined.

End MoreScenarios.

Section LimitScenarios.
Import GoStrings Llm Scenarios.

Lemma ApplyPostLLMGuardrails_never_sets_false_positive_witness :
  let r := reply "info" 5 true 90 in
  let threat := alertWith [indicator "203.0.113.9" false [] []] in
  (asciiPostFilter r threat DefaultGuardrailConfig).(FalsePositive) = true
  /\ r.(FalsePositive) = true.
Proof.
  cbv zeta. split; [vm_compute; reflexivity|].
  apply (ApplyPostLLMGuardrails_never_sets_false_positive asciiToLower asciiTrimSpace
           (reply "info" 5 true 90) (alertWith [indicator "203.0.113.9" false [] []])
           DefaultGuardrailConfig).
  vm_compute. reflexivity.
Defined.

Lemma Triage_critical_requires_intel_witness :
  let ioc := indicator "203.0.113.9" true ["feed"] ["scanner"] in
  let threat := alertWith [ioc] in
  let r := asciiPostFilter (reply "critical" 1 false 95) threat DefaultGuardrailConfig in
  asciiTriage (answering (reply "critical" 1 false 95)) threat = inr r
  /\ r.(Severity) = "critical"
  /\ exists i, In i threat.(IOCs) /\ i.(InDatabase) = true.
Proof.
  cbv zeta. split; [vm_compute; reflexivity|]. split; [vm_compute; reflexivity|].
  apply (Triage_critical_requires_intel asciiToLower asciiTrimSpace
           (answering (reply "critical" 1 false 95))
           (alertWith [indicator "203.0.113.9" true ["feed"] ["scanner"]])
           (asciiPostFilter (reply "critical" 1 false 95)
              (alertWith [indicator "203.0.113.9" true ["feed"] ["scanner"]])
              DefaultGuardrailConfig)).
  - vm_compute. reflexivity.
  - vm_compute. reflexivity.
Defined.

Lemma ApplyPostLLMGuardrails_no_boost_without_intel_witness :
  let threat := alertWith [indicator "203.0.113.9" false ["a"; "b"; "c"] []] in
  (forall ioc, In ioc threat.(IOCs) -> ioc.(InDatabase) = false)
  /\ (asciiPostFilter (reply "high" 2 false 70) threat DefaultGuardrailConfig).(Confidence)
     <= normalizeConfidence (reply "high" 2 false 70).(Confidence).
Proof.
  cbv zeta.
  assert (H : forall ioc,
            In ioc (alertWith [indicator "203.0.113.9" false ["a"; "b"; "c"] []]).(IOCs) ->
            ioc.(InDatabase) = false).
  { intros ioc [<-|[]]. reflexivity. }
  split; [exact H|].
  apply (ApplyPostLLMGuardrails_no_boost_without_intel asciiToLower asciiTrimSpace). exact H.
Defined.

Lemma Triage_recommended_nonempty_witness :
  let threat := alertWith [indicator "203.0.113.9" false [] []] in
  let r := asciiPostFilter (reply "medium" 3 false 60) threat DefaultGuardrailConfig in
  asciiTriage (answering (reply "medium" 3 false 60)) threat = inr r
  /\ r.(FalsePositive) = false
  /\ r.(Recommended) <> [].
Proof.
  cbv zeta. split; [vm_compute; reflexivity|]. split; [vm_compute; reflexivity|].
  apply (Triage_recommended_nonempty asciiToLower asciiTrimSpace
           (answering (reply "medium" 3 false 60))
           (alertWith [indicator "203.0.113.9" false [] []])).
  - vm_compute. reflexivity.
  - vm_compute. reflexivity.
Defined.

Lemma Triage_known_bad_verdict_witness :
  let ioc := indicator "192.0.2.5" true ["alienvault-otx"] ["c2_server"] in
  let threat := alertWith [ioc] in
  let t := answering (reply "info" 5 true 99) in
  (t.(enabled) = true /\ In ioc threat.(IOCs) /\ ioc.(InDatabase) = true
   /\ In "c2_server" ioc.(ThreatTypes)
   /\ isHighRiskThreatType asciiToLower "c2_server" = true
   /\ forallb (fun i => isKnownGoodIndicator asciiToLower i.(Value)) threat.(IOCs) = false)
  /\ exists r,
       asciiTriage t threat = inr r
       /\ r.(Severity) = "high" /\ r.(Priority) = 2
       /\ r.(Confidence) = 90 /\ r.(FalsePositive) = false.
Proof.
  cbv zeta. split.
  - split; [reflexivity|]. split; [now left|]. split; [reflexivity|].
    split; [now left|]. split; vm_compute; reflexivity.
  - apply (Triage_known_bad_verdict asciiToLower asciiTrimSpace
             (answering (reply "info" 5 true 99))
             (alertWith [indicator "192.0.2.5" true ["alienvault-otx"] ["c2_server"]])
             (indicator "192.0.2.5" true ["alienvault-otx"] ["c2_server"]) "c2_server").
    + reflexivity.
    + now left.
    + reflexivity.
    + now left.
    + vm_compute. reflexivity.
    + vm_compute. reflexivity.
Defined.

End LimitScenarios.

(* ================================================================= *)
(** ** The webhook on an allowlisted alert *)

Section AllowlistedAlert.
Import Domain Repository Handler.

Variable ToLower : string -> string.
Variable TrimSpace : string -> string.

Lemma enrichIndicators_values (repo : IOCRepository) (indicators : list SentinelOneIOC) :
  (forall i, In i indicators -> repo.(FindAllByValue) i.(Value) <> QueryError) ->
  map eValue (enrichIndicators repo indicators) = map Value indicators.
Proof.
  intros Hok. induction indicators as [|i l IH]; [reflexivity|]. cbn [enrichIndicators map].
  destruct (enrichIndicator repo i) as [e|] eqn:E.
  - destruct (enrichIndicator_verbatim repo i e E) as [_ Hv].
    cbn [map]. rewrite Hv. f_equal. apply IH. intros j Hj. apply Hok. now right.
  - exfalso. unfold enrichIndicator in E.
    destruct (FindAllByValue repo (Value i)) eqn:F.
    + apply (Hok i); [now left | assumption].
    + destruct (if Nat.eqb _ 0 then _ else _); discriminate.
Qed.

(** X27. An alert whose indicator values are all on the allowlist is never
    notified when triage is enabled: if the alert has at least one
    indicator, every indicator value is a known-good one and no exact lookup
    fails, the webhook answers false_positive = true, llm_triaged = true and
    slack_notification = false -- whatever the catalog holds for those
    values and whatever the LLM would answer. *)
Theorem SentinelOneWebhook_allowlisted (repo : IOCRepository) (t : Llm.LLMTriager)
    (slackNotifier : bool) (payload : SentinelOneAlert)
    (Hon : t.(Llm.enabled) = true)
    (Hsome : payload.(Indicators) <> [])
    (Hgood : forall i, In i payload.(Indicators) ->
               Llm.isKnownGoodIndicator ToLower i.(Value) = true)
    (Hok : forall i, In i payload.(Indicators) ->
             repo.(FindAllByValue) i.(Value) <> QueryError) :
  let response := SentinelOneWebhook ToLower TrimSpace repo (Some t) slackNotifier payload in
  response.(false_positive) = Some true
  /\ response.(llm_triaged) = true
  /\ response.(slack_notification) = false.
Proof.
  cbv zeta. unfold SentinelOneWebhook. cbv zeta. rewrite Hon.
  pose proof (enrichIndicators_values repo payload.(Indicators) Hok) as Hvals.
  set (enriched := enrichIndicators repo payload.(Indicators)) in *.
  unfold Llm.Triage. rewrite Hon. cbn [negb].
  unfold Llm.ApplyPreLLMGuardrails. cbn [threatContextOf Llm.IOCs].
  assert (Hall : forallb (fun ioc => Llm.isKnownGoodIndicator ToLower ioc.(Llm.Value))
                   (map (fun ind =>
                           {| Llm.Type_ := ind.(eType);
                              Llm.Value := ind.(eValue);
                              Llm.InDatabase := ind.(InDatabase);
                              Llm.Sources := ind.(Sources);
                              Llm.Tags := ind.(Tags);
                              Llm.ThreatTypes := ind.(ThreatTypes);
                              Llm.FirstSeen := ind.(FirstSeen) |}) enriched) = true).
  { rewrite forallb_forall. intros ioc Hin. apply in_map_iff in Hin.
    destruct Hin as [e [<- He]]. cbn [Llm.Value].
    assert (Hv : In e.(eValue) (map Value payload.(Indicators)))
      by (rewrite <- Hvals; now apply in_map).
    apply in_map_iff in Hv. destruct Hv as [i [<- Hi]]. now apply Hgood. }
  assert (Hlen : (0 <? Z.of_nat (List.length
                   (map (fun ind =>
                           {| Llm.Type_ := ind.(eType);
                              Llm.Value := ind.(eValue);
                              Llm.InDatabase := ind.(InDatabase);
                              Llm.Sources := ind.(Sources);
                              Llm.Tags := ind.(Tags);
                              Llm.ThreatTypes := ind.(ThreatTypes);
                              Llm.FirstSeen := ind.(FirstSeen) |}) enriched))) = true).
  { apply Z.ltb_lt. rewrite length_map.
    assert (List.length enriched = List.length payload.(Indicators)).
    { rewrite <- (length_map eValue), Hvals. apply length_map. }
    destruct payload.(Indicators); [contradiction|]. cbn in *. lia. }
  rewrite Hall, Hlen. cbn. auto.
Qed.

End AllowlistedAlert.

Section AllowlistedScenario.
Import GoStrings Domain Repository Handler Scenarios.

Lemma SentinelOneWebhook_allowlisted_witness :
  let payload := alertOn [mkSentinelOneIOC "DOMAIN" "update.microsoft.com"] in
  let repo := exactOnly catalog in
  (Scenarios.unreachable.(Llm.enabled) = true
   /\ payload.(Indicators) <> []
   /\ (forall i, In i payload.(Indicators) ->
         Llm.isKnownGoodIndicator asciiToLower i.(Value) = true)
   /\ (forall i, In i payload.(Indicators) ->
         repo.(FindAllByValue) i.(Value) <> QueryError))
  /\ (let response :=
        SentinelOneWebhook asciiToLower asciiTrimSpace repo (Some Scenarios.unreachable)
          true payload in
      response.(false_positive) = Some true
      /\ response.(llm_triaged) = true
      /\ response.(slack_notification) = false).
Proof.
  cbv zeta.
  assert (Hgood : forall i,
            In i (alertOn [mkSentinelOneIOC "DOMAIN" "update.microsoft.com"]).(Indicators) ->
            Llm.isKnownGoodIndicator asciiToLower i.(Value) = true).
  { intros i [<-|[]]. vm_compute. reflexivity. }
  assert (Hok : forall i,
            In i (alertOn [mkSentinelOneIOC "DOMAIN" "update.microsoft.com"]).(Indicators) ->
            (exactOnly catalog).(FindAllByValue) i.(Value) <> QueryError).
  { intros i [<-|[]]. discriminate. }
  split.
  - split; [reflexivity|]. split; [discriminate|]. split; assumption.
  - apply (SentinelOneWebhook_allowlisted asciiToLower asciiTrimSpace (exactOnly catalog)
             Scenarios.unreachable true
             (alertOn [mkSentinelOneIOC "DOMAIN" "update.microsoft.com"]));
      [reflexivity | discriminate | assumption | assumption].
Defined.

End AllowlistedScenario.
